(** * SoupAIDD: the trainer and the predictor scripts, embedded and verified

    The repository consists of two linear Python scripts, [train_model.py]
    and [predict.py].  Both are modelled below as programs of a small
    state, exception and output monad: the state holds the files of the
    script's folder, the lines still waiting on the console and the clock;
    a run ends with a value, an uncaught exception or [exit()], and yields
    the trace of everything it did that can be observed from outside (text
    printed, prompts, files opened, files written).

    Conventions.
    - A Python [str] is a [string] holding its UTF-8 bytes.  Prefix tests,
      equality, splitting at an ASCII comma and replacing a substring give
      the same answer on UTF-8 bytes as on code points.
    - A Python [float] is a [pyfloat]: a rational for a finite value, or one
      of the three special values.  Ordering tests agree with IEEE 754.
    - Functions of [datetime], [numpy], [sklearn] and the builtin [float]
      are not code of this repository; they are the fields of the class
      [Lib], and [RefLib] is an executable instance of it. *)

From Stdlib Require Import String Ascii List ZArith NArith QArith Bool Lia Arith.
From Stdlib Require Import Permutation Sorted DecimalString DecimalZ DecimalPos.
Import ListNotations.

Open Scope string_scope.
Open Scope Z_scope.

(* ================================================================== *)
(** ** Python strings *)

Module PyStr.

(** [s.startswith(p)] *)
Definition startswith (s p : string) : bool := String.prefix p s.

(** [sep.join(l)] *)
Definition join (sep : string) (l : list string) : string := String.concat sep l.

(** [x in l] for a list of strings *)
Definition mem (x : string) (l : list string) : bool := existsb (String.eqb x) l.

(** [s * n] *)
Fixpoint mul (s : string) (n : nat) : string :=
  match n with
  | O => ""
  | S k => s ++ mul s k
  end.

(** [s.replace(old, new)] for a non-empty [old]: every occurrence, scanning
    from the left, occurrences do not overlap.  [skip] counts the bytes of
    an occurrence that are still to be dropped. *)
Fixpoint replace_go (old new : string) (skip : nat) (s : string) : string :=
  match s with
  | EmptyString => EmptyString
  | String c r =>
      match skip with
      | S k => replace_go old new k r
      | O =>
          if String.prefix old s
          then new ++ replace_go old new (String.length old - 1) r
          else String c (replace_go old new O r)
      end
  end.

Definition replace (s old new : string) : string := replace_go old new O s.

(** [s.split(',')] *)
Fixpoint split_comma (s : string) : list string :=
  match s with
  | EmptyString => [EmptyString]
  | String c r =>
      if Ascii.eqb c ","%char then EmptyString :: split_comma r
      else match split_comma r with
           | h :: t => String c h :: t
           | [] => [String c EmptyString]
           end
  end.

(** Width in bytes of the white-space character (in the sense of
    [str.isspace]) that starts the byte list, 0 when there is none:
    U+0009..000D, U+001C..0020, U+0085, U+00A0, U+1680, U+2000..200A,
    U+2028, U+2029, U+202F, U+205F, U+3000. *)
Definition ws_width (l : list N) : nat :=
  match l with
  | a :: t =>
      if (((9 <=? a) && (a <=? 13)) || ((28 <=? a) && (a <=? 32)))%N then 1%nat
      else match t with
           | b :: t' =>
               if ((a =? 194) && ((b =? 133) || (b =? 160)))%N then 2%nat
               else match t' with
                    | c :: _ =>
                        if (((a =? 225) && (b =? 154) && (c =? 128))
                            || ((a =? 226) && (b =? 128)
                                && (((128 <=? c) && (c <=? 138))
                                    || (c =? 168) || (c =? 169) || (c =? 175)))
                            || ((a =? 226) && (b =? 129) && (c =? 159))
                            || ((a =? 227) && (b =? 128) && (c =? 128)))%N
                        then 3%nat else 0%nat
                    | [] => 0%nat
                    end
           | [] => 0%nat
           end
  | [] => 0%nat
  end.

(** The same, read from the end of the string: the list is reversed. *)
Definition ws_width_rev (l : list N) : nat :=
  match l with
  | a :: t =>
      if (ws_width [a] =? 1)%nat then 1%nat
      else match t with
           | b :: t' =>
               if (ws_width [b; a] =? 2)%nat then 2%nat
               else match t' with
                    | c :: _ => if (ws_width [c; b; a] =? 3)%nat then 3%nat else 0%nat
                    | [] => 0%nat
                    end
           | [] => 0%nat
           end
  | [] => 0%nat
  end.

Fixpoint drop_ws (w : list N -> nat) (fuel : nat) (l : list N) : list N :=
  match fuel with
  | O => l
  | S f =>
      match w l with
      | O => l
      | k => drop_ws w f (skipn k l)
      end
  end.

Definition bytes (s : string) : list N := map N_of_ascii (list_ascii_of_string s).
Definition of_bytes (l : list N) : string := string_of_list_ascii (map ascii_of_N l).

(** [s.strip()] *)
Definition strip (s : string) : string :=
  let l := bytes s in
  let l1 := drop_ws ws_width (List.length l) l in
  let l2 := drop_ws ws_width_rev (List.length l1) (rev l1) in
  of_bytes (rev l2).

(** [str(z)] for an integer *)
Definition of_Z (z : Z) : string := NilZero.string_of_int (Z.to_int z).

End PyStr.

(* ================================================================== *)
(** ** Python floats *)

Module PyFloat.

Inductive pyfloat : Type :=
| Fin (q : Q)
| PosInf
| NegInf
| NaN.

Definition Qltb (a b : Q) : bool := negb (Qle_bool b a).

(** [x < y] *)
Definition ltb (x y : pyfloat) : bool :=
  match x, y with
  | Fin a, Fin b => Qltb a b
  | NegInf, Fin _ | NegInf, PosInf | Fin _, PosInf => true
  | _, _ => false
  end.

(** [x > y] *)
Definition gtb (x y : pyfloat) : bool := ltb y x.

(** [x + y]; on rationals the sum is exact. *)
Definition add (x y : pyfloat) : pyfloat :=
  match x, y with
  | NaN, _ | _, NaN => NaN
  | Fin a, Fin b => Fin (a + b)
  | PosInf, NegInf | NegInf, PosInf => NaN
  | PosInf, _ | _, PosInf => PosInf
  | NegInf, _ | _, NegInf => NegInf
  end.

(** [x / n] for a positive count [n] *)
Definition div_count (x : pyfloat) (n : nat) : pyfloat :=
  match x with
  | Fin a => Fin (a / inject_Z (Z.of_nat n))
  | other => other
  end.

Definition of_Z (z : Z) : pyfloat := Fin (inject_Z z).

End PyFloat.
Export PyFloat.

(** A cell of a data frame: [int64], [float64] (a missing value is [NaN])
    or a string. *)
Inductive cell : Type :=
| CInt (z : Z)
| CFloat (x : pyfloat)
| CStr (s : string).

(** A table: column names, and rows aligned with them. *)
Record dataframe : Type := {
  columns : list string;
  rows : list (list cell)
}.

(** A fitted classifier, as far as the scripts look into it. *)
Record classifier : Type := {
  predict_proba : list cell -> list Q;
  predict : list cell -> nat;
  feature_importances_ : list Q
}.

(* ================================================================== *)
(** ** Library functions the scripts call *)

(** Result of [train_test_split]: [(X_train, X_test, y_train, y_test)]. *)
Definition partition : Type :=
  (list (list cell) * list (list cell) * list nat * list nat)%type.

(** Arguments of [RandomForestClassifier(...)]. *)
Record forest_params : Type := {
  n_estimators : Z;
  max_depth : Z;
  min_samples_split : Z;
  random_state : Z;
  class_weight : string
}.

Class Lib : Type := {
  (** [datetime] *)
  date : Type;
  (** [datetime.strptime(s, "%Y-%m-%d")]; [None] is its [ValueError] *)
  strptime : string -> option date;
  (** [d.strftime("%Y-%m-%d")] *)
  strftime : date -> string;
  (** [d + timedelta(days=1)] *)
  plus_one_day : date -> date;
  (** [d.isoweekday()] *)
  isoweekday : date -> Z;
  (** [d.month] *)
  month_of : date -> Z;
  (** the builtin [float(s)]; [None] is its [ValueError] *)
  float_of_str : string -> option pyfloat;
  (** [np.argsort(p)] *)
  argsort : list Q -> list nat;
  (** [train_test_split(X, y, test_size, random_state, stratify)];
      [None] is its [ValueError] *)
  train_test_split :
    list (list cell) -> list nat -> Q -> Z -> option (list nat) -> option partition;
  (** [RandomForestClassifier(params).fit(X, y)]; [None] is its [ValueError] *)
  forest_fit : forest_params -> list (list cell) -> list nat -> option classifier;
  (** [accuracy_score(y_true, y_pred)] *)
  accuracy_score : list nat -> list nat -> Q;
  (** [classification_report(y_true, y_pred, target_names)];
      [None] is its [ValueError] *)
  classification_report : list nat -> list nat -> list string -> option string;
  (** [df.sort_values(by, ascending=False)] on (name, importance) rows *)
  sort_values_desc : list (string * Q) -> list (string * Q)
}.

(* ================================================================== *)
(** ** Observable behaviour: the trace *)

(** A fragment of printed text: fixed or interpolated text, an integer, a
    float printed by [str], or a number [x] printed as [f"{x*100:.1f}"]. *)
Inductive piece : Type :=
| T (s : string)
| I (z : Z)
| F (x : pyfloat)
| P1 (x : Q).

Inductive event : Type :=
| Print (text : list piece) (end_ : string)   (** [print(text, end=end_)] *)
| Prompt (text : string)                      (** the prompt of [input(text)] *)
| Open (file : string)                        (** a file is opened for reading *)
| Dump (file : string)                        (** [joblib.dump(obj, file)] *)
| Append (file : string) (text : list piece). (** a line appended to a file *)

Inductive exn : Type :=
| FileNotFoundError (file : string)
| ValueError (what : string)
| KeyError (key : string)
| IndexError
| TypeError
| EOFError.

Inductive result (A : Type) : Type :=
| Ret (a : A)
| Raise (e : exn)
| Exit.                                       (** [exit()] *)

Arguments Ret {A} a.
Arguments Raise {A} e.
Arguments Exit {A}.

(** The files of the script's folder. *)
Record files : Type := {
  soup_predictor_model_pkl : option classifier;
  label_encoder_pkl : option (list string);
  feature_columns_pkl : option (list string);
  history_cleaned_csv : option dataframe;
  predictions_log_txt : list (list piece)
}.

Definition nl : string := String (ascii_of_nat 10) EmptyString.

(* ================================================================== *)
(** ** The monad of the scripts *)

Section Scripts.

Context {L : Lib}.

(** What a run can see and change: the files, the lines still to be read
    from the console, and the clock. *)
Record world : Type := {
  fs : files;
  stdin : list string;
  now : date
}.

(** A computation returns its result, the world it leaves, and the trace of
    what it did, oldest event first. *)
Definition M (A : Type) : Type := world -> result A * world * list event.

Definition ret {A : Type} (a : A) : M A := fun w => (Ret a, w, []).

Definition bind {A B : Type} (m : M A) (k : A -> M B) : M B :=
  fun w =>
    match m w with
    | (Ret a, w1, t1) =>
        match k a w1 with
        | (r, w2, t2) => (r, w2, t1 ++ t2)%list
        end
    | (Raise e, w1, t1) => (Raise e, w1, t1)
    | (Exit, w1, t1) => (Exit, w1, t1)
    end.

Definition raise {A : Type} (e : exn) : M A := fun w => (Raise e, w, []).

(** [exit()] *)
Definition exit {A : Type} : M A := fun w => (Exit, w, []).

Definition emit (e : event) : M unit := fun w => (Ret tt, w, [e]).

(** [print(text)] *)
Definition print (text : list piece) : M unit := emit (Print text nl).

(** [print(text, end=e)] *)
Definition print_end (text : list piece) (e : string) : M unit := emit (Print text e).

(** [input(prompt)]: the next console line, [EOFError] when there is none. *)
Definition input (prompt : string) : M string :=
  fun w =>
    match stdin w with
    | line :: rest =>
        (Ret line, {| fs := fs w; stdin := rest; now := now w |}, [Prompt prompt])
    | [] => (Raise EOFError, w, [Prompt prompt])
    end.

(** [datetime.now()] *)
Definition datetime_now : M date := fun w => (Ret (now w), w, []).

(** Opening a file of the folder for reading. *)
Definition open_file {A : Type} (name : string) (content : files -> option A) : M A :=
  fun w =>
    match content (fs w) with
    | Some a => (Ret a, w, [Open name])
    | None => (Raise (FileNotFoundError name), w, [Open name])
    end.

(** Changing the files. *)
Definition write_file (e : event) (f : files -> files) : M unit :=
  fun w => (Ret tt, {| fs := f (fs w); stdin := stdin w; now := now w |}, [e]).

(** [try: body  except FileNotFoundError: handler] *)
Definition try_FileNotFoundError {A : Type} (body handler : M A) : M A :=
  fun w =>
    match body w with
    | (Raise (FileNotFoundError _), w1, t1) =>
        match handler w1 with
        | (r, w2, t2) => (r, w2, t1 ++ t2)%list
        end
    | other => other
    end.

(** [try: body  except ValueError: handler] *)
Definition try_ValueError {A : Type} (body handler : M A) : M A :=
  fun w =>
    match body w with
    | (Raise (ValueError _), w1, t1) =>
        match handler w1 with
        | (r, w2, t2) => (r, w2, t1 ++ t2)%list
        end
    | other => other
    end.

(** An optional library result, [None] being the [ValueError] named [what]. *)
Definition or_ValueError {A : Type} (what : string) (o : option A) : M A :=
  match o with
  | Some a => ret a
  | None => raise (ValueError what)
  end.

Definition or_raise {A : Type} (e : exn) (o : option A) : M A :=
  match o with
  | Some a => ret a
  | None => raise e
  end.

Notation "x <- c1 ;; c2" := (bind c1 (fun x => c2))
  (at level 61, c1 at next level, right associativity).
Notation "' pat <- c1 ;; c2" := (bind c1 (fun x => match x with pat => c2 end))
  (at level 61, pat pattern, c1 at next level, right associativity).
Notation "c1 ;; c2" := (bind c1 (fun _ => c2))
  (at level 61, right associativity).

(** [for x in l: body x], the loop variable threaded through the monad. *)
Fixpoint for_each {A : Type} (l : list A) (body : A -> M unit) : M unit :=
  match l with
  | [] => ret tt
  | x :: r => body x ;; for_each r body
  end.

(* ================================================================== *)
(** ** Data frames *)

(** Position of a column name. *)
Fixpoint index_of (name : string) (l : list string) : option nat :=
  match l with
  | [] => None
  | c :: r => if String.eqb c name then Some O
              else option_map S (index_of name r)
  end.

(** [df[name]]: the cells of a column, [KeyError] when it does not exist. *)
Definition column (df : dataframe) (name : string) : M (list cell) :=
  match index_of name (columns df) with
  | Some i => ret (map (fun r => nth i r (CFloat NaN)) (rows df))
  | None => raise (KeyError name)
  end.

(** A one-row frame under construction: its columns in insertion order. *)
Definition row_frame : Type := list (string * cell).

(** [df[name] = v] on a one-row frame: overwrite, or add at the end. *)
Fixpoint set_column (df : row_frame) (name : string) (v : cell) : row_frame :=
  match df with
  | [] => [(name, v)]
  | (c, x) :: r => if String.eqb c name then (c, v) :: r
                   else (c, x) :: set_column r name v
  end.

Fixpoint get_column (df : row_frame) (name : string) : option cell :=
  match df with
  | [] => None
  | (c, x) :: r => if String.eqb c name then Some x else get_column r name
  end.

(** [df[names]]: the named columns in the order of [names], [KeyError] at the
    first name the frame does not have. *)
Fixpoint select_columns (df : row_frame) (names : list string) : M row_frame :=
  match names with
  | [] => ret []
  | c :: r =>
      match get_column df c with
      | Some x => rest <- select_columns df r ;; ret ((c, x) :: rest)
      | None => raise (KeyError c)
      end
  end.

(* ================================================================== *)
(** ** predict.py *)

(** Step 1: the three artifacts ([predict.py], lines 13-21). *)
Definition load_artifacts : M (classifier * list string * list string) :=
  try_FileNotFoundError
    (model <- open_file "soup_predictor_model.pkl" soup_predictor_model_pkl ;;
     label_encoder <- open_file "label_encoder.pkl" label_encoder_pkl ;;
     feature_columns <- open_file "feature_columns.pkl" feature_columns_pkl ;;
     print [T "✅ AI模型加载成功！"] ;;
     print [T "   已学习汤品："; T (PyStr.join ", " label_encoder)] ;;
     ret (model, label_encoder, feature_columns))
    (print [T "❌ 错误：找不到模型文件！请先运行 train_model.py 训练模型"] ;;
     exit).

(** The date prompt (lines 27-31). *)
Definition ask_date : M string :=
  date_input <- input "日期（回车默认明天，或输入如2024-02-01）：" ;;
  let date_input := PyStr.strip date_input in
  if String.eqb date_input "" then
    today <- datetime_now ;;
    let tomorrow := plus_one_day today in
    let date_input := strftime tomorrow in
    print [T "   使用默认："; T date_input] ;;
    ret date_input
  else ret date_input.

(** [datetime.strptime(date_input, "%Y-%m-%d")] *)
Definition parse_date (date_input : string) : M date :=
  or_ValueError "strptime" (strptime date_input).

(** The weekday prompt (lines 34-37). *)
Definition ask_weekday (date_input : string) : M string :=
  weekday <- input "星期几（1=周一，7=周日，回车自动计算）：" ;;
  let weekday := PyStr.strip weekday in
  if String.eqb weekday "" then
    d <- parse_date date_input ;;
    let weekday := PyStr.of_Z (isoweekday d) in
    print [T "   自动判断：星期"; T weekday] ;;
    ret weekday
  else ret weekday.

Definition weather_map : list (string * Z) :=
  [("晴", 3); ("多云", 2); ("阴", 1); ("雨", 0); ("小雨", 0); ("潮湿", 1); ("干燥", 3)].

(** [d.get(key, default)] *)
Fixpoint dict_get (d : list (string * Z)) (key : string) (default : Z) : Z :=
  match d with
  | [] => default
  | (k, v) :: r => if String.eqb k key then v else dict_get r key default
  end.

(** The weather prompt (lines 41-44). *)
Definition ask_weather : M (string * Z) :=
  print [T nl; T "天气选项：晴(3), 多云(2), 阴(1), 雨(0)"] ;;
  weather_str <- input "明天天气：" ;;
  let weather_str := PyStr.strip weather_str in
  let weather_code := dict_get weather_map weather_str 2 in
  print [T "   编码："; I weather_code] ;;
  ret (weather_str, weather_code).

(** The temperature prompt (lines 47-51). *)
Definition ask_temp : M pyfloat :=
  temp <- input "明天温度（摄氏度，如25）：" ;;
  let temp := PyStr.strip temp in
  let temp := if String.eqb temp "" then "20" else temp in
  temp <- or_ValueError "float" (float_of_str temp) ;;
  print [T "   温度："; F temp; T "°C"] ;;
  ret temp.

(** Line 54: [1 if weekday in ['6', '7'] else 0]. *)
Definition is_weekend_of (weekday : string) : Z :=
  if PyStr.mem weekday ["6"; "7"] then 1 else 0.

Definition Z_mem (x : Z) (l : list Z) : bool := existsb (Z.eqb x) l.

(** Line 59. *)
Definition season_of (month : Z) : Z :=
  if Z_mem month [3; 4; 5] then 1
  else if Z_mem month [6; 7; 8] then 2
  else if Z_mem month [9; 10; 11] then 3
  else 4.

(** [col.replace('食材_', '')] *)
Definition ingredient_name (col : string) : string := PyStr.replace col "食材_" "".

Definition is_ingredient (col : string) : bool := PyStr.startswith col "食材_".

(** Line 67: the pantry list typed by the user. *)
Definition parse_inventory (inventory_input : string) : list string :=
  filter (fun i => negb (String.eqb i ""))
    (map PyStr.strip (PyStr.split_comma (PyStr.replace inventory_input "，" ","))).

(** The pantry prompt (lines 63-67). *)
Definition ask_inventory (feature_columns : list string) : M (list string) :=
  print [T nl; T "🥬 冰箱现在有什么食材？（输入学过的食材，用逗号分隔）"] ;;
  print [T "   可选食材：";
         T (PyStr.join ", " (map ingredient_name (filter is_ingredient feature_columns)))] ;;
  inventory_input <- input "库存食材：" ;;
  let inventory_input := PyStr.strip inventory_input in
  ret (parse_inventory inventory_input).

(** Lines 73-80: the frame with the six fixed columns. *)
Definition base_frame (temp : pyfloat) (weather_code month season is_weekend : Z)
  : row_frame :=
  [("温度", CFloat temp); ("天气编码", CInt weather_code); ("月份", CInt month);
   ("季节编码", CInt season); ("是否周末", CInt is_weekend); ("反馈分数", CInt 75)].

(** Lines 83-86: one 0/1 column per ingredient column of the schema. *)
Definition add_ingredients (feature_columns inventory_list : list string)
  (tomorrow_data : row_frame) : row_frame :=
  fold_left
    (fun df col =>
       if is_ingredient col
       then set_column df col
              (CInt (if PyStr.mem (ingredient_name col) inventory_list then 1 else 0))
       else df)
    feature_columns tomorrow_data.

(** Lines 73-89: [tomorrow_features]. *)
Definition tomorrow_features (feature_columns inventory_list : list string)
  (temp : pyfloat) (weather_code month season is_weekend : Z) : M row_frame :=
  let tomorrow_data := base_frame temp weather_code month season is_weekend in
  let tomorrow_data := add_ingredients feature_columns inventory_list tomorrow_data in
  select_columns tomorrow_data feature_columns.

(** [l[-n:]] *)
Definition last_n {A : Type} (n : nat) (l : list A) : list A :=
  skipn (List.length l - n) l.

(** Line 96: [np.argsort(probabilities)[-3:][::-1]]. *)
Definition top3_indices (probabilities : list Q) : list nat :=
  rev (last_n 3 (argsort probabilities)).

(** [label_encoder.inverse_transform(indices)]: [ValueError] when an index is
    not one of the classes. *)
Definition inverse_transform (classes : list string) (indices : list nat)
  : M (list string) :=
  if forallb (fun i => (i <? List.length classes)%nat) indices
  then ret (map (fun i => nth i classes "") indices)
  else raise (ValueError "inverse_transform").

(** [a[indices]] *)
Definition take (a : list Q) (indices : list nat) : M (list Q) :=
  if forallb (fun i => (i <? List.length a)%nat) indices
  then ret (map (fun i => nth i a 0%Q) indices)
  else raise IndexError.

(** [l[i]] *)
Definition item {A : Type} (l : list A) (i : nat) : M A :=
  or_raise IndexError (nth_error l i).

(** Lines 110-118: the rationale. *)
Definition reasons_of (is_weekend weather_code : Z) (temp : pyfloat) : list string :=
  let reasons : list string := [] in
  let reasons := if negb (is_weekend =? 0)
                 then (reasons ++ ["周末时间充裕，适合煲老火汤"])%list else reasons in
  let reasons := if weather_code <=? 1
                 then (reasons ++ ["天气阴/雨，适合暖身汤品"])%list else reasons in
  let reasons := if PyFloat.ltb temp (PyFloat.of_Z 15)
                 then (reasons ++ ["气温较低，需要温补"])%list
                 else if PyFloat.gtb temp (PyFloat.of_Z 28)
                      then (reasons ++ ["天气炎热，适合清淡解腻"])%list else reasons in
  reasons.

(** [series.mean()]: missing values are skipped, strings cannot be added. *)
Definition is_CStr (c : cell) : bool :=
  match c with CStr _ => true | _ => false end.

Definition numeric_values (cells : list cell) : list pyfloat :=
  flat_map (fun c => match c with
                     | CInt z => [PyFloat.of_Z z]
                     | CFloat NaN => []
                     | CFloat x => [x]
                     | CStr _ => []
                     end) cells.

Definition mean (cells : list cell) : M pyfloat :=
  if existsb is_CStr cells then raise TypeError
  else
    let values := numeric_values cells in
    match values with
    | [] => ret NaN
    | _ => ret (PyFloat.div_count (fold_left PyFloat.add values (Fin 0))
                  (List.length values))
    end.

Definition cell_is (value : string) (c : cell) : bool :=
  match c with CStr s => String.eqb s value | _ => false end.

(** [df[df[name] == value]] *)
Definition rows_where (df : dataframe) (name value : string) : M dataframe :=
  match index_of name (columns df) with
  | Some i =>
      ret {| columns := columns df;
             rows := filter (fun r => cell_is value (nth i r (CFloat NaN))) (rows df) |}
  | None => raise (KeyError name)
  end.

(** Lines 132-135: the ingredients most records of the soup contain. *)
Fixpoint typical_ingredients (soup_history : dataframe) (feature_columns : list string)
  : M (list string) :=
  match feature_columns with
  | [] => ret []
  | col :: r =>
      if is_ingredient col then
        cells <- column soup_history col ;;
        m <- mean cells ;;
        rest <- typical_ingredients soup_history r ;;
        ret (if PyFloat.gtb m (Fin (1 # 2)) then ingredient_name col :: rest else rest)
      else typical_ingredients soup_history r
  end.

(** Line 140. *)
Definition missing_of (typical inventory_list : list string) : list string :=
  filter (fun ing => negb (PyStr.mem ing inventory_list)) typical.

Definition nonempty {A : Type} (l : list A) : bool :=
  match l with [] => false | _ => true end.

(** Lines 127-146: what the top soup needs and what the pantry lacks. *)
Definition explain_missing (top1 : string) (feature_columns inventory_list : list string)
  : M unit :=
  history_df <- open_file "history_cleaned.csv" history_cleaned_csv ;;
  soup_history <- rows_where history_df "汤名" top1 ;;
  if nonempty (rows soup_history) then
    typical <- typical_ingredients soup_history feature_columns ;;
    print [T "   通常需要："; T (PyStr.join ", " typical)] ;;
    let missing := missing_of typical inventory_list in
    if nonempty missing
    then print [T "   ⚠️  缺少食材："; T (PyStr.join ", " missing); T "（建议购买）"]
    else print [T "   ✅ 食材齐全，可以开煲！"]
  else print [T "   建议查看历史记录了解配方"].

(** The float [0.05]: the double nearest to one twentieth. *)
Definition float_0_05 : Q := 3602879701896397 # 72057594037927936.

(** Lines 149-153: ranks 2 and 3. *)
Definition show_alternatives (top3_soups : list string) (top3_probs : list Q) : M unit :=
  if (1 <? List.length top3_soups)%nat then
    print [T nl; T "🥈 备选方案："] ;;
    for_each (seq 1 (List.length top3_soups - 1))
      (fun i =>
         p <- item top3_probs i ;;
         if PyFloat.Qltb float_0_05 p then
           soup <- item top3_soups i ;;
           print [T "   "; I (Z.of_nat i + 1); T ". "; T soup; T " (概率"; P1 p; T "%)"]
         else ret tt)
  else ret tt.

(** [s.lower()] on the ASCII letters; no other character becomes an ASCII
    letter that the script compares with. *)
Definition lower_byte (n : N) : N :=
  if ((65 <=? n) && (n <=? 90))%N then (n + 32)%N else n.

Definition lower (s : string) : string := PyStr.of_bytes (map lower_byte (PyStr.bytes s)).

(** Lines 160-165: the optional line in the log. *)
Definition save_prediction (date_input top1 : string) (p1 : Q) (weather_str : string)
  (temp : pyfloat) : M unit :=
  save_record <- input (nl ++ "是否保存这次预测到记录？(y/n)：") ;;
  let save_record := lower (PyStr.strip save_record) in
  if String.eqb save_record "y" then
    let line := [T date_input; T " | 预测："; T top1; T " | 概率："; P1 p1;
                 T "% | 天气："; T weather_str; T " "; F temp; T "°C"; T nl] in
    write_file (Append "predictions_log.txt" line)
      (fun f => {| soup_predictor_model_pkl := soup_predictor_model_pkl f;
                   label_encoder_pkl := label_encoder_pkl f;
                   feature_columns_pkl := feature_columns_pkl f;
                   history_cleaned_csv := history_cleaned_csv f;
                   predictions_log_txt := (predictions_log_txt f ++ [line])%list |}) ;;
    print [T "✅ 已保存到 predictions_log.txt"]
  else ret tt.

(** Step 2: the four prompts about tomorrow and what is derived from the
    answers (lines 24-60). *)
Record tomorrow_inputs : Type := {
  in_date_input : string;
  in_weekday : string;
  in_weather_str : string;
  in_weather_code : Z;
  in_temp : pyfloat;
  in_is_weekend : Z;
  in_month : Z;
  in_season : Z
}.

Definition ask_tomorrow : M tomorrow_inputs :=
  print [T nl; T "📅 请输入明天的信息："] ;;
  date_input <- ask_date ;;
  weekday <- ask_weekday date_input ;;
  ' (weather_str, weather_code) <- ask_weather ;;
  temp <- ask_temp ;;
  let is_weekend := is_weekend_of weekday in
  print [T "   是否周末："; T (if negb (is_weekend =? 0) then "是" else "否")] ;;
  d <- parse_date date_input ;;
  let month := month_of d in
  let season := season_of month in
  print [T "   月份："; I month; T "月，季节编码："; I season] ;;
  ret {| in_date_input := date_input; in_weekday := weekday;
         in_weather_str := weather_str; in_weather_code := weather_code;
         in_temp := temp; in_is_weekend := is_weekend;
         in_month := month; in_season := season |}.

(** Steps 4 and 5: the feature row, the probabilities and the three best
    classes (lines 70-98). *)
Definition rank (model : classifier) (label_encoder feature_columns inventory_list : list string)
  (t : tomorrow_inputs) : M (list string * list Q) :=
  print [T nl; T "🔧 分析中..."] ;;
  features <- tomorrow_features feature_columns inventory_list
                (in_temp t) (in_weather_code t) (in_month t) (in_season t)
                (in_is_weekend t) ;;
  let probabilities := predict_proba model (map snd features) in
  let top3_indices := top3_indices probabilities in
  top3_soups <- inverse_transform label_encoder top3_indices ;;
  top3_probs <- take probabilities top3_indices ;;
  ret (top3_soups, top3_probs).

(** Step 6, first half: the first recommendation (lines 101-124). *)
Definition report_top (top3_soups : list string) (top3_probs : list Q)
  (inventory_list : list string) (t : tomorrow_inputs) : M (string * Q) :=
  print [T nl; T (PyStr.mul "=" 50)] ;;
  print [T "🍲 明天汤品预测结果："] ;;
  print [T (PyStr.mul "=" 50)] ;;
  top1 <- item top3_soups 0 ;;
  print [T nl; T "🏆 第1推荐：【"; T top1; T "】"] ;;
  p1 <- item top3_probs 0 ;;
  print [T "   置信度："; P1 p1; T "%"] ;;
  print_end [T "   理由："] "" ;;
  let reasons := reasons_of (in_is_weekend t) (in_weather_code t) (in_temp t) in
  print [T nl; T "   冰箱库存：";
         T (if nonempty inventory_list then PyStr.join ", " inventory_list
            else "无特定食材")] ;;
  print [T nl; T "📋 如果要煲【"; T top1; T "】："] ;;
  ret (top1, p1).

(** Everything the first recommendation depends on. *)
Record ranking : Type := {
  feature_columns_of : list string;
  inventory_of : list string;
  inputs_of : tomorrow_inputs;
  top3_soups_of : list string;
  top3_probs_of : list Q;
  top1_of : string;
  p1_of : Q
}.

(** [predict.py] from its first line to the first recommendation
    (lines 7-124). *)
Definition predict_ranking : M ranking :=
  print [T "🔮 SoupAIDD 预测系统启动！"] ;;
  print [T (PyStr.mul "=" 50)] ;;
  ' (model, label_encoder, feature_columns) <- load_artifacts ;;
  t <- ask_tomorrow ;;
  inventory_list <- ask_inventory feature_columns ;;
  ' (top3_soups, top3_probs) <- rank model label_encoder feature_columns inventory_list t ;;
  ' (top1, p1) <- report_top top3_soups top3_probs inventory_list t ;;
  ret {| feature_columns_of := feature_columns; inventory_of := inventory_list;
         inputs_of := t; top3_soups_of := top3_soups; top3_probs_of := top3_probs;
         top1_of := top1; p1_of := p1 |}.

(** [predict.py] from the recipe of the first recommendation to the end
    (lines 126-165). *)
Definition predict_explanation (r : ranking) : M unit :=
  explain_missing (top1_of r) (feature_columns_of r) (inventory_of r) ;;
  show_alternatives (top3_soups_of r) (top3_probs_of r) ;;
  print [T nl; T (PyStr.mul "=" 50)] ;;
  print [T "💡 提示：预测基于历史数据，妈妈实际选择可能受心情影响！"] ;;
  print [T (PyStr.mul "=" 50)] ;;
  save_prediction (in_date_input (inputs_of r)) (top1_of r) (p1_of r)
    (in_weather_str (inputs_of r)) (in_temp (inputs_of r)).

(** The whole of [predict.py]. *)
Definition predict_py : M unit :=
  r <- predict_ranking ;;
  predict_explanation r.

(* ================================================================== *)
(** ** train_model.py *)

Definition base_columns : list string :=
  ["温度"; "天气编码"; "月份"; "季节编码"; "是否周末"; "反馈分数"].

(** [df[names]] on the history table: the rows cut down to the named
    columns, [KeyError] at the first name the table does not have. *)
Fixpoint column_indices (cols names : list string) : M (list nat) :=
  match names with
  | [] => ret []
  | c :: r =>
      match index_of c cols with
      | Some i => rest <- column_indices cols r ;; ret (i :: rest)
      | None => raise (KeyError c)
      end
  end.

Definition select_frame (df : dataframe) (names : list string) : M (list (list cell)) :=
  idx <- column_indices (columns df) names ;;
  ret (map (fun r => map (fun i => nth i r (CFloat NaN)) idx) (rows df)).

(** [X.fillna(0)] *)
Definition fillna0 (X : list (list cell)) : list (list cell) :=
  map (map (fun c => match c with CFloat NaN => CFloat (Fin 0) | other => other end)) X.

(** Sorted insertion without repetition: [np.unique] one element at a time. *)
Fixpoint insert_unique {A : Type} (eqb ltb : A -> A -> bool) (x : A) (l : list A) : list A :=
  match l with
  | [] => [x]
  | h :: t =>
      if eqb x h then l
      else if ltb x h then x :: l
      else h :: insert_unique eqb ltb x t
  end.

(** [np.unique(y)] on class numbers *)
Definition unique (y : list nat) : list nat :=
  fold_right (insert_unique Nat.eqb Nat.ltb) [] y.

(** [LabelEncoder().fit(y).classes_] *)
Definition classes_of (labels : list string) : list string :=
  fold_right (insert_unique String.eqb String.ltb) [] labels.

Fixpoint labels_of (y : list cell) : M (list string) :=
  match y with
  | [] => ret []
  | CStr s :: r => rest <- labels_of r ;; ret (s :: rest)
  | _ :: _ => raise TypeError
  end.

(** [label_encoder.fit_transform(y)]: the classes and the class number of
    every record. *)
Definition fit_transform (y : list cell) : M (list string * list nat) :=
  labels <- labels_of y ;;
  let classes := classes_of labels in
  ret (classes,
       map (fun s => match index_of s classes with Some i => i | None => O end) labels).

Definition len {A : Type} (l : list A) : Z := Z.of_nat (List.length l).

(** Step 3 (lines 48-65): the training and the test partition. *)
Definition split_data (X : list (list cell)) (y_encoded : list nat) (n_records : nat)
  : M (list (list cell) * option (list (list cell)) * list nat * option (list nat)) :=
  if (15 <=? n_records)%nat then
    try_ValueError
      (' (X_train, X_test, y_train, y_test) <-
         or_ValueError "train_test_split"
           (train_test_split X y_encoded (2 # 10) 42 (Some y_encoded)) ;;
       print [T "   训练集："; I (len X_train); T "条，测试集："; I (len X_test); T "条"] ;;
       ret (X_train, Some X_test, y_train, Some y_test))
      (print [T "   注意：某些汤品记录太少（只喝过1次），无法分层测试"] ;;
       ' (X_train, X_test, y_train, y_test) <-
         or_ValueError "train_test_split"
           (train_test_split X y_encoded (2 # 10) 42 None) ;;
       print [T "   改用随机划分：训练集"; I (len X_train); T "条，测试集";
              I (len X_test); T "条"] ;;
       ret (X_train, Some X_test, y_train, Some y_test))
  else
    print [T "   数据较少（"; I (Z.of_nat n_records); T "条），全部用于学习（暂不测试准确率）"] ;;
    ret (X, None, y_encoded, None).

Definition forest : forest_params :=
  {| n_estimators := 100; max_depth := 5; min_samples_split := 2;
     random_state := 42; class_weight := "balanced" |}.

(** Step 5 (lines 84-99): the evaluation, when a test partition exists. *)
Definition evaluate (model : classifier) (classes : list string)
  (X_test : option (list (list cell))) (y_test : option (list nat)) : M unit :=
  match X_test with
  | Some X_test =>
      print [T nl; T "📈 模型评估："] ;;
      let y_pred := map (predict model) X_test in
      y_test <- or_raise TypeError y_test ;;
      let accuracy := accuracy_score y_test y_pred in
      print [T "   预测准确率："; P1 accuracy; T "%"] ;;
      print [T nl; T "   详细报告："] ;;
      target_names <- inverse_transform classes (unique y_test) ;;
      report <- or_ValueError "classification_report"
                  (classification_report y_test y_pred target_names) ;;
      print [T report]
  | None =>
      print [T nl; T "⚠️  数据量小，跳过评估（建议积累20条以上数据再评估）"]
  end.

(** Step 6 (lines 102-114): the five most important features. *)
Definition report_importances (model : classifier) (feature_columns : list string) : M unit :=
  print [T nl; T "🔍 AI决策依据（特征重要性）："] ;;
  let importances := feature_importances_ model in
  feature_importance_df <-
    (if (List.length feature_columns =? List.length importances)%nat
     then ret (sort_values_desc (combine feature_columns importances))
     else raise (ValueError "DataFrame")) ;;
  print [T "   最重要的5个因素："] ;;
  for_each (firstn 5 feature_importance_df)
    (fun row => print [T "   "; T (fst row); T ": "; P1 (snd row); T "%"]).

(** [joblib.dump] of the three artifacts (lines 120-129). *)
Definition dump_model (model : classifier) : M unit :=
  write_file (Dump "soup_predictor_model.pkl")
    (fun f => {| soup_predictor_model_pkl := Some model;
                 label_encoder_pkl := label_encoder_pkl f;
                 feature_columns_pkl := feature_columns_pkl f;
                 history_cleaned_csv := history_cleaned_csv f;
                 predictions_log_txt := predictions_log_txt f |}).

Definition dump_label_encoder (classes : list string) : M unit :=
  write_file (Dump "label_encoder.pkl")
    (fun f => {| soup_predictor_model_pkl := soup_predictor_model_pkl f;
                 label_encoder_pkl := Some classes;
                 feature_columns_pkl := feature_columns_pkl f;
                 history_cleaned_csv := history_cleaned_csv f;
                 predictions_log_txt := predictions_log_txt f |}).

Definition dump_feature_columns (feature_columns : list string) : M unit :=
  write_file (Dump "feature_columns.pkl")
    (fun f => {| soup_predictor_model_pkl := soup_predictor_model_pkl f;
                 label_encoder_pkl := label_encoder_pkl f;
                 feature_columns_pkl := Some feature_columns;
                 history_cleaned_csv := history_cleaned_csv f;
                 predictions_log_txt := predictions_log_txt f |}).

(** Lines 139-157: the frame of the closing self-test.  It is built and then
    dropped; nothing is predicted from it. *)
Definition self_test_frame (ingredient_cols : list string) : row_frame :=
  let tomorrow : row_frame :=
    [("温度", CInt 20); ("天气编码", CInt 3); ("月份", CInt 3); ("季节编码", CInt 1);
     ("是否周末", CInt 1); ("反馈分数", CInt 80)] in
  let tomorrow :=
    fold_left (fun df col => if PyStr.mem col (map fst df) then df
                             else set_column df col (CInt 0))
      ingredient_cols tomorrow in
  let tomorrow := if PyStr.mem "食材_排骨" (map fst tomorrow)
                  then set_column tomorrow "食材_排骨" (CInt 1) else tomorrow in
  let tomorrow := if PyStr.mem "食材_玉米" (map fst tomorrow)
                  then set_column tomorrow "食材_玉米" (CInt 1) else tomorrow in
  tomorrow.

(** The whole of [train_model.py]. *)
Definition train_model_py : M unit :=
  print [T "🤖 开始训练汤品预测AI..."] ;;
  history_df <- open_file "history_cleaned.csv" history_cleaned_csv ;;
  let n_records := List.length (rows history_df) in
  print [T "📊 加载数据："; I (Z.of_nat n_records); T "条历史记录"] ;;
  print [T nl; T "🔧 准备训练数据..."] ;;
  let ingredient_cols := filter is_ingredient (columns history_df) in
  let feature_columns := (base_columns ++ ingredient_cols)%list in
  print [T "   使用特征："; I (len feature_columns); T "个"] ;;
  print [T "   包括：天气、温度、季节、是否周末、反馈分数、"; I (len ingredient_cols);
         T "种食材"] ;;
  X <- select_frame history_df feature_columns ;;
  let X := fillna0 X in
  y <- column history_df "汤名" ;;
  ' (classes, y_encoded) <- fit_transform y ;;
  print [T "   预测目标："; I (len classes); T "种汤"] ;;
  print [T "   包括："; T (PyStr.join ", " classes)] ;;
  ' (X_train, X_test, y_train, y_test) <- split_data X y_encoded n_records ;;
  print [T nl; T "🎯 开始训练随机森林模型..."] ;;
  model <- or_ValueError "fit" (forest_fit forest X_train y_train) ;;
  print [T "   ✅ 模型训练完成！"] ;;
  evaluate model classes X_test y_test ;;
  report_importances model feature_columns ;;
  print [T nl; T "💾 保存模型文件..."] ;;
  dump_model model ;;
  dump_label_encoder classes ;;
  dump_feature_columns feature_columns ;;
  print [T "   ✅ 模型已保存：soup_predictor_model.pkl"] ;;
  print [T "   ✅ 标签映射已保存：label_encoder.pkl"] ;;
  print [T nl; T "🎉 训练完成！你的AI已经学会了"; I (len classes); T "种汤的配方！"] ;;
  print [T nl; T "🔮 做个小测试：假设明天是情况，AI会推荐什么？"] ;;
  let tomorrow := self_test_frame ingredient_cols in
  ret tt.

End Scripts.

(* ================================================================== *)
(** ** An executable instance of the library functions *)

Module Ref.

(** *** Calendar: the proleptic Gregorian calendar on ASCII dates *)

Record ymd : Type := { year : Z; mon : Z; day : Z }.

Definition is_leap (y : Z) : bool :=
  (y mod 4 =? 0) && (negb (y mod 100 =? 0) || (y mod 400 =? 0)).

Definition days_in_month (y m : Z) : Z :=
  if Z_mem m [1; 3; 5; 7; 8; 10; 12] then 31
  else if Z_mem m [4; 6; 9; 11] then 30
  else if m =? 2 then (if is_leap y then 29 else 28)
  else 0.

Definition valid (d : ymd) : bool :=
  (1 <=? year d) && (year d <=? 9999) && (1 <=? mon d) && (mon d <=? 12)
  && (1 <=? day d) && (day d <=? days_in_month (year d) (mon d)).

Definition next_day (d : ymd) : ymd :=
  if day d <? days_in_month (year d) (mon d)
  then {| year := year d; mon := mon d; day := day d + 1 |}
  else if mon d <? 12
       then {| year := year d; mon := mon d + 1; day := 1 |}
       else {| year := year d + 1; mon := 1; day := 1 |}.

(** Days since 1970-01-01. *)
Definition days_from_civil (d : ymd) : Z :=
  let y := if mon d <=? 2 then year d - 1 else year d in
  let era := y / 400 in
  let yoe := y - era * 400 in
  let doy := (153 * (mon d + (if 2 <? mon d then -3 else 9)) + 2) / 5 + day d - 1 in
  let doe := yoe * 365 + yoe / 4 - yoe / 100 + doy in
  era * 146097 + doe - 719468.

(** Monday is 1, Sunday is 7; 1970-01-01 was a Thursday. *)
Definition iso_weekday (d : ymd) : Z := (days_from_civil d + 3) mod 7 + 1.

Definition digit_of (c : ascii) : option Z :=
  let n := Z.of_N (N_of_ascii c) in
  if (48 <=? n) && (n <=? 57) then Some (n - 48) else None.

Fixpoint digits_go (acc : Z) (s : string) : option Z :=
  match s with
  | EmptyString => Some acc
  | String c r =>
      match digit_of c with
      | Some d => digits_go (acc * 10 + d) r
      | None => None
      end
  end.

(** A non-empty run of ASCII digits. *)
Definition digits (s : string) : option Z :=
  match s with
  | EmptyString => None
  | _ => digits_go 0 s
  end.

Fixpoint split_at (sep : ascii) (s : string) : list string :=
  match s with
  | EmptyString => [EmptyString]
  | String c r =>
      if Ascii.eqb c sep then EmptyString :: split_at sep r
      else match split_at sep r with
           | h :: t => String c h :: t
           | [] => [String c EmptyString]
           end
  end.

Definition parse_ymd (s : string) : option ymd :=
  match split_at "-"%char s with
  | [ys; ms; ds] =>
      if ((String.length ys =? 4) && (String.length ms <=? 2) && (String.length ds <=? 2))%nat
      then match digits ys, digits ms, digits ds with
           | Some y, Some m, Some d =>
               let r := {| year := y; mon := m; day := d |} in
               if valid r then Some r else None
           | _, _, _ => None
           end
      else None
  | _ => None
  end.

Definition pad (width : nat) (z : Z) : string :=
  let s := PyStr.of_Z z in
  PyStr.mul "0" (width - String.length s) ++ s.

Definition format_ymd (d : ymd) : string :=
  pad 4 (year d) ++ "-" ++ pad 2 (mon d) ++ "-" ++ pad 2 (day d).

(** *** [float]: plain decimal numerals *)

Fixpoint fraction_go (num den : Z) (s : string) : option (Z * Z) :=
  match s with
  | EmptyString => Some (num, den)
  | String c r =>
      match digit_of c with
      | Some d => fraction_go (num * 10 + d) (den * 10) r
      | None => None
      end
  end.

Definition unsigned_decimal (s : string) : option Q :=
  match split_at "."%char s with
  | [ip] => option_map inject_Z (digits ip)
  | [ip; fp] =>
      match digits ip, fraction_go 0 1 fp with
      | Some i, Some (n, d) => Some (Qred (inject_Z i + Qmake n (Z.to_pos d)))
      | _, _ => None
      end
  | _ => None
  end.

Definition parse_float (s : string) : option pyfloat :=
  match s with
  | String "-"%char r => option_map (fun q => Fin (- q)) (unsigned_decimal r)
  | _ => option_map Fin (unsigned_decimal s)
  end.

(** *** [numpy]: a sort that keeps equal keys in index order *)

Fixpoint insert_asc (x : Q * nat) (l : list (Q * nat)) : list (Q * nat) :=
  match l with
  | [] => [x]
  | h :: t => if Qle_bool (fst x) (fst h) then x :: l else h :: insert_asc x t
  end.

Definition stable_argsort (p : list Q) : list nat :=
  map snd (fold_right insert_asc [] (combine p (seq 0 (List.length p)))).

(** *** [sklearn]: stand-ins with the documented failures *)

Definition count_class (c : nat) (y : list nat) : nat :=
  List.length (filter (Nat.eqb c) y).

(** Number of test records for a fraction: the ceiling of [n * test_size]. *)
Definition n_test_of (n : nat) (test_size : Q) : nat :=
  Z.to_nat (- ((- (Z.of_nat n * Qnum test_size)) / Z.pos (Qden test_size))).

(** The split keeps the order of the records; a stratified split fails when
    a class has a single member or a partition is smaller than the number of
    classes, any split fails when the training partition would be empty. *)
Definition ordered_split (X : list (list cell)) (y : list nat) (test_size : Q)
  (seed : Z) (stratify : option (list nat)) : option partition :=
  let n := List.length X in
  let n_test := n_test_of n test_size in
  let n_train := (n - n_test)%nat in
  let feasible :=
    match stratify with
    | None => true
    | Some s =>
        let classes := unique s in
        forallb (fun c => (2 <=? count_class c s)%nat) classes
        && (List.length classes <=? n_test)%nat
        && (List.length classes <=? n_train)%nat
    end in
  if (0 <? n_train)%nat && feasible
  then Some (firstn n_train X, skipn n_train X, firstn n_train y, skipn n_train y)
  else None.

(** A classifier that answers with the class frequencies of the training
    records, whatever the features. *)
Definition frequency_fit (params : forest_params) (X : list (list cell)) (y : list nat)
  : option classifier :=
  match X with
  | [] => None
  | first :: _ =>
      let classes := unique y in
      let n := Z.of_nat (List.length y) in
      let freq := map (fun c => Qred (Qmake (Z.of_nat (count_class c y)) (Z.to_pos n)))
                    classes in
      let width := List.length first in
      Some {| predict_proba := fun _ => freq;
              predict := fun _ => hd O classes;
              feature_importances_ :=
                repeat (Qred (Qmake 1 (Z.to_pos (Z.of_nat width)))) width |}
  end.

Definition accuracy (y_true y_pred : list nat) : Q :=
  Qred (Qmake (Z.of_nat (List.length (filter (fun ab => Nat.eqb (fst ab) (snd ab))
                                        (combine y_true y_pred))))
          (Z.to_pos (Z.of_nat (List.length y_true)))).

Definition report (y_true y_pred : list nat) (target_names : list string) : option string :=
  if (List.length (unique (y_true ++ y_pred)) =? List.length target_names)%nat
  then Some (PyStr.join nl target_names)
  else None.

Fixpoint insert_desc (x : string * Q) (l : list (string * Q)) : list (string * Q) :=
  match l with
  | [] => [x]
  | h :: t => if Qle_bool (snd h) (snd x) then x :: l else h :: insert_desc x t
  end.

Definition sort_desc (l : list (string * Q)) : list (string * Q) :=
  fold_right insert_desc [] l.

End Ref.

#[export] Instance RefLib : Lib := {|
  date := Ref.ymd;
  strptime := Ref.parse_ymd;
  strftime := Ref.format_ymd;
  plus_one_day := Ref.next_day;
  isoweekday := Ref.iso_weekday;
  month_of := Ref.mon;
  float_of_str := Ref.parse_float;
  argsort := Ref.stable_argsort;
  train_test_split := Ref.ordered_split;
  forest_fit := Ref.frequency_fit;
  accuracy_score := Ref.accuracy;
  classification_report := Ref.report;
  sort_values_desc := Ref.sort_desc
|}.

(* ================================================================== *)
(** ** Vocabulary of the properties *)

Definition artifact_names : list string :=
  ["soup_predictor_model.pkl"; "label_encoder.pkl"; "feature_columns.pkl"].

Definition remediation : event :=
  Print [T "❌ 错误：找不到模型文件！请先运行 train_model.py 训练模型"] nl.

Definition history_name : string := "history_cleaned.csv".

(** The line that announces the first recommendation (line 105). *)
Definition first_recommendation (soup : string) : event :=
  Print [T nl; T "🏆 第1推荐：【"; T soup; T "】"] nl.

(* ================================================================== *)
(** ** A sample folder *)

Module Sample.

(** Six fixed columns and three ingredient columns. *)
Definition schema : list string :=
  (base_columns ++ ["食材_排骨"; "食材_玉米"; "食材_胡萝卜"])%list.

Definition soups : list string := ["冬瓜汤"; "玉米排骨汤"; "番茄蛋汤"].

Definition model : classifier :=
  {| predict_proba := fun _ => [1 # 5; 1 # 2; 3 # 10];
     predict := fun _ => 1%nat;
     feature_importances_ := repeat (1 # 9) 9 |}.

Definition record (soup : string) (temp weather month season weekend score : Z)
  (ribs corn carrot : Z) : list cell :=
  [CStr soup; CFloat (PyFloat.of_Z temp); CInt weather; CInt month; CInt season;
   CInt weekend; CInt score; CInt ribs; CInt corn; CInt carrot].

Definition history : dataframe :=
  {| columns := ("汤名" :: schema)%list;
     rows := [record "玉米排骨汤" 10 0 2 4 1 80 1 1 1;
              record "玉米排骨汤" 12 1 2 4 1 85 1 1 1;
              record "玉米排骨汤" 14 0 1 4 0 75 1 1 0;
              record "冬瓜汤" 30 3 7 2 0 70 1 0 0;
              record "番茄蛋汤" 22 2 5 1 0 60 0 0 0] |}.

Definition folder : files :=
  {| soup_predictor_model_pkl := Some model;
     label_encoder_pkl := Some soups;
     feature_columns_pkl := Some schema;
     history_cleaned_csv := Some history;
     predictions_log_txt := [] |}.

Definition today : Ref.ymd := {| Ref.year := 2024; Ref.mon := 2; Ref.day := 29 |}.

Definition world_of (f : files) (console : list string) : world (L := RefLib) :=
  {| fs := f; stdin := console; now := today |}.

Definition without_model : files :=
  {| soup_predictor_model_pkl := None;
     label_encoder_pkl := Some soups;
     feature_columns_pkl := Some schema;
     history_cleaned_csv := Some history;
     predictions_log_txt := [] |}.

Definition without_history : files :=
  {| soup_predictor_model_pkl := Some model;
     label_encoder_pkl := Some soups;
     feature_columns_pkl := Some schema;
     history_cleaned_csv := None;
     predictions_log_txt := [] |}.

End Sample.

(** A feature schema as the trainer writes it: fixed columns and ingredient
    columns, nothing else. *)
Definition valid_schema (schema : list string) : bool :=
  forallb (fun col => PyStr.mem col base_columns || is_ingredient col) schema.

(** The value a column of the schema stands for. *)
Definition feature_value (inventory_list : list string) (temp : pyfloat)
  (weather_code month season is_weekend : Z) (col : string) : cell :=
  if is_ingredient col
  then CInt (if PyStr.mem (ingredient_name col) inventory_list then 1 else 0)
  else if String.eqb col "温度" then CFloat temp
  else if String.eqb col "天气编码" then CInt weather_code
  else if String.eqb col "月份" then CInt month
  else if String.eqb col "季节编码" then CInt season
  else if String.eqb col "是否周末" then CInt is_weekend
  else CInt 75.

(** The probability of class [i]. *)
Definition prob (p : list Q) (i : nat) : Q := nth i p 0%Q.

(** What [np.argsort] promises of its result: the indices of the array,
    each once, values never decreasing. *)
Definition ascending_order (p : list Q) (order : list nat) : Prop :=
  Permutation order (seq 0 (List.length p))
  /\ StronglySorted (fun i j => (prob p i <= prob p j)%Q) order.


(** Order of the (value, index) pairs that the sort of [RefLib] works on. *)
Definition key_le (a b : Q * nat) : Prop := (fst a <= fst b)%Q.

(** A cell that says 0 or 1, as an integer or as a float. *)
Definition is_binary (c : cell) : bool :=
  match c with
  | CInt z => (z =? 0) || (z =? 1)
  | CFloat (Fin q) => Qeq_bool q 0 || Qeq_bool q 1
  | _ => false
  end.

(** A cell that says 1: the ingredient was used. *)
Definition is_present (c : cell) : bool :=
  match c with
  | CInt z => z =? 1
  | CFloat (Fin q) => Qeq_bool q 1
  | _ => false
  end.

(** The historical records labeled with a soup. *)
Definition records_of (history : dataframe) (soup : string) : dataframe :=
  {| columns := columns history;
     rows := filter (fun r =>
                       match index_of "汤名" (columns history) with
                       | Some k => cell_is soup (nth k r (CFloat NaN))
                       | None => false
                       end) (rows history) |}.

(** The cells of a column, nothing when the column does not exist. *)
Definition cells_of (df : dataframe) (col : string) : list cell :=
  match index_of col (columns df) with
  | Some i => map (fun r => nth i r (CFloat NaN)) (rows df)
  | None => []
  end.

(** In how many of the records the ingredient of a column is present. *)
Definition present_count (records : dataframe) (col : string) : nat :=
  List.length (filter is_present (cells_of records col)).

(** The ingredient columns exist and hold 0 or 1 in every record. *)
Definition binary_ingredients (records : dataframe) (schema : list string) : bool :=
  forallb (fun col =>
             negb (is_ingredient col)
             || match index_of col (columns records) with
                | Some _ => forallb is_binary (cells_of records col)
                | None => false
                end) schema.

(** The typical ingredients in the words of the specification: the
    ingredients present in more than half of the records. *)
Definition typical_by_majority (records : dataframe) (schema : list string)
  : list string :=
  map ingredient_name
    (filter (fun col =>
               is_ingredient col
               && (List.length (rows records) <? 2 * present_count records col)%nat)
       schema).

(** Fifteen records for the trainer's split: one soup cooked once, another
    fourteen times. *)
Definition fifteen_X : list (list cell) := repeat [CInt 0] 15.

Definition fifteen_y : list nat := O :: repeat 1%nat 14.

(** The same files with another state of the history file. *)
Definition set_history (h : option dataframe) (f : files) : files :=
  {| soup_predictor_model_pkl := soup_predictor_model_pkl f;
     label_encoder_pkl := label_encoder_pkl f;
     feature_columns_pkl := feature_columns_pkl f;
     history_cleaned_csv := h;
     predictions_log_txt := predictions_log_txt f |}.

Definition with_history {L : Lib} (h : option dataframe) (w : world) : world :=
  {| fs := set_history h (fs w); stdin := stdin w; now := now w |}.

(** A computation that has nothing to do with the history file: it never
    opens it, and it runs the same way whatever the state of that file. *)
Definition history_free {L : Lib} {A : Type} (m : M A) : Prop :=
  forall w r w' t,
    m w = (r, w', t) ->
    ~ In (Open history_name) t
    /\ forall h, m (with_history h w) = (r, with_history h w', t).

(** [r in s] for strings: [r] occurs in [s]. *)
Fixpoint contains (s r : string) : bool :=
  String.prefix r s
  || match s with
     | EmptyString => false
     | String _ rest => contains rest r
     end.

(** The text of a fragment when it is text. *)
Definition piece_text (p : piece) : string :=
  match p with
  | T s => s
  | _ => ""
  end.

(** An event shows the text [r]: a line printed or appended has a text
    fragment in which [r] occurs. *)
Definition mentions (r : string) (e : event) : bool :=
  match e with
  | Print text _ => existsb (fun p => contains (piece_text p) r) text
  | Append _ text => existsb (fun p => contains (piece_text p) r) text
  | _ => false
  end.

(** The answers of a cold rainy Saturday. *)
Definition cold_rainy_saturday : list string :=
  ["2024-02-03"; "6"; "雨"; "10"; "排骨, 玉米"; "n"].

(** What the ranking step hands on for the sample folder on a cold rainy
    Saturday. *)
Definition saturday_ranking : ranking :=
  {| feature_columns_of := Sample.schema;
     inventory_of := ["排骨"; "玉米"];
     inputs_of :=
       {| in_date_input := "2024-02-03"; in_weekday := "6";
          in_weather_str := "雨"; in_weather_code := 0;
          in_temp := Fin 10; in_is_weekend := 1;
          in_month := 2; in_season := 4 |};
     top3_soups_of := ["玉米排骨汤"; "番茄蛋汤"; "冬瓜汤"];
     top3_probs_of := [1 # 2; 3 # 10; 1 # 5];
     top1_of := "玉米排骨汤";
     p1_of := 1 # 2 |}.

(** The line that announces a default date (line 31). *)
Definition default_date_line (d : string) : event :=
  Print [T "   使用默认："; T d] nl.

(** The text handed to [float] for an answer to the temperature prompt. *)
Definition temp_text (answer : string) : string :=
  if String.eqb (PyStr.strip answer) "" then "20" else PyStr.strip answer.

(** What the predictor has printed and opened when its artifacts are
    loaded. *)
Definition loaded_trace (label_encoder : list string) : list event :=
  [Print [T "🔮 SoupAIDD 预测系统启动！"] nl;
   Print [T (PyStr.mul "=" 50)] nl;
   Open "soup_predictor_model.pkl"; Open "label_encoder.pkl";
   Open "feature_columns.pkl";
   Print [T "✅ AI模型加载成功！"] nl;
   Print [T "   已学习汤品："; T (PyStr.join ", " label_encoder)] nl].

(** The four rationales (lines 112-118). *)
Definition reason_weekend : string := "周末时间充裕，适合煲老火汤".
Definition reason_weather : string := "天气阴/雨，适合暖身汤品".
Definition reason_cold : string := "气温较低，需要温补".
Definition reason_hot : string := "天气炎热，适合清淡解腻".

(** A date that [strptime] rejects, then the answers of a cold rainy
    Saturday. *)
Definition malformed_date_console : list string :=
  ["tomorrow"; "6"; "雨"; "10"; "排骨, 玉米"; "n"].

(** A computation that leaves the files and the clock as they are. *)
Definition read_only {L : Lib} {A : Type} (m : M A) : Prop :=
  forall w r w' t, m w = (r, w', t) -> fs w' = fs w /\ now w' = now w.

(** A result that is not a value: an uncaught exception or [exit()]. *)
Definition failed {A : Type} (r : result A) : Prop :=
  match r with
  | Ret _ => False
  | _ => True
  end.

(** A Saturday with the weekday left blank, and what the input stage makes
    of it. *)
Definition blank_weekday_console : list string := ["2024-02-03"; ""; "雨"; "10"].

Definition blank_weekday_inputs : tomorrow_inputs :=
  {| in_date_input := "2024-02-03"; in_weekday := "6";
     in_weather_str := "雨"; in_weather_code := 0;
     in_temp := Fin 10; in_is_weekend := 1;
     in_month := 2; in_season := 4 |}.

(** The line of an alternative: rank, soup and probability (line 153). *)
Definition alternative_line (i : nat) (soup : string) (p : Q) : event :=
  Print [T "   "; I (Z.of_nat i + 1); T ". "; T soup; T " (概率"; P1 p; T "%)"] nl.

(** The lines of the alternatives from position [i] on: one for each
    candidate whose probability is above the float 0.05. *)
Fixpoint alternative_lines (i : nat) (soups : list string) (probs : list Q)
  : list event :=
  match soups, probs with
  | s :: ss, p :: ps =>
      ((if PyFloat.Qltb float_0_05 p then [alternative_line i s p] else [])
         ++ alternative_lines (S i) ss ps)%list
  | _, _ => []
  end.

Definition alternatives_header : event := Print [T nl; T "🥈 备选方案："] nl.

(** The line of the prediction log (line 164). *)
Definition log_line (date_input top1 : string) (p1 : Q) (weather_str : string)
  (temp : pyfloat) : list piece :=
  [T date_input; T " | 预测："; T top1; T " | 概率："; P1 p1;
   T "% | 天气："; T weather_str; T " "; F temp; T "°C"; T nl].

(** The files with one more line in the prediction log. *)
Definition append_log (line : list piece) (f : files) : files :=
  {| soup_predictor_model_pkl := soup_predictor_model_pkl f;
     label_encoder_pkl := label_encoder_pkl f;
     feature_columns_pkl := feature_columns_pkl f;
     history_cleaned_csv := history_cleaned_csv f;
     predictions_log_txt := (predictions_log_txt f ++ [line])%list |}.

(** Between two states of the files nothing happened but, at most, one line
    appended to the prediction log, and the trace shows that line. *)
Definition only_log_appended (f f' : files) (t : list event) : Prop :=
  f' = f
  \/ exists line, f' = append_log line f /\ In (Append "predictions_log.txt" line) t.

Definition save_prompt : event := Prompt (nl ++ "是否保存这次预测到记录？(y/n)：").

(** A computation that has written nothing when it fails. *)
Definition fails_clean {L : Lib} {A : Type} (m : M A) : Prop :=
  forall w r w' t, m w = (r, w', t) -> failed r -> fs w' = fs w.


(** The schema the trainer derives from the columns of the history table
    (lines 22-28). *)
Definition schema_of (history : dataframe) : list string :=
  (base_columns ++ filter is_ingredient (columns history))%list.

(** What the trainer has printed and opened when it starts to cut the
    history table down to the feature columns (lines 10-31). *)
Definition trainer_preamble (history : dataframe) : list event :=
  [Print [T "🤖 开始训练汤品预测AI..."] nl;
   Open history_name;
   Print [T "📊 加载数据："; I (Z.of_nat (List.length (rows history))); T "条历史记录"] nl;
   Print [T nl; T "🔧 准备训练数据..."] nl;
   Print [T "   使用特征："; I (len (schema_of history)); T "个"] nl;
   Print [T "   包括：天气、温度、季节、是否周末、反馈分数、";
          I (len (filter is_ingredient (columns history))); T "种食材"] nl].

(** A history table without the feedback column. *)
Definition history_without_feedback : dataframe :=
  {| columns := ["汤名"; "温度"; "天气编码"; "月份"; "季节编码"; "是否周末"; "食材_排骨"];
     rows := [[CStr "冬瓜汤"; CFloat (Fin 30); CInt 3; CInt 7; CInt 2; CInt 0; CInt 1]] |}.

Definition folder_without_feedback : files :=
  {| soup_predictor_model_pkl := None;
     label_encoder_pkl := None;
     feature_columns_pkl := None;
     history_cleaned_csv := Some history_without_feedback;
     predictions_log_txt := [] |}.

(** The date string kept for an answer to the date prompt (lines 27-31). *)
Definition date_text {L : Lib} (w : world) (answer : string) : string :=
  if String.eqb (PyStr.strip answer) ""
  then strftime (plus_one_day (now w)) else PyStr.strip answer.

(** The weekday string kept for an answer to the weekday prompt
    (lines 34-37), [d] being the parsed date. *)
Definition weekday_text {L : Lib} (answer : string) (d : date) : string :=
  if String.eqb (PyStr.strip answer) ""
  then PyStr.of_Z (isoweekday d) else PyStr.strip answer.

(** What the input stage hands on for four answers, [d] being the parsed
    date and [x] the parsed temperature. *)
Definition resolved_inputs {L : Lib} (w : world) (l1 l2 l3 : string) (d : date)
  (x : pyfloat) : tomorrow_inputs :=
  {| in_date_input := date_text w l1;
     in_weekday := weekday_text l2 d;
     in_weather_str := PyStr.strip l3;
     in_weather_code := dict_get weather_map (PyStr.strip l3) 2;
     in_temp := x;
     in_is_weekend := is_weekend_of (weekday_text l2 d);
     in_month := month_of d;
     in_season := season_of (month_of d) |}.

(** The probabilities the classifier gives for the answers. *)
Definition probabilities_for (model : classifier) (cols inventory_list : list string)
  (t : tomorrow_inputs) : list Q :=
  predict_proba model
    (map (feature_value inventory_list (in_temp t) (in_weather_code t) (in_month t)
            (in_season t) (in_is_weekend t)) cols).

(** The explanation in the words of the specification: the ingredients
    present in more than half of the records, then the ones of them that the
    pantry lacks, or the ready-to-cook line when it lacks none. *)
Definition report_by_majority (records : dataframe) (schema inventory_list : list string)
  : list event :=
  let typical := typical_by_majority records schema in
  let missing := missing_of typical inventory_list in
  [Open history_name;
   Print [T "   通常需要："; T (PyStr.join ", " typical)] nl;
   match missing with
   | [] => Print [T "   ✅ 食材齐全，可以开煲！"] nl
   | _ => Print [T "   ⚠️  缺少食材："; T (PyStr.join ", " missing); T "（建议购买）"] nl
   end].

(** The explanation step reports what the specification says. *)
Definition reports_by_majority {L : Lib} (w : world) (history : dataframe)
  (top1 : string) (schema inventory_list : list string) : Prop :=
  explain_missing top1 schema inventory_list w =
    (Ret tt, w, report_by_majority (records_of history top1) schema inventory_list).

(** A history file with blank cells: four records of one soup, the corn cell
    left blank in two of them.  [read_csv] gives a blank cell as NaN and the
    other cells of that column as floats. *)
Definition history_with_blanks : dataframe :=
  {| columns := ("汤名" :: Sample.schema)%list;
     rows :=
       [[CStr "玉米排骨汤"; CFloat (PyFloat.of_Z 10); CInt 0; CInt 2; CInt 4; CInt 1;
         CInt 80; CInt 1; CFloat NaN; CInt 0];
        [CStr "玉米排骨汤"; CFloat (PyFloat.of_Z 12); CInt 1; CInt 2; CInt 4; CInt 1;
         CInt 85; CInt 1; CFloat NaN; CInt 0];
        [CStr "玉米排骨汤"; CFloat (PyFloat.of_Z 14); CInt 0; CInt 1; CInt 4; CInt 0;
         CInt 75; CInt 1; CFloat (PyFloat.of_Z 1); CInt 0];
        [CStr "玉米排骨汤"; CFloat (PyFloat.of_Z 9); CInt 0; CInt 12; CInt 4; CInt 0;
         CInt 90; CInt 1; CFloat (PyFloat.of_Z 1); CInt 0]] |}.

Definition folder_with_blanks : files :=
  set_history (Some history_with_blanks) Sample.folder.

(* ================================================================== *)
(** * Properties *)

(** ** Running the monad *)

Section MonadLaws.

Context {L : Lib}.

Lemma bind_Ret {A B : Type} (m : M A) (k : A -> M B) w a w1 t1 :
  m w = (Ret a, w1, t1) ->
  bind m k w = (let '(r, w2, t2) := k a w1 in (r, w2, (t1 ++ t2)%list)).
Proof. intros H. unfold bind. rewrite H. destruct (k a w1) as [[r w2] t2]. reflexivity. Qed.

Lemma bind_Raise {A B : Type} (m : M A) (k : A -> M B) w e w1 t1 :
  m w = (Raise e, w1, t1) -> bind m k w = (Raise e, w1, t1).
Proof. intros H. unfold bind. rewrite H. reflexivity. Qed.

Lemma bind_Exit {A B : Type} (m : M A) (k : A -> M B) w w1 t1 :
  m w = (Exit, w1, t1) -> bind m k w = (Exit, w1, t1).
Proof. intros H. unfold bind. rewrite H. reflexivity. Qed.

(** A bind that returns has run both of its halves. *)
Lemma bind_Ret_inv {A B : Type} (m : M A) (k : A -> M B) w b w2 t :
  bind m k w = (Ret b, w2, t) ->
  exists a w1 t1 t2,
    m w = (Ret a, w1, t1) /\ k a w1 = (Ret b, w2, t2) /\ t = (t1 ++ t2)%list.
Proof.
  unfold bind. destruct (m w) as [[r w1] t1]. destruct r as [a | e | ]; try discriminate.
  destruct (k a w1) as [[r2 w2'] t2] eqn:Hk. intros H. inversion H; subst.
  exists a, w1, t1, t2. auto.
Qed.

End MonadLaws.

(** Splits a hypothesis [bind m k w = (Ret b, w', t)] into its two halves. *)
Ltac bind_inv H :=
  let a := fresh "a" in
  let w1 := fresh "w" in
  let t1 := fresh "t" in
  let t2 := fresh "t" in
  let H1 := fresh "H" in
  let Ht := fresh "Ht" in
  apply bind_Ret_inv in H; destruct H as (a & w1 & t1 & t2 & H1 & H & Ht).

(** ** Missing artifacts (predict.py, lines 13-21) *)

(** C7: when one of the three artifacts is absent, the predictor prints the
    message that sends the user to [train_model.py] and leaves through
    [exit()]: the world is unchanged, and the trace holds the two banner
    lines, the artifacts it tried to open (up to the first absent one) and the
    message, so no prompt was shown and nothing was predicted. *)
Theorem missing_artifact_aborts {L : Lib} (w : world) :
  soup_predictor_model_pkl (fs w) = None \/ label_encoder_pkl (fs w) = None
  \/ feature_columns_pkl (fs w) = None ->
  exists n : nat,
    (1 <= n <= 3)%nat /\
    predict_py w =
      (Exit, w,
       ([Print [T "🔮 SoupAIDD 预测系统启动！"] nl; Print [T (PyStr.mul "=" 50)] nl]
          ++ map Open (firstn n artifact_names) ++ [remediation])%list).
Proof.
  intros H.
  unfold predict_py, predict_ranking, load_artifacts, try_FileNotFoundError, bind,
    open_file, print, emit, exit.
  destruct (soup_predictor_model_pkl (fs w)) as [m | ] eqn:Hm;
    [ | exists 1%nat; split; [lia | reflexivity] ].
  destruct (label_encoder_pkl (fs w)) as [l | ] eqn:Hl;
    [ | exists 2%nat; split; [lia | reflexivity] ].
  destruct (feature_columns_pkl (fs w)) as [c | ] eqn:Hc;
    [ | exists 3%nat; split; [lia | reflexivity] ].
  destruct H as [H | [H | H]]; discriminate.
Qed.

Lemma missing_artifact_aborts_witness :
  exists n : nat,
    (1 <= n <= 3)%nat /\
    predict_py (Sample.world_of Sample.without_model ["2024-02-03"; "6"]) =
      (Exit, Sample.world_of Sample.without_model ["2024-02-03"; "6"],
       ([Print [T "🔮 SoupAIDD 预测系统启动！"] nl; Print [T (PyStr.mul "=" 50)] nl]
          ++ map Open (firstn n artifact_names) ++ [remediation])%list).
Proof.
  apply (missing_artifact_aborts (L := RefLib)
           (Sample.world_of Sample.without_model ["2024-02-03"; "6"])).
  left. reflexivity.
Defined.

(** ** The weekend flag (predict.py, lines 34-37 and 54) *)

Lemma is_weekend_of_eq (weekday : string) :
  is_weekend_of weekday =
    if (String.eqb weekday "6" || String.eqb weekday "7")%bool then 1 else 0.
Proof.
  unfold is_weekend_of, PyStr.mem. simpl. rewrite orb_false_r. reflexivity.
Qed.

(** A weekday typed by the user is taken as it is. *)
Lemma ask_weekday_given {L : Lib} (date_input : string) (w : world) line rest :
  stdin w = line :: rest ->
  PyStr.strip line <> "" ->
  ask_weekday date_input w =
    (Ret (PyStr.strip line), {| fs := fs w; stdin := rest; now := now w |},
     [Prompt "星期几（1=周一，7=周日，回车自动计算）："]).
Proof.
  intros Hin Hne. unfold ask_weekday, bind, input. rewrite Hin.
  destruct (String.eqb (PyStr.strip line) "") eqn:E.
  - apply String.eqb_eq in E. contradiction.
  - reflexivity.
Qed.




(** ** Defaults of the prompts (predict.py, lines 27-51 and 66-67) *)

Section Prompts.

Context {L : Lib}.

Variables (w : world) (line : string) (rest : list string).
Hypothesis console : stdin w = line :: rest.

Let after : world := {| fs := fs w; stdin := rest; now := now w |}.

Lemma ask_date_blank :
  PyStr.strip line = "" ->
  ask_date w =
    (Ret (strftime (plus_one_day (now w))), after,
     [Prompt "日期（回车默认明天，或输入如2024-02-01）：";
      Print [T "   使用默认："; T (strftime (plus_one_day (now w)))] nl]).
Proof.
  intros Hb. unfold ask_date, bind, input. rewrite console, Hb. reflexivity.
Qed.

Lemma ask_date_given :
  PyStr.strip line <> "" ->
  ask_date w =
    (Ret (PyStr.strip line), after, [Prompt "日期（回车默认明天，或输入如2024-02-01）："]).
Proof.
  intros Hne. unfold ask_date, bind, input. rewrite console.
  destruct (String.eqb (PyStr.strip line) "") eqn:E.
  - apply String.eqb_eq in E. contradiction.
  - reflexivity.
Qed.

Lemma ask_weekday_blank (date_input : string) (d : date) :
  PyStr.strip line = "" ->
  strptime date_input = Some d ->
  ask_weekday date_input w =
    (Ret (PyStr.of_Z (isoweekday d)), after,
     [Prompt "星期几（1=周一，7=周日，回车自动计算）：";
      Print [T "   自动判断：星期"; T (PyStr.of_Z (isoweekday d))] nl]).
Proof.
  intros Hb Hd. unfold ask_weekday, bind, input, parse_date. rewrite console, Hb, Hd.
  reflexivity.
Qed.

Lemma ask_weekday_blank_malformed (date_input : string) :
  PyStr.strip line = "" ->
  strptime date_input = None ->
  ask_weekday date_input w =
    (Raise (ValueError "strptime"), after,
     [Prompt "星期几（1=周一，7=周日，回车自动计算）："]).
Proof.
  intros Hb Hd. unfold ask_weekday, bind, input, parse_date. rewrite console, Hb, Hd.
  reflexivity.
Qed.

Lemma dict_get_default (d : list (string * Z)) (key : string) (default : Z) :
  (forall k v, In (k, v) d -> k <> key) -> dict_get d key default = default.
Proof.
  induction d as [ | [k v] d IH]; intros H; simpl.
  - reflexivity.
  - destruct (String.eqb k key) eqn:E.
    + apply String.eqb_eq in E. exfalso. apply (H k v); [left; reflexivity | exact E].
    + apply IH. intros k' v' Hin. apply (H k' v'). right. exact Hin.
Qed.

Lemma ask_weather_code :
  ask_weather w =
    (Ret (PyStr.strip line, dict_get weather_map (PyStr.strip line) 2), after,
     [Print [T nl; T "天气选项：晴(3), 多云(2), 阴(1), 雨(0)"] nl;
      Prompt "明天天气：";
      Print [T "   编码："; I (dict_get weather_map (PyStr.strip line) 2)] nl]).
Proof.
  unfold ask_weather, bind, print, emit, input. rewrite console. reflexivity.
Qed.

Lemma ask_temp_text (x : pyfloat) :
  float_of_str (if String.eqb (PyStr.strip line) "" then "20" else PyStr.strip line)
    = Some x ->
  ask_temp w =
    (Ret x, after,
     [Prompt "明天温度（摄氏度，如25）："; Print [T "   温度："; F x; T "°C"] nl]).
Proof.
  intros Hx. unfold ask_temp, bind, input, or_ValueError. rewrite console, Hx.
  reflexivity.
Qed.

Lemma ask_temp_malformed :
  float_of_str (if String.eqb (PyStr.strip line) "" then "20" else PyStr.strip line)
    = None ->
  ask_temp w = (Raise (ValueError "float"), after, [Prompt "明天温度（摄氏度，如25）："]).
Proof.
  intros Hx. unfold ask_temp, bind, input, or_ValueError. rewrite console, Hx.
  reflexivity.
Qed.

Lemma ask_inventory_list (feature_columns : list string) :
  ask_inventory feature_columns w =
    (Ret (parse_inventory (PyStr.strip line)), after,
     [Print [T nl; T "🥬 冰箱现在有什么食材？（输入学过的食材，用逗号分隔）"] nl;
      Print [T "   可选食材：";
             T (PyStr.join ", "
                  (map ingredient_name (filter is_ingredient feature_columns)))] nl;
      Prompt "库存食材："]).
Proof.
  unfold ask_inventory, bind, print, emit, input. rewrite console. reflexivity.
Qed.

End Prompts.

(** C9: every prompt of the predictor has a fallback for an answer that is
    blank after [strip()].  A blank date becomes the clock's date plus one
    day, formatted; a blank weekday is the ISO weekday of the parsed date; a
    weather word that is not a key of the table, the blank one included,
    gets code 2; a blank temperature is read as [float("20")]; a blank pantry
    is the empty list.  None of these raises. *)
Theorem prompt_defaults {L : Lib} (w : world) (line : string) (rest : list string) :
  stdin w = line :: rest ->
  let after := {| fs := fs w; stdin := rest; now := now w |} in
  (PyStr.strip line = "" ->
   ask_date w =
     (Ret (strftime (plus_one_day (now w))), after,
      [Prompt "日期（回车默认明天，或输入如2024-02-01）：";
       Print [T "   使用默认："; T (strftime (plus_one_day (now w)))] nl]))
  /\ (forall date_input d,
        PyStr.strip line = "" ->
        strptime date_input = Some d ->
        ask_weekday date_input w =
          (Ret (PyStr.of_Z (isoweekday d)), after,
           [Prompt "星期几（1=周一，7=周日，回车自动计算）：";
            Print [T "   自动判断：星期"; T (PyStr.of_Z (isoweekday d))] nl]))
  /\ ((forall k v, In (k, v) weather_map -> k <> PyStr.strip line) ->
      ask_weather w =
        (Ret (PyStr.strip line, 2), after,
         [Print [T nl; T "天气选项：晴(3), 多云(2), 阴(1), 雨(0)"] nl;
          Prompt "明天天气：";
          Print [T "   编码："; I 2] nl]))
  /\ (forall x,
        PyStr.strip line = "" ->
        float_of_str "20" = Some x ->
        ask_temp w =
          (Ret x, after,
           [Prompt "明天温度（摄氏度，如25）："; Print [T "   温度："; F x; T "°C"] nl]))
  /\ (forall feature_columns,
        PyStr.strip line = "" ->
        fst (fst (ask_inventory feature_columns w)) = Ret []).
Proof.
  intros Hin after. repeat split.
  - intros Hb. apply (ask_date_blank w line rest Hin Hb).
  - intros date_input d Hb Hd. apply (ask_weekday_blank w line rest Hin date_input d Hb Hd).
  - intros Hkeys. rewrite (ask_weather_code w line rest Hin).
    rewrite (dict_get_default weather_map (PyStr.strip line) 2 Hkeys). reflexivity.
  - intros x Hb Hx. apply (ask_temp_text w line rest Hin x). rewrite Hb. exact Hx.
  - intros feature_columns Hb. rewrite (ask_inventory_list w line rest Hin), Hb.
    reflexivity.
Qed.

Lemma prompt_defaults_witness :
  ask_date (Sample.world_of Sample.folder ["  "; "6"]) =
    (Ret "2024-03-01", Sample.world_of Sample.folder ["6"],
     [Prompt "日期（回车默认明天，或输入如2024-02-01）：";
      Print [T "   使用默认："; T "2024-03-01"] nl])
  /\ ask_weekday "2024-03-01" (Sample.world_of Sample.folder ["  "; "6"]) =
       (Ret "5", Sample.world_of Sample.folder ["6"],
        [Prompt "星期几（1=周一，7=周日，回车自动计算）：";
         Print [T "   自动判断：星期"; T "5"] nl])
  /\ ask_temp (Sample.world_of Sample.folder ["  "; "6"]) =
       (Ret (Fin 20), Sample.world_of Sample.folder ["6"],
        [Prompt "明天温度（摄氏度，如25）：";
         Print [T "   温度："; F (Fin 20); T "°C"] nl]).
Proof.
  destruct (prompt_defaults (L := RefLib) (Sample.world_of Sample.folder ["  "; "6"])
              "  " ["6"] eq_refl) as [Hd [Hw [_ [Ht _]]]].
  split; [ | split].
  - apply Hd. reflexivity.
  - apply (Hw "2024-03-01" {| Ref.year := 2024; Ref.mon := 3; Ref.day := 1 |});
      reflexivity.
  - apply (Ht (Fin 20)); reflexivity.
Defined.

(** ** The feature row (predict.py, lines 73-89) *)

Lemma mem_true_iff (x : string) (l : list string) : PyStr.mem x l = true <-> In x l.
Proof.
  unfold PyStr.mem. rewrite existsb_exists. split.
  - intros [y [Hy E]]. apply String.eqb_eq in E. subst. exact Hy.
  - intros H. exists x. split; [exact H | apply String.eqb_refl].
Qed.

Lemma get_set_column (df : row_frame) (name c : string) (v : cell) :
  get_column (set_column df name v) c =
    if String.eqb name c then Some v else get_column df c.
Proof.
  induction df as [ | [k x] df IH]; simpl.
  - reflexivity.
  - destruct (String.eqb k name) eqn:Ekn; simpl.
    + apply String.eqb_eq in Ekn. subst k.
      destruct (String.eqb name c); reflexivity.
    + destruct (String.eqb k c) eqn:Ekc.
      * apply String.eqb_eq in Ekc. subst k.
        rewrite String.eqb_sym, Ekn. reflexivity.
      * exact IH.
Qed.

Lemma get_add_ingredients (inventory_list cols : list string) :
  forall (df : row_frame) (c : string),
    get_column (add_ingredients cols inventory_list df) c =
      if (is_ingredient c && PyStr.mem c cols)%bool
      then Some (CInt (if PyStr.mem (ingredient_name c) inventory_list then 1 else 0))
      else get_column df c.
Proof.
  unfold add_ingredients.
  induction cols as [ | col cols IH]; intros df c; simpl.
  - rewrite andb_false_r. reflexivity.
  - rewrite IH. destruct (is_ingredient c) eqn:Ic; simpl.
    + destruct (PyStr.mem c cols) eqn:Mc.
      * rewrite orb_true_r. reflexivity.
      * rewrite orb_false_r. destruct (String.eqb c col) eqn:E.
        -- apply String.eqb_eq in E. subst col. rewrite Ic.
           rewrite get_set_column, String.eqb_refl. reflexivity.
        -- destruct (is_ingredient col); [ | reflexivity].
           rewrite get_set_column, String.eqb_sym, E. reflexivity.
    + destruct (is_ingredient col) eqn:Icol; [ | reflexivity].
      rewrite get_set_column. destruct (String.eqb col c) eqn:E; [ | reflexivity].
      apply String.eqb_eq in E. subst col. congruence.
Qed.

Lemma select_columns_map {L : Lib} (df : row_frame) (f : string -> cell) (w : world) :
  forall names : list string,
    (forall c, In c names -> get_column df c = Some (f c)) ->
    select_columns df names w = (Ret (map (fun c => (c, f c)) names), w, []).
Proof.
  induction names as [ | c names IH]; intros H; simpl.
  - reflexivity.
  - rewrite (H c (or_introl eq_refl)). unfold bind.
    rewrite IH by (intros c' Hc'; apply H; right; exact Hc'). reflexivity.
Qed.

Lemma base_column_value (inventory_list : list string) (temp : pyfloat)
  (weather_code month season is_weekend : Z) (c : string) :
  In c base_columns ->
  is_ingredient c = false
  /\ get_column (base_frame temp weather_code month season is_weekend) c =
       Some (feature_value inventory_list temp weather_code month season is_weekend c).
Proof.
  unfold base_columns. simpl.
  intros [<- | [<- | [<- | [<- | [<- | [<- | []]]]]]]; split; reflexivity.
Qed.

Lemma feature_value_extra (extra : string) (inventory_list : list string) (temp : pyfloat)
  (weather_code month season is_weekend : Z) (c : string) :
  ingredient_name c <> extra ->
  feature_value (extra :: inventory_list) temp weather_code month season is_weekend c =
  feature_value inventory_list temp weather_code month season is_weekend c.
Proof.
  intros Hne. unfold feature_value, PyStr.mem. simpl.
  destruct (String.eqb (ingredient_name c) extra) eqn:E; [ | reflexivity].
  apply String.eqb_eq in E. contradiction.
Qed.

Lemma tomorrow_features_value {L : Lib} (schema inventory_list : list string)
  (temp : pyfloat) (weather_code month season is_weekend : Z) (w : world) :
  valid_schema schema = true ->
  tomorrow_features schema inventory_list temp weather_code month season is_weekend w =
    (Ret (map (fun col =>
                 (col, feature_value inventory_list temp weather_code month season
                         is_weekend col)) schema), w, []).
Proof.
  intros Hv. unfold tomorrow_features. apply select_columns_map.
  intros c Hc. rewrite get_add_ingredients.
  unfold valid_schema in Hv. rewrite forallb_forall in Hv. specialize (Hv c Hc).
  destruct (is_ingredient c) eqn:Ic; simpl.
  - apply mem_true_iff in Hc. rewrite Hc. unfold feature_value. rewrite Ic. reflexivity.
  - rewrite orb_false_r in Hv. apply mem_true_iff in Hv.
    apply (base_column_value inventory_list temp weather_code month season is_weekend) in Hv.
    apply Hv.
Qed.

(** C6: for a schema of fixed and ingredient columns and any answers, the
    feature row is built without failure and without effect; it has one entry
    per column of the schema, in the order of the schema, and the entry of an
    ingredient column is 1 when the ingredient's name is in the pantry list
    and 0 otherwise.  A pantry name that no ingredient column carries changes
    nothing. *)
Theorem encode_follows_schema {L : Lib} (schema inventory_list : list string)
  (temp : pyfloat) (weather_code month season is_weekend : Z) (w : world) :
  valid_schema schema = true ->
  exists row : row_frame,
    tomorrow_features schema inventory_list temp weather_code month season is_weekend w
      = (Ret row, w, [])
    /\ List.length row = List.length schema
    /\ map fst row = schema
    /\ (forall i col,
          nth_error schema i = Some col ->
          nth_error row i =
            Some (col, feature_value inventory_list temp weather_code month season
                         is_weekend col))
    /\ (forall i col,
          nth_error schema i = Some col ->
          is_ingredient col = true ->
          nth_error (map snd row) i =
            Some (CInt (if PyStr.mem (ingredient_name col) inventory_list
                        then 1 else 0)))
    /\ (forall extra,
          (forall col, In col schema -> ingredient_name col <> extra) ->
          tomorrow_features schema (extra :: inventory_list) temp weather_code month
            season is_weekend w = (Ret row, w, [])).
Proof.
  intros Hv.
  exists (map (fun col =>
                 (col, feature_value inventory_list temp weather_code month season
                         is_weekend col)) schema).
  split; [ | split; [ | split; [ | split; [ | split]]]].
  - apply tomorrow_features_value. exact Hv.
  - apply length_map.
  - rewrite map_map. simpl. apply map_id.
  - intros i col Hi. rewrite nth_error_map, Hi. reflexivity.
  - intros i col Hi Ic. rewrite map_map, nth_error_map, Hi. simpl.
    unfold feature_value. rewrite Ic. reflexivity.
  - intros extra Hx. rewrite (tomorrow_features_value _ _ _ _ _ _ _ _ Hv).
    rewrite (map_ext_in
               (fun col => (col, feature_value (extra :: inventory_list) temp
                                   weather_code month season is_weekend col))
               (fun col => (col, feature_value inventory_list temp weather_code
                                   month season is_weekend col))).
    + reflexivity.
    + intros c Hc. rewrite feature_value_extra by (apply Hx; exact Hc). reflexivity.
Qed.

Lemma encode_follows_schema_witness :
  exists row : row_frame,
    tomorrow_features Sample.schema ["排骨"; "玉米"; "龙虾"] (Fin 10) 0 2 4 1
      (Sample.world_of Sample.folder [])
      = (Ret row, Sample.world_of Sample.folder [], [])
    /\ List.length row = 9%nat
    /\ map fst row = Sample.schema.
Proof.
  destruct (encode_follows_schema (L := RefLib) Sample.schema ["排骨"; "玉米"; "龙虾"]
              (Fin 10) 0 2 4 1 (Sample.world_of Sample.folder []) eq_refl)
    as [row [Hrun [Hlen [Hnames _]]]].
  exists row. split; [exact Hrun | split; [exact Hlen | exact Hnames]].
Defined.

(** The row of a cold rainy Saturday in February with ribs, corn and an
    ingredient the schema does not know. *)
Example encode_sample :
  fst (fst (tomorrow_features Sample.schema ["排骨"; "玉米"; "龙虾"] (Fin 10) 0 2 4 1
              (Sample.world_of Sample.folder [])))
  = Ret (combine Sample.schema
           [CFloat (Fin 10); CInt 0; CInt 2; CInt 4; CInt 1; CInt 75;
            CInt 1; CInt 1; CInt 0]).
Proof. vm_compute. reflexivity. Qed.

(** ** The three best classes (predict.py, line 96) *)

Section Sorting.

Context {A : Type} (R : A -> A -> Prop).

Lemma ssorted_app_inv (a b : list A) :
  StronglySorted R (a ++ b) ->
  StronglySorted R b /\ (forall x y, In x a -> In y b -> R x y).
Proof.
  induction a as [ | h a IH]; simpl; intros H.
  - split; [exact H | intros x y []].
  - apply StronglySorted_inv in H. destruct H as [Hs Hf].
    destruct (IH Hs) as [Hb Hab]. split; [exact Hb | ].
    intros x y [<- | Hx] Hy.
    + rewrite Forall_forall in Hf. apply Hf. apply in_or_app. right. exact Hy.
    + apply Hab; assumption.
Qed.

Lemma ssorted_snoc (l : list A) (a : A) :
  StronglySorted R l -> Forall (fun x => R x a) l -> StronglySorted R (l ++ [a]).
Proof.
  induction l as [ | h l IH]; simpl; intros Hs Hf.
  - constructor; constructor.
  - apply StronglySorted_inv in Hs. destruct Hs as [Hs Hh].
    inversion Hf as [ | ? ? Hha Hf']; subst.
    constructor.
    + apply IH; assumption.
    + apply Forall_app. split; [exact Hh | constructor; [exact Hha | constructor]].
Qed.

End Sorting.

Lemma ssorted_rev {A : Type} (R : A -> A -> Prop) (l : list A) :
  StronglySorted R l -> StronglySorted (fun x y => R y x) (rev l).
Proof.
  induction 1 as [ | a l Hs IH Hf]; simpl.
  - constructor.
  - apply ssorted_snoc; [exact IH | ].
    rewrite Forall_forall in *. intros x Hx. apply Hf. apply in_rev. exact Hx.
Qed.

Lemma last_n_split {A : Type} (n : nat) (l : list A) :
  l = (firstn (List.length l - n) l ++ last_n n l)%list.
Proof. unfold last_n. symmetry. apply firstn_skipn. Qed.

Lemma last_n_length {A : Type} (n : nat) (l : list A) :
  List.length (last_n n l) = Nat.min n (List.length l).
Proof. unfold last_n. rewrite length_skipn. lia. Qed.

(** What the ranking step returns is read off [top3_indices]. *)
Lemma rank_reports_top3 {L : Lib} (model : classifier)
  (label_encoder feature_columns inventory_list : list string) (t : tomorrow_inputs)
  (w : world) soups probs w' tr :
  rank model label_encoder feature_columns inventory_list t w
    = (Ret (soups, probs), w', tr) ->
  exists row,
    fst (fst (tomorrow_features feature_columns inventory_list (in_temp t)
                (in_weather_code t) (in_month t) (in_season t) (in_is_weekend t) w))
      = Ret row
    /\ let p := predict_proba model (map snd row) in
       soups = map (fun i => nth i label_encoder "") (top3_indices p)
       /\ probs = map (prob p) (top3_indices p).
Proof.
  unfold rank. intros H. bind_inv H. bind_inv H. bind_inv H. bind_inv H.
  unfold print, emit in H0. inversion H0; subst.
  exists a0. rewrite H1. split; [reflexivity | ].
  unfold inverse_transform in H2. unfold take in H3. unfold ret in H.
  destruct (forallb _ _) in H2; [ | discriminate].
  destruct (forallb _ _) in H3; [ | discriminate].
  unfold ret in H2, H3. inversion H2; inversion H3; inversion H; subst.
  split; reflexivity.
Qed.


(** The sort of [RefLib] meets the promise of [np.argsort]. *)

Lemma insert_asc_perm (x : Q * nat) (l : list (Q * nat)) :
  Permutation (Ref.insert_asc x l) (x :: l).
Proof.
  induction l as [ | h t IH]; simpl.
  - apply Permutation_refl.
  - destruct (Qle_bool (fst x) (fst h)).
    + apply Permutation_refl.
    + apply perm_trans with (h :: x :: t); [apply perm_skip; exact IH | apply perm_swap].
Qed.

Lemma insert_asc_sorted (x : Q * nat) (l : list (Q * nat)) :
  StronglySorted key_le l -> StronglySorted key_le (Ref.insert_asc x l).
Proof.
  induction 1 as [ | h t Hs IH Hf]; simpl.
  - constructor; constructor.
  - destruct (Qle_bool (fst x) (fst h)) eqn:E.
    + apply Qle_bool_iff in E. constructor.
      * constructor; assumption.
      * constructor; [exact E | ].
        rewrite Forall_forall in *. intros y Hy. unfold key_le in *.
        apply Qle_trans with (fst h); [exact E | apply Hf; exact Hy].
    + constructor; [exact IH | ].
      assert (Hhx : key_le h x).
      { unfold key_le. destruct (Qlt_le_dec (fst h) (fst x)) as [Hlt | Hle].
        - apply Qlt_le_weak. exact Hlt.
        - apply Qle_bool_iff in Hle. congruence. }
      rewrite Forall_forall in *. intros y Hy.
      apply (Permutation_in _ (insert_asc_perm x t)) in Hy.
      destruct Hy as [<- | Hy]; [exact Hhx | apply Hf; exact Hy].
Qed.

Lemma sort_pairs_perm (l : list (Q * nat)) :
  Permutation (fold_right Ref.insert_asc [] l) l.
Proof.
  induction l as [ | h t IH]; simpl.
  - constructor.
  - apply perm_trans with (h :: fold_right Ref.insert_asc [] t).
    + apply insert_asc_perm.
    + apply perm_skip. exact IH.
Qed.

Lemma sort_pairs_sorted (l : list (Q * nat)) :
  StronglySorted key_le (fold_right Ref.insert_asc [] l).
Proof.
  induction l as [ | h t IH]; simpl.
  - constructor.
  - apply insert_asc_sorted. exact IH.
Qed.

Lemma snd_combine_seq (p : list Q) :
  forall k, map snd (combine p (seq k (List.length p))) = seq k (List.length p).
Proof.
  induction p as [ | q p IH]; intros k; simpl.
  - reflexivity.
  - rewrite IH. reflexivity.
Qed.

Lemma in_combine_seq (p : list Q) :
  forall k q i,
    In (q, i) (combine p (seq k (List.length p))) ->
    (k <= i)%nat /\ nth (i - k) p 0%Q = q.
Proof.
  induction p as [ | h p IH]; intros k q i; simpl.
  - intros [].
  - intros [E | Hin].
    + inversion E; subst. rewrite Nat.sub_diag. split; [lia | reflexivity].
    + apply IH in Hin. destruct Hin as [Hk Hn]. split; [lia | ].
      replace (i - k)%nat with (S (i - S k)) by lia. exact Hn.
Qed.

Lemma ssorted_map_snd (p : list Q) (l : list (Q * nat)) :
  (forall a, In a l -> fst a = prob p (snd a)) ->
  StronglySorted key_le l ->
  StronglySorted (fun i j => (prob p i <= prob p j)%Q) (map snd l).
Proof.
  intros Hkey. induction 1 as [ | a l Hs IH Hf]; simpl.
  - constructor.
  - constructor.
    + apply IH. intros b Hb. apply Hkey. right. exact Hb.
    + rewrite Forall_forall in *. intros j Hj. apply in_map_iff in Hj.
      destruct Hj as [b [<- Hb]].
      rewrite <- (Hkey a (or_introl eq_refl)), <- (Hkey b (or_intror Hb)).
      apply Hf. exact Hb.
Qed.

Lemma stable_argsort_ascending (p : list Q) :
  ascending_order p (Ref.stable_argsort p).
Proof.
  unfold ascending_order, Ref.stable_argsort. split.
  - rewrite <- (snd_combine_seq p 0) at 2. apply Permutation_map. apply sort_pairs_perm.
  - apply ssorted_map_snd; [ | apply sort_pairs_sorted].
    intros [q i] Hin. apply (Permutation_in _ (sort_pairs_perm _)) in Hin.
    apply in_combine_seq in Hin. destruct Hin as [_ Hn].
    rewrite Nat.sub_0_r in Hn. simpl. unfold prob. symmetry. exact Hn.
Qed.



(** ** Typical and missing ingredients (predict.py, lines 127-146) *)

(** The test [mean > 0.5] on a column of zeros and ones is a majority vote. *)
Lemma majority_test (ones n : nat) (s : Q) :
  (0 < n)%nat ->
  (s == inject_Z (Z.of_nat ones))%Q ->
  PyFloat.gtb (PyFloat.div_count (Fin s) n) (Fin (1 # 2)) = (n <? 2 * ones)%nat.
Proof.
  intros Hn Hs. unfold PyFloat.gtb, PyFloat.ltb, PyFloat.div_count, PyFloat.Qltb.
  rewrite Hs.
  destruct (Nat.ltb_spec n (2 * ones)) as [H | H].
  - apply negb_true_iff. apply not_true_iff_false. intros E. apply Qle_bool_iff in E.
    revert E. unfold Qle, Qdiv, Qmult, Qinv, inject_Z. simpl.
    destruct (Z.of_nat n) eqn:En; try lia. simpl. lia.
  - apply negb_false_iff. apply Qle_bool_iff.
    unfold Qle, Qdiv, Qmult, Qinv, inject_Z. simpl.
    destruct (Z.of_nat n) eqn:En; try lia. simpl. lia.
Qed.

(** Adding up a column of zeros and ones counts the ones. *)
Lemma binary_sum (cells : list cell) :
  forallb is_binary cells = true ->
  existsb is_CStr cells = false
  /\ List.length (numeric_values cells) = List.length cells
  /\ forall a, exists s,
       fold_left PyFloat.add (numeric_values cells) (Fin a) = Fin s
       /\ (s == a + inject_Z (Z.of_nat (List.length (filter is_present cells))))%Q.
Proof.
  induction cells as [ | c cells IH]; simpl; intros H.
  - split; [reflexivity | split; [reflexivity | ]]. intros a. exists a.
    split; [reflexivity | ]. unfold inject_Z. simpl. ring.
  - apply andb_true_iff in H. destruct H as [Hc Hr]. destruct (IH Hr) as [He [Hl Hs]].
    destruct c as [z | x | s0]; simpl in *; try discriminate.
    + split; [exact He | split; [congruence | ]]. intros a.
      destruct (Hs (a + inject_Z z)%Q) as [s [Hf Hq]]. exists s. split; [exact Hf | ].
      rewrite Hq. apply orb_true_iff in Hc.
      destruct Hc as [Hz | Hz]; apply Z.eqb_eq in Hz; subst z; simpl.
      * unfold inject_Z; ring.
      * rewrite Zpos_P_of_succ_nat. unfold Z.succ. rewrite inject_Z_plus. ring.
    + destruct x as [q | | | ]; try discriminate. simpl.
      split; [exact He | split; [congruence | ]]. intros a.
      destruct (Hs (a + q)%Q) as [s [Hf Hq]]. exists s. split; [exact Hf | ].
      rewrite Hq. apply orb_true_iff in Hc. destruct Hc as [Hz | Hz].
      * apply Qeq_bool_iff in Hz.
        destruct (Qeq_bool q 1) eqn:E1.
        { apply Qeq_bool_iff in E1. rewrite Hz in E1. discriminate. }
        rewrite Hz. ring.
      * rewrite Hz. apply Qeq_bool_iff in Hz. simpl.
        rewrite Zpos_P_of_succ_nat. unfold Z.succ. rewrite inject_Z_plus, Hz. ring.
Qed.

Lemma mean_binary {L : Lib} (cells : list cell) (w : world) :
  forallb is_binary cells = true ->
  exists m,
    mean cells w = (Ret m, w, [])
    /\ PyFloat.gtb m (Fin (1 # 2))
       = (List.length cells <? 2 * List.length (filter is_present cells))%nat.
Proof.
  intros Hb. destruct (binary_sum cells Hb) as [He [Hl Hs]].
  unfold mean. rewrite He.
  destruct (numeric_values cells) as [ | v vs] eqn:Ev.
  - exists NaN. split; [reflexivity | ].
    destruct cells as [ | c cells]; [reflexivity | simpl in Hl; discriminate].
  - destruct (Hs 0%Q) as [s [Hf Hq]]. rewrite Hf.
    exists (PyFloat.div_count (Fin s) (List.length (v :: vs))).
    split; [reflexivity | ]. rewrite Hl. apply majority_test.
    + rewrite <- Hl. simpl. lia.
    + rewrite Hq. ring.
Qed.

Lemma column_cells {L : Lib} (df : dataframe) (col : string) (i : nat) (w : world) :
  index_of col (columns df) = Some i ->
  column df col w = (Ret (cells_of df col), w, []).
Proof. intros H. unfold column, cells_of. rewrite H. reflexivity. Qed.

Lemma typical_ingredients_majority {L : Lib} (records : dataframe) (w : world) :
  forall schema : list string,
    binary_ingredients records schema = true ->
    typical_ingredients records schema w =
      (Ret (typical_by_majority records schema), w, []).
Proof.
  unfold typical_by_majority, binary_ingredients.
  induction schema as [ | col schema IH]; intros Hb.
  - reflexivity.
  - cbn [forallb] in Hb. apply andb_true_iff in Hb. destruct Hb as [Hcol Hrest].
    specialize (IH Hrest). cbn [typical_ingredients filter].
    destruct (is_ingredient col) eqn:Ic; cbn [andb negb orb] in *; [ | exact IH].
    destruct (index_of col (columns records)) as [i | ] eqn:Ei; [ | discriminate].
    destruct (mean_binary (cells_of records col) w Hcol) as [m [Hm Hgt]].
    change (List.length (filter is_present (cells_of records col)))
      with (present_count records col) in Hgt.
    replace (List.length (cells_of records col)) with (List.length (rows records))
      in Hgt by (unfold cells_of; rewrite Ei, length_map; reflexivity).
    unfold bind. rewrite (column_cells records col i w Ei), Hm, IH. unfold ret.
    rewrite Hgt.
    destruct (List.length (rows records) <? 2 * present_count records col)%nat;
      reflexivity.
Qed.

Lemma rows_where_records {L : Lib} (history : dataframe) (soup : string) (k : nat)
  (w : world) :
  index_of "汤名" (columns history) = Some k ->
  rows_where history "汤名" soup w = (Ret (records_of history soup), w, []).
Proof. intros H. unfold rows_where, records_of. rewrite H. reflexivity. Qed.

Lemma missing_of_iff (typical inventory_list : list string) (ing : string) :
  In ing (missing_of typical inventory_list) <->
  In ing typical /\ ~ In ing inventory_list.
Proof.
  unfold missing_of. rewrite filter_In. split; intros [Ht Hn]; split; try exact Ht.
  - intros Hin. apply mem_true_iff in Hin. rewrite Hin in Hn. discriminate.
  - destruct (PyStr.mem ing inventory_list) eqn:E; [ | reflexivity].
    apply mem_true_iff in E. contradiction.
Qed.

(** C5: when the history file has the label column, at least one record of
    the top soup, and zeros and ones in the ingredient columns of these
    records, the ingredients reported as usually needed are exactly those
    present in more than half of the records of the soup, the ingredients
    reported as missing are exactly the typical ones that are not in the
    pantry list, and an empty missing list gives the ready-to-cook line. *)
Theorem missing_ingredients_by_majority {L : Lib} (w : world) (history : dataframe)
  (top1 : string) (schema inventory_list : list string) (k : nat) :
  history_cleaned_csv (fs w) = Some history ->
  index_of "汤名" (columns history) = Some k ->
  nonempty (rows (records_of history top1)) = true ->
  binary_ingredients (records_of history top1) schema = true ->
  let records := records_of history top1 in
  let typical := typical_by_majority records schema in
  let missing := missing_of typical inventory_list in
  (forall ing,
     In ing typical <->
     exists col, In col schema /\ is_ingredient col = true /\ ingredient_name col = ing
                 /\ (List.length (rows records) < 2 * present_count records col)%nat)
  /\ (forall ing, In ing missing <-> In ing typical /\ ~ In ing inventory_list)
  /\ explain_missing top1 schema inventory_list w =
       (Ret tt, w,
        [Open history_name;
         Print [T "   通常需要："; T (PyStr.join ", " typical)] nl;
         match missing with
         | [] => Print [T "   ✅ 食材齐全，可以开煲！"] nl
         | _ => Print [T "   ⚠️  缺少食材："; T (PyStr.join ", " missing);
                       T "（建议购买）"] nl
         end]).
Proof.
  intros Hfile Hlabel Hrows Hbin records typical missing.
  split; [ | split].
  - intros ing. unfold typical, typical_by_majority. rewrite in_map_iff. split.
    + intros [col [Hname Hin]]. apply filter_In in Hin. destruct Hin as [Hin Hc].
      apply andb_true_iff in Hc. destruct Hc as [Hi Hm]. apply Nat.ltb_lt in Hm.
      exists col. auto.
    + intros [col [Hin [Hi [Hname Hm]]]]. exists col. split; [exact Hname | ].
      apply filter_In. split; [exact Hin | ]. apply andb_true_iff.
      split; [exact Hi | apply Nat.ltb_lt; exact Hm].
  - intros ing. apply missing_of_iff.
  - unfold missing, typical, records.
    unfold explain_missing, bind, open_file. rewrite Hfile.
    rewrite (rows_where_records history top1 k w Hlabel), Hrows.
    rewrite (typical_ingredients_majority _ w schema Hbin).
    unfold print, emit.
    destruct (missing_of (typical_by_majority (records_of history top1) schema)
                inventory_list); reflexivity.
Qed.

Lemma missing_ingredients_by_majority_witness :
  explain_missing "玉米排骨汤" Sample.schema ["排骨"; "玉米"]
    (Sample.world_of Sample.folder []) =
    (Ret tt, Sample.world_of Sample.folder [],
     [Open history_name;
      Print [T "   通常需要："; T "排骨, 玉米, 胡萝卜"] nl;
      Print [T "   ⚠️  缺少食材："; T "胡萝卜"; T "（建议购买）"] nl]).
Proof.
  apply (missing_ingredients_by_majority (L := RefLib)
           (Sample.world_of Sample.folder []) Sample.history "玉米排骨汤"
           Sample.schema ["排骨"; "玉米"] 0%nat);
    reflexivity.
Defined.

(** C5, the claim as it is written, on two history files.  With the corn
    cell blank in two of the four records of the soup, [mean()] leaves the
    blank cells out: corn is present in two records of four, not in more
    than half, and yet it is reported as usually needed and as missing, where
    the specification gives the ready-to-cook line.  With no record of the
    soup, no ingredient is in more than half of the records and none is
    missing, and yet the hint to look at the history is printed, not the
    ready-to-cook line. *)
Lemma majority_fails_on_blank_cells :
  (List.length (rows (records_of history_with_blanks "玉米排骨汤")) = 4%nat
   /\ present_count (records_of history_with_blanks "玉米排骨汤") "食材_玉米" = 2%nat
   /\ snd (explain_missing "玉米排骨汤" Sample.schema ["排骨"]
             (Sample.world_of folder_with_blanks [])) =
        [Open history_name;
         Print [T "   通常需要："; T "排骨, 玉米"] nl;
         Print [T "   ⚠️  缺少食材："; T "玉米"; T "（建议购买）"] nl]
   /\ report_by_majority (records_of history_with_blanks "玉米排骨汤") Sample.schema
        ["排骨"] =
        [Open history_name;
         Print [T "   通常需要："; T "排骨"] nl;
         Print [T "   ✅ 食材齐全，可以开煲！"] nl]
   /\ ~ reports_by_majority (Sample.world_of folder_with_blanks []) history_with_blanks
          "玉米排骨汤" Sample.schema ["排骨"])
  /\ (rows (records_of Sample.history "罗宋汤") = []
      /\ snd (explain_missing "罗宋汤" Sample.schema ["排骨"]
                (Sample.world_of Sample.folder [])) =
           [Open history_name; Print [T "   建议查看历史记录了解配方"] nl]
      /\ report_by_majority (records_of Sample.history "罗宋汤") Sample.schema ["排骨"] =
           [Open history_name;
            Print [T "   通常需要："; T ""] nl;
            Print [T "   ✅ 食材齐全，可以开煲！"] nl]
      /\ ~ reports_by_majority (Sample.world_of Sample.folder []) Sample.history
             "罗宋汤" Sample.schema ["排骨"]).
Proof.
  split.
  - split; [reflexivity | ]. split; [reflexivity | ].
    split; [vm_compute; reflexivity | ]. split; [vm_compute; reflexivity | ].
    unfold reports_by_majority. intros H. apply (f_equal snd) in H.
    vm_compute in H. discriminate H.
  - split; [reflexivity | ]. split; [vm_compute; reflexivity | ].
    split; [vm_compute; reflexivity | ].
    unfold reports_by_majority. intros H. apply (f_equal snd) in H.
    vm_compute in H. discriminate H.
Qed.

(** ** The split of the trainer (train_model.py, lines 48-65 and 84-99) *)

Section Split.

Context {L : Lib}.

Variables (X : list (list cell)) (y_encoded : list nat) (n_records : nat) (w : world).

Lemma split_small :
  (n_records < 15)%nat ->
  split_data X y_encoded n_records w =
    (Ret (X, None, y_encoded, None), w,
     [Print [T "   数据较少（"; I (Z.of_nat n_records);
             T "条），全部用于学习（暂不测试准确率）"] nl]).
Proof.
  intros Hn. unfold split_data.
  destruct (15 <=? n_records)%nat eqn:E; [apply Nat.leb_le in E; lia | ].
  reflexivity.
Qed.

Lemma split_stratified (X_train X_test : list (list cell)) (y_train y_test : list nat) :
  (15 <= n_records)%nat ->
  train_test_split X y_encoded (2 # 10) 42 (Some y_encoded)
    = Some (X_train, X_test, y_train, y_test) ->
  split_data X y_encoded n_records w =
    (Ret (X_train, Some X_test, y_train, Some y_test), w,
     [Print [T "   训练集："; I (len X_train); T "条，测试集："; I (len X_test);
             T "条"] nl]).
Proof.
  intros Hn Hs. unfold split_data.
  destruct (15 <=? n_records)%nat eqn:E; [ | apply Nat.leb_gt in E; lia].
  unfold try_ValueError, bind, or_ValueError. rewrite Hs. reflexivity.
Qed.

Lemma split_fallback (X_train X_test : list (list cell)) (y_train y_test : list nat) :
  (15 <= n_records)%nat ->
  train_test_split X y_encoded (2 # 10) 42 (Some y_encoded) = None ->
  train_test_split X y_encoded (2 # 10) 42 None
    = Some (X_train, X_test, y_train, y_test) ->
  split_data X y_encoded n_records w =
    (Ret (X_train, Some X_test, y_train, Some y_test), w,
     [Print [T "   注意：某些汤品记录太少（只喝过1次），无法分层测试"] nl;
      Print [T "   改用随机划分：训练集"; I (len X_train); T "条，测试集";
             I (len X_test); T "条"] nl]).
Proof.
  intros Hn Hs Hr. unfold split_data.
  destruct (15 <=? n_records)%nat eqn:E; [ | apply Nat.leb_gt in E; lia].
  unfold try_ValueError, bind, or_ValueError. rewrite Hs. simpl. rewrite Hr. reflexivity.
Qed.

Lemma evaluate_skipped (model : classifier) (classes : list string)
  (y_test : option (list nat)) :
  evaluate model classes None y_test w =
    (Ret tt, w,
     [Print [T nl; T "⚠️  数据量小，跳过评估（建议积累20条以上数据再评估）"] nl]).
Proof. reflexivity. Qed.

End Split.

(** C4: with at least 15 records the trainer asks for a split with test
    fraction 0.2 stratified by the class numbers and keeps it when the
    library delivers one; when the stratified split raises [ValueError] it
    prints a notice and takes the split without stratification; with fewer
    than 15 records every record is used for fitting, there is no test
    partition, the evaluation step only prints that it is skipped, and
    nothing is raised. *)
Theorem split_by_record_count {L : Lib} (X : list (list cell)) (y_encoded : list nat)
  (n_records : nat) (w : world) :
  ((n_records < 15)%nat ->
   split_data X y_encoded n_records w =
     (Ret (X, None, y_encoded, None), w,
      [Print [T "   数据较少（"; I (Z.of_nat n_records);
              T "条），全部用于学习（暂不测试准确率）"] nl])
   /\ forall model classes,
        evaluate model classes None None w =
          (Ret tt, w,
           [Print [T nl; T "⚠️  数据量小，跳过评估（建议积累20条以上数据再评估）"] nl]))
  /\ (forall X_train X_test y_train y_test,
        (15 <= n_records)%nat ->
        train_test_split X y_encoded (2 # 10) 42 (Some y_encoded)
          = Some (X_train, X_test, y_train, y_test) ->
        split_data X y_encoded n_records w =
          (Ret (X_train, Some X_test, y_train, Some y_test), w,
           [Print [T "   训练集："; I (len X_train); T "条，测试集："; I (len X_test);
                   T "条"] nl]))
  /\ (forall X_train X_test y_train y_test,
        (15 <= n_records)%nat ->
        train_test_split X y_encoded (2 # 10) 42 (Some y_encoded) = None ->
        train_test_split X y_encoded (2 # 10) 42 None
          = Some (X_train, X_test, y_train, y_test) ->
        split_data X y_encoded n_records w =
          (Ret (X_train, Some X_test, y_train, Some y_test), w,
           [Print [T "   注意：某些汤品记录太少（只喝过1次），无法分层测试"] nl;
            Print [T "   改用随机划分：训练集"; I (len X_train); T "条，测试集";
                   I (len X_test); T "条"] nl])).
Proof.
  split; [ | split].
  - intros Hn. split.
    + apply split_small. exact Hn.
    + intros model classes. apply evaluate_skipped.
  - intros. apply split_stratified; assumption.
  - intros. apply split_fallback; assumption.
Qed.

Lemma split_by_record_count_witness :
  split_data fifteen_X fifteen_y 15 (Sample.world_of Sample.folder []) =
    (Ret (firstn 12 fifteen_X, Some (skipn 12 fifteen_X),
          firstn 12 fifteen_y, Some (skipn 12 fifteen_y)),
     Sample.world_of Sample.folder [],
     [Print [T "   注意：某些汤品记录太少（只喝过1次），无法分层测试"] nl;
      Print [T "   改用随机划分：训练集"; I 12; T "条，测试集"; I 3; T "条"] nl])
  /\ split_data fifteen_X fifteen_y 10 (Sample.world_of Sample.folder []) =
       (Ret (fifteen_X, None, fifteen_y, None), Sample.world_of Sample.folder [],
        [Print [T "   数据较少（"; I 10; T "条），全部用于学习（暂不测试准确率）"] nl]).
Proof.
  destruct (split_by_record_count (L := RefLib) fifteen_X fifteen_y 15
              (Sample.world_of Sample.folder [])) as [_ [_ Hfall]].
  destruct (split_by_record_count (L := RefLib) fifteen_X fifteen_y 10
              (Sample.world_of Sample.folder [])) as [Hsmall _].
  split.
  - apply (Hfall (firstn 12 fifteen_X) (skipn 12 fifteen_X)
             (firstn 12 fifteen_y) (skipn 12 fifteen_y)).
    + lia.
    + reflexivity.
    + reflexivity.
  - apply Hsmall. lia.
Defined.

(** ** Computations that leave the history file alone *)

Section HistoryFree.

Context {L : Lib}.

Lemma hf_ret {A : Type} (a : A) : history_free (ret a).
Proof.
  intros w r w' t H. unfold ret in H. inversion H; subst.
  split; [intros [] | reflexivity].
Qed.

Lemma hf_raise {A : Type} (e : exn) : history_free (@raise L A e).
Proof.
  intros w r w' t H. unfold raise in H. inversion H; subst.
  split; [intros [] | reflexivity].
Qed.

Lemma hf_exit {A : Type} : history_free (@exit L A).
Proof.
  intros w r w' t H. unfold exit in H. inversion H; subst.
  split; [intros [] | reflexivity].
Qed.

Lemma hf_print (text : list piece) : history_free (print text).
Proof.
  intros w r w' t H. unfold print, emit in H. inversion H; subst.
  split; [intros [E | []]; discriminate | reflexivity].
Qed.

Lemma hf_print_end (text : list piece) (e : string) : history_free (print_end text e).
Proof.
  intros w r w' t H. unfold print_end, emit in H. inversion H; subst.
  split; [intros [E | []]; discriminate | reflexivity].
Qed.

Lemma hf_input (prompt : string) : history_free (input prompt).
Proof.
  intros w r w' t H. unfold input in *. simpl.
  destruct (stdin w) as [ | line rest]; inversion H; subst;
    (split; [intros [E | []]; discriminate | reflexivity]).
Qed.

Lemma hf_datetime_now : history_free datetime_now.
Proof.
  intros w r w' t H. unfold datetime_now in *. inversion H; subst.
  split; [intros [] | reflexivity].
Qed.

Lemma hf_open {A : Type} (name : string) (content : files -> option A) :
  name <> history_name ->
  (forall h f, content (set_history h f) = content f) ->
  history_free (open_file name content).
Proof.
  intros Hname Hcontent w r w' t H. unfold open_file in *.
  destruct (content (fs w)) eqn:Ec; inversion H; subst;
    (split;
     [ intros [E | []]; inversion E; contradiction
     | intros h; unfold with_history; simpl; rewrite Hcontent, Ec; reflexivity ]).
Qed.

Lemma hf_bind {A B : Type} (m : M A) (k : A -> M B) :
  history_free m -> (forall a, history_free (k a)) -> history_free (bind m k).
Proof.
  intros Hm Hk w r w' t H. unfold bind in *.
  destruct (m w) as [[r1 w1] t1] eqn:Em. destruct (Hm _ _ _ _ Em) as [Hn1 Hh1].
  destruct r1 as [a | e | ].
  - destruct (k a w1) as [[r2 w2] t2] eqn:Ek. destruct (Hk a _ _ _ _ Ek) as [Hn2 Hh2].
    inversion H; subst. split.
    + intros Hin. apply in_app_or in Hin. tauto.
    + intros h. rewrite Hh1, Hh2. reflexivity.
  - inversion H; subst. split; [exact Hn1 | ]. intros h. rewrite Hh1. reflexivity.
  - inversion H; subst. split; [exact Hn1 | ]. intros h. rewrite Hh1. reflexivity.
Qed.

Lemma hf_try_FileNotFoundError {A : Type} (body handler : M A) :
  history_free body -> history_free handler ->
  history_free (try_FileNotFoundError body handler).
Proof.
  intros Hb Hh w r w' t H. unfold try_FileNotFoundError in *.
  destruct (body w) as [[r1 w1] t1] eqn:Eb. destruct (Hb _ _ _ _ Eb) as [Hn1 Hh1].
  destruct r1 as [a | e | ];
    try (inversion H; subst; split; [exact Hn1 | ]; intros h; rewrite Hh1; reflexivity).
  destruct e;
    try (inversion H; subst; split; [exact Hn1 | ]; intros h; rewrite Hh1; reflexivity).
  destruct (handler w1) as [[r2 w2] t2] eqn:Eh. destruct (Hh _ _ _ _ Eh) as [Hn2 Hh2].
  inversion H; subst. split.
  - intros Hin. apply in_app_or in Hin. tauto.
  - intros h. rewrite Hh1, Hh2. reflexivity.
Qed.

Lemma hf_or_raise {A : Type} (e : exn) (o : option A) : history_free (or_raise e o).
Proof. destruct o; [apply hf_ret | apply hf_raise]. Qed.

Lemma hf_or_ValueError {A : Type} (what : string) (o : option A) :
  history_free (or_ValueError what o).
Proof. destruct o; [apply hf_ret | apply hf_raise]. Qed.

Lemma hf_select_columns (df : row_frame) (names : list string) :
  history_free (select_columns df names).
Proof.
  induction names as [ | c names IH]; simpl.
  - apply hf_ret.
  - destruct (get_column df c); [ | apply hf_raise].
    apply hf_bind; [exact IH | intros a; apply hf_ret].
Qed.

End HistoryFree.

(** One step of a proof that a computation is [history_free]. *)
Ltac hf_step :=
  first
    [ apply hf_ret | apply hf_raise | apply hf_exit | apply hf_print
    | apply hf_print_end | apply hf_input | apply hf_datetime_now
    | apply hf_or_raise | apply hf_or_ValueError | apply hf_select_columns
    | apply hf_open; [discriminate | reflexivity]
    | apply hf_try_FileNotFoundError
    | apply hf_bind
    | match goal with
      | |- forall _ : _ * _, _ => intros [? ?]
      | |- forall _, _ => intro
      | |- history_free (if ?c then _ else _) => destruct c
      | |- history_free (match ?x with (_, _) => _ end) => destruct x
      end ].

Lemma hf_predict_ranking {L : Lib} : history_free predict_ranking.
Proof.
  unfold predict_ranking, load_artifacts, ask_tomorrow, ask_date, ask_weekday,
    parse_date, ask_weather, ask_temp, ask_inventory, rank, tomorrow_features,
    inverse_transform, take, report_top, item.
  repeat hf_step.
Qed.

(** ** The history file is first opened after the first recommendation *)

Lemma report_top_trace {L : Lib} (top3_soups : list string) (top3_probs : list Q)
  (inventory_list : list string) (t : tomorrow_inputs) (w : world) top1 p1 w' tr :
  report_top top3_soups top3_probs inventory_list t w = (Ret (top1, p1), w', tr) ->
  w' = w
  /\ tr =
     [Print [T nl; T (PyStr.mul "=" 50)] nl;
      Print [T "🍲 明天汤品预测结果："] nl;
      Print [T (PyStr.mul "=" 50)] nl;
      first_recommendation top1;
      Print [T "   置信度："; P1 p1; T "%"] nl;
      Print [T "   理由："] "";
      Print [T nl; T "   冰箱库存：";
             T (if nonempty inventory_list then PyStr.join ", " inventory_list
                else "无特定食材")] nl;
      Print [T nl; T "📋 如果要煲【"; T top1; T "】："] nl].
Proof.
  unfold report_top, bind, print, print_end, emit, item, or_raise, ret, raise,
    first_recommendation.
  destruct (nth_error top3_soups 0) as [s | ]; [ | discriminate].
  destruct (nth_error top3_probs 0) as [p | ]; [ | discriminate].
  intros H. inversion H; subst. split; reflexivity.
Qed.

Lemma predict_ranking_shows_top {L : Lib} (w : world) r w' t :
  predict_ranking w = (Ret r, w', t) ->
  In (first_recommendation (top1_of r)) t.
Proof.
  unfold predict_ranking. intros H.
  bind_inv H. bind_inv H. bind_inv H. destruct a1 as [[model label_encoder] cols].
  bind_inv H. bind_inv H. bind_inv H. destruct a3 as [soups probs].
  bind_inv H. destruct a3 as [top1 p1].
  unfold ret in H. inversion H; subst. simpl.
  match goal with
  | Hr : report_top _ _ _ _ _ = _ |- _ =>
      apply report_top_trace in Hr; destruct Hr as [_ ->]
  end.
  do 6 (apply in_or_app; right). apply in_or_app. left.
  simpl. auto.
Qed.

Lemma explanation_without_history {L : Lib} (r : ranking) (w : world) :
  history_cleaned_csv (fs w) = None ->
  predict_explanation r w = (Raise (FileNotFoundError history_name), w, [Open history_name]).
Proof.
  intros H. unfold predict_explanation, explain_missing, bind, open_file.
  rewrite H. reflexivity.
Qed.

(** C3: without the history file the trainer dies at its first step with
    [FileNotFoundError]; the predictor's ranking step (from the start of the
    script to the first recommendation) runs exactly as it does with the
    file: same result, same trace, which shows the first recommendation and
    never opens the history file; the run then dies with [FileNotFoundError]
    when the explanation step opens the file. *)
Theorem history_absent_fatal_after_ranking {L : Lib} :
  (forall w : world,
     history_cleaned_csv (fs w) = None ->
     train_model_py w =
       (Raise (FileNotFoundError history_name), w,
        [Print [T "🤖 开始训练汤品预测AI..."] nl; Open history_name]))
  /\ (forall (w : world) r w1 t1,
        predict_ranking w = (Ret r, w1, t1) ->
        predict_ranking (with_history None w) = (Ret r, with_history None w1, t1)
        /\ In (first_recommendation (top1_of r)) t1
        /\ ~ In (Open history_name) t1
        /\ predict_py (with_history None w) =
             (Raise (FileNotFoundError history_name), with_history None w1,
              (t1 ++ [Open history_name])%list)).
Proof.
  split.
  - intros w H. unfold train_model_py, bind, print, emit, open_file. rewrite H.
    reflexivity.
  - intros w r w1 t1 H.
    destruct (hf_predict_ranking w _ _ _ H) as [Hnot Hsame].
    split; [apply Hsame | ]. split; [apply (predict_ranking_shows_top w r w1 t1 H) | ].
    split; [exact Hnot | ].
    unfold predict_py. rewrite (bind_Ret _ _ _ _ _ _ (Hsame None)).
    rewrite explanation_without_history by reflexivity. reflexivity.
Qed.

Lemma history_absent_fatal_after_ranking_witness :
  predict_py (with_history None (Sample.world_of Sample.folder cold_rainy_saturday)) =
    (Raise (FileNotFoundError history_name),
     with_history None (Sample.world_of Sample.folder ["n"]),
     (snd (predict_ranking (Sample.world_of Sample.folder cold_rainy_saturday))
        ++ [Open history_name])%list).
Proof.
  apply (proj2 (history_absent_fatal_after_ranking (L := RefLib))
           (Sample.world_of Sample.folder cold_rainy_saturday) saturday_ranking
           (Sample.world_of Sample.folder ["n"])
           (snd (predict_ranking (Sample.world_of Sample.folder cold_rainy_saturday)))).
  reflexivity.
Defined.

(** ** A date that does not parse (predict.py, lines 27-37 and 58) *)

Lemma load_artifacts_present {L : Lib} (w : world) model label_encoder cols :
  soup_predictor_model_pkl (fs w) = Some model ->
  label_encoder_pkl (fs w) = Some label_encoder ->
  feature_columns_pkl (fs w) = Some cols ->
  load_artifacts w =
    (Ret (model, label_encoder, cols), w,
     [Open "soup_predictor_model.pkl"; Open "label_encoder.pkl";
      Open "feature_columns.pkl";
      Print [T "✅ AI模型加载成功！"] nl;
      Print [T "   已学习汤品："; T (PyStr.join ", " label_encoder)] nl]).
Proof.
  intros Hm Hl Hc.
  unfold load_artifacts, try_FileNotFoundError, bind, open_file, print, emit.
  rewrite Hm, Hl, Hc. reflexivity.
Qed.

(** A failure of the input stage is the failure of the run. *)
Lemma input_failure_is_fatal {L : Lib} (w : world) model label_encoder cols e w' t :
  soup_predictor_model_pkl (fs w) = Some model ->
  label_encoder_pkl (fs w) = Some label_encoder ->
  feature_columns_pkl (fs w) = Some cols ->
  ask_tomorrow w = (Raise e, w', t) ->
  predict_py w = (Raise e, w', (loaded_trace label_encoder ++ t)%list).
Proof.
  intros Hm Hl Hc Hask. unfold predict_py, predict_ranking, bind, print, emit.
  rewrite (load_artifacts_present w model label_encoder cols Hm Hl Hc), Hask.
  reflexivity.
Qed.

Lemma ask_tomorrow_malformed_date {L : Lib} (w : world) (line : string)
  (rest : list string) :
  stdin w = line :: rest ->
  PyStr.strip line <> "" ->
  strptime (PyStr.strip line) = None ->
  exists e w' t,
    ask_tomorrow w = (Raise e, w', t)
    /\ (e = ValueError "strptime" \/ e = ValueError "float" \/ e = EOFError)
    /\ (forall d, ~ In (default_date_line d) t)
    /\ (forall soup, ~ In (first_recommendation soup) t)
    /\ (forall wd rest', rest = wd :: rest' -> PyStr.strip wd = "" ->
        e = ValueError "strptime")
    /\ (forall wd weather temp rest',
          rest = wd :: weather :: temp :: rest' ->
          float_of_str (temp_text temp) <> None ->
          e = ValueError "strptime").
Proof.
  intros Hin Hne Hparse.
  assert (Hnb : String.eqb (PyStr.strip line) "" = false).
  { apply String.eqb_neq. exact Hne. }
  unfold ask_tomorrow, ask_date, ask_weekday, ask_weather, ask_temp, parse_date,
    bind, input, print, emit, or_ValueError, ret, raise, default_date_line,
    first_recommendation, temp_text.
  rewrite Hin. cbn [stdin fs now]. rewrite Hnb.
  destruct rest as [ | wd rest]; cbn [stdin fs now].
  { do 3 eexists. split; [reflexivity | ].
    repeat split; auto; try (intros; discriminate);
      intros x Hx; simpl in Hx; intuition discriminate. }
  destruct (String.eqb (PyStr.strip wd) "") eqn:Ewd.
  { rewrite Hparse. do 3 eexists. split; [reflexivity | ].
    repeat split; auto; intros x Hx; simpl in Hx; intuition discriminate. }
  assert (Hwd : forall wd0 rest0, wd :: rest = wd0 :: rest0 -> PyStr.strip wd0 <> "").
  { intros wd0 rest0 E. inversion E; subst. apply String.eqb_neq. exact Ewd. }
  destruct rest as [ | weather rest]; cbn [stdin fs now].
  { do 3 eexists. split; [reflexivity | ].
    repeat split; auto; try (intros; discriminate);
      try (intros wd0 rest0 E Hb; exfalso; apply (Hwd wd0 rest0 E Hb));
      intros x Hx; simpl in Hx; intuition discriminate. }
  destruct rest as [ | temp rest]; cbn [stdin fs now].
  { do 3 eexists. split; [reflexivity | ].
    repeat split; auto; try (intros; discriminate);
      try (intros wd0 rest0 E Hb; exfalso; apply (Hwd wd0 rest0 E Hb));
      intros x Hx; simpl in Hx; intuition discriminate. }
  destruct (float_of_str
              (if String.eqb (PyStr.strip temp) "" then "20" else PyStr.strip temp))
    as [x | ] eqn:Ef.
  - cbn [stdin fs now]. rewrite Hparse. do 3 eexists. split; [reflexivity | ].
    repeat split; auto;
      try (intros wd0 rest0 E Hb; exfalso; apply (Hwd wd0 rest0 E Hb));
      intros y Hy; simpl in Hy; intuition discriminate.
  - do 3 eexists. split; [reflexivity | ].
    repeat split; auto;
      try (intros wd0 rest0 E Hb; exfalso; apply (Hwd wd0 rest0 E Hb));
      try (intros wd0 we0 t0 rest0 E Hf; inversion E; subst; congruence);
      intros y Hy; simpl in Hy; intuition discriminate.
Qed.

(** C8: when the artifacts are present and the date typed at the first
    prompt is not blank and does not parse, the run ends with an uncaught
    exception: no default date is announced and no recommendation is
    printed.  The exception is the [ValueError] of [strptime], raised where
    the weekday is derived when the weekday answer is blank, and where the
    month is derived otherwise; only the end of the console or a
    temperature that [float] rejects stops the run earlier. *)
Theorem malformed_date_is_fatal {L : Lib} (w : world) model label_encoder cols
  (line : string) (rest : list string) :
  soup_predictor_model_pkl (fs w) = Some model ->
  label_encoder_pkl (fs w) = Some label_encoder ->
  feature_columns_pkl (fs w) = Some cols ->
  stdin w = line :: rest ->
  PyStr.strip line <> "" ->
  strptime (PyStr.strip line) = None ->
  exists e w' t,
    predict_py w = (Raise e, w', t)
    /\ (e = ValueError "strptime" \/ e = ValueError "float" \/ e = EOFError)
    /\ (forall d, ~ In (default_date_line d) t)
    /\ (forall soup, ~ In (first_recommendation soup) t)
    /\ (forall wd rest', rest = wd :: rest' -> PyStr.strip wd = "" ->
        e = ValueError "strptime")
    /\ (forall wd weather temp rest',
          rest = wd :: weather :: temp :: rest' ->
          float_of_str (temp_text temp) <> None ->
          e = ValueError "strptime").
Proof.
  intros Hm Hl Hc Hin Hne Hparse.
  destruct (ask_tomorrow_malformed_date w line rest Hin Hne Hparse)
    as (e & w' & t & Hask & He & Hdef & Htop & Hblank & Htemp).
  exists e, w', (loaded_trace label_encoder ++ t)%list.
  split; [apply (input_failure_is_fatal w model label_encoder cols e w' t Hm Hl Hc Hask) | ].
  split; [exact He | ]. split; [ | split; [ | split; [exact Hblank | exact Htemp]]].
  - intros d Hd. apply in_app_or in Hd. destruct Hd as [Hd | Hd].
    + unfold default_date_line in Hd. simpl in Hd. intuition discriminate.
    + apply (Hdef d Hd).
  - intros soup Hs. apply in_app_or in Hs. destruct Hs as [Hs | Hs].
    + unfold first_recommendation in Hs. simpl in Hs. intuition discriminate.
    + apply (Htop soup Hs).
Qed.

Lemma malformed_date_is_fatal_witness :
  exists e w' t,
    predict_py (Sample.world_of Sample.folder malformed_date_console) = (Raise e, w', t)
    /\ e = ValueError "strptime".
Proof.
  destruct (malformed_date_is_fatal (L := RefLib)
              (Sample.world_of Sample.folder malformed_date_console)
              Sample.model Sample.soups Sample.schema
              "tomorrow" ["6"; "雨"; "10"; "排骨, 玉米"; "n"]
              eq_refl eq_refl eq_refl eq_refl)
    as (e & w' & t & Hrun & _ & _ & _ & _ & Htemp).
  - vm_compute. discriminate.
  - reflexivity.
  - exists e, w', t. split; [exact Hrun | ].
    apply (Htemp "6" "雨" "10" ["排骨, 玉米"; "n"] eq_refl).
    vm_compute. discriminate.
Defined.

(** ** The rationale (predict.py, lines 107-121) *)

Lemma cold_is_not_hot (temp : pyfloat) :
  PyFloat.ltb temp (PyFloat.of_Z 15) = true ->
  PyFloat.gtb temp (PyFloat.of_Z 28) = false.
Proof.
  unfold PyFloat.gtb, PyFloat.of_Z. destruct temp as [q | | | ]; simpl; try discriminate.
  - unfold PyFloat.Qltb. intros H. apply negb_true_iff in H. apply negb_false_iff.
    apply Qle_bool_iff. apply Qlt_le_weak. apply Qlt_le_trans with (inject_Z 15).
    + apply Qnot_le_lt. intros Hle. apply Qle_bool_iff in Hle. congruence.
    + unfold Qle. simpl. lia.
  - reflexivity.
Qed.

(** Which rationales the list holds: one rule per feature, each on its own. *)
Lemma reasons_of_rules (is_weekend weather_code : Z) (temp : pyfloat) (r : string) :
  In r (reasons_of is_weekend weather_code temp) <->
  (is_weekend <> 0 /\ r = reason_weekend)
  \/ (weather_code <= 1 /\ r = reason_weather)
  \/ (PyFloat.ltb temp (PyFloat.of_Z 15) = true /\ r = reason_cold)
  \/ (PyFloat.gtb temp (PyFloat.of_Z 28) = true /\ r = reason_hot).
Proof.
  unfold reasons_of, reason_weekend, reason_weather, reason_cold, reason_hot.
  pose proof (cold_is_not_hot temp) as Hx.
  destruct (Z.eqb_spec is_weekend 0) as [Hw | Hw];
    destruct (Z.leb_spec weather_code 1) as [Hc | Hc];
    destruct (PyFloat.ltb temp (PyFloat.of_Z 15)) eqn:Hl;
    try (rewrite (Hx eq_refl));
    try destruct (PyFloat.gtb temp (PyFloat.of_Z 28)) eqn:Hg;
    simpl; split; intros H;
    repeat match goal with
           | H : _ \/ _ |- _ => destruct H
           | H : _ /\ _ |- _ => destruct H
           | H : False |- _ => destruct H
           end;
    subst; try discriminate; try lia; try contradiction; auto 10.
Qed.

(** C1 on a cold rainy Saturday: the ranking step hands on a weekend flag
    of 1, weather code 0 and 10 degrees, so three rules match and the list
    of rationales holds the three texts; the run ends normally, and no line
    that it prints or writes shows any of them: the label of the rationale is
    followed at once by the pantry line. *)
Theorem rationale_built_but_never_printed :
  fst (fst (predict_ranking (Sample.world_of Sample.folder cold_rainy_saturday)))
    = Ret saturday_ranking
  /\ reasons_of (in_is_weekend (inputs_of saturday_ranking))
       (in_weather_code (inputs_of saturday_ranking))
       (in_temp (inputs_of saturday_ranking))
     = [reason_weekend; reason_weather; reason_cold]
  /\ fst (fst (predict_py (Sample.world_of Sample.folder cold_rainy_saturday))) = Ret tt
  /\ forallb
       (fun e =>
          negb (existsb (fun r => mentions r e)
                  [reason_weekend; reason_weather; reason_cold; reason_hot]))
       (snd (predict_py (Sample.world_of Sample.folder cold_rainy_saturday))) = true
  /\ firstn 2 (skipn 26 (snd (predict_py
                                (Sample.world_of Sample.folder cold_rainy_saturday))))
     = [Print [T "   理由："] ""; Print [T nl; T "   冰箱库存："; T "排骨, 玉米"] nl].
Proof.
  split; [vm_compute; reflexivity | ]. split; [reflexivity | ].
  split; [vm_compute; reflexivity | ]. split; vm_compute; reflexivity.
Qed.

(* ================================================================== *)
(** * Further properties of the two scripts *)

(** ** Computations that leave the files alone *)

Section ReadOnly.

Context {L : Lib}.

Lemma ro_ret {A : Type} (a : A) : read_only (ret a).
Proof. intros w r w' t H. unfold ret in H. inversion H; subst. auto. Qed.

Lemma ro_raise {A : Type} (e : exn) : read_only (@raise L A e).
Proof. intros w r w' t H. unfold raise in H. inversion H; subst. auto. Qed.

Lemma ro_exit {A : Type} : read_only (@exit L A).
Proof. intros w r w' t H. unfold exit in H. inversion H; subst. auto. Qed.

Lemma ro_print (text : list piece) : read_only (print text).
Proof. intros w r w' t H. unfold print, emit in H. inversion H; subst. auto. Qed.

Lemma ro_print_end (text : list piece) (e : string) : read_only (print_end text e).
Proof. intros w r w' t H. unfold print_end, emit in H. inversion H; subst. auto. Qed.

Lemma ro_input (prompt : string) : read_only (input prompt).
Proof.
  intros w r w' t H. unfold input in H.
  destruct (stdin w); inversion H; subst; auto.
Qed.

Lemma ro_datetime_now : read_only datetime_now.
Proof. intros w r w' t H. unfold datetime_now in H. inversion H; subst. auto. Qed.

Lemma ro_open {A : Type} (name : string) (content : files -> option A) :
  read_only (open_file name content).
Proof.
  intros w r w' t H. unfold open_file in H.
  destruct (content (fs w)); inversion H; subst; auto.
Qed.

Lemma ro_bind {A B : Type} (m : M A) (k : A -> M B) :
  read_only m -> (forall a, read_only (k a)) -> read_only (bind m k).
Proof.
  intros Hm Hk w r w' t H. unfold bind in H.
  destruct (m w) as [[r1 w1] t1] eqn:Em. destruct (Hm _ _ _ _ Em) as [Hf Hn].
  destruct r1 as [a | e | ].
  - destruct (k a w1) as [[r2 w2] t2] eqn:Ek. destruct (Hk a _ _ _ _ Ek) as [Hf2 Hn2].
    inversion H; subst. split; congruence.
  - inversion H; subst. auto.
  - inversion H; subst. auto.
Qed.

Lemma ro_try_FileNotFoundError {A : Type} (body handler : M A) :
  read_only body -> read_only handler ->
  read_only (try_FileNotFoundError body handler).
Proof.
  intros Hb Hh w r w' t H. unfold try_FileNotFoundError in H.
  destruct (body w) as [[r1 w1] t1] eqn:Eb. destruct (Hb _ _ _ _ Eb) as [Hf Hn].
  destruct r1 as [a | e | ]; try (inversion H; subst; auto; fail).
  destruct e; try (inversion H; subst; auto; fail).
  destruct (handler w1) as [[r2 w2] t2] eqn:Eh. destruct (Hh _ _ _ _ Eh) as [Hf2 Hn2].
  inversion H; subst. split; congruence.
Qed.

Lemma ro_try_ValueError {A : Type} (body handler : M A) :
  read_only body -> read_only handler -> read_only (try_ValueError body handler).
Proof.
  intros Hb Hh w r w' t H. unfold try_ValueError in H.
  destruct (body w) as [[r1 w1] t1] eqn:Eb. destruct (Hb _ _ _ _ Eb) as [Hf Hn].
  destruct r1 as [a | e | ]; try (inversion H; subst; auto; fail).
  destruct e; try (inversion H; subst; auto; fail).
  destruct (handler w1) as [[r2 w2] t2] eqn:Eh. destruct (Hh _ _ _ _ Eh) as [Hf2 Hn2].
  inversion H; subst. split; congruence.
Qed.

Lemma ro_or_raise {A : Type} (e : exn) (o : option A) : read_only (or_raise e o).
Proof. destruct o; [apply ro_ret | apply ro_raise]. Qed.

Lemma ro_or_ValueError {A : Type} (what : string) (o : option A) :
  read_only (or_ValueError what o).
Proof. destruct o; [apply ro_ret | apply ro_raise]. Qed.

Lemma ro_for_each {A : Type} (l : list A) (body : A -> M unit) :
  (forall x, read_only (body x)) -> read_only (for_each l body).
Proof.
  intros Hb. induction l as [ | x l IH]; simpl.
  - apply ro_ret.
  - apply ro_bind; [apply Hb | intros _; exact IH].
Qed.

Lemma ro_select_columns (df : row_frame) (names : list string) :
  read_only (select_columns df names).
Proof.
  induction names as [ | c names IH]; simpl.
  - apply ro_ret.
  - destruct (get_column df c); [ | apply ro_raise].
    apply ro_bind; [exact IH | intros a; apply ro_ret].
Qed.

Lemma ro_column_indices (cols names : list string) :
  read_only (column_indices cols names).
Proof.
  induction names as [ | c names IH]; simpl.
  - apply ro_ret.
  - destruct (index_of c cols); [ | apply ro_raise].
    apply ro_bind; [exact IH | intros a; apply ro_ret].
Qed.

Lemma ro_labels_of (y : list cell) : read_only (labels_of y).
Proof.
  induction y as [ | c y IH]; simpl.
  - apply ro_ret.
  - destruct c; try apply ro_raise.
    apply ro_bind; [exact IH | intros a; apply ro_ret].
Qed.

Lemma ro_column (df : dataframe) (name : string) : read_only (column df name).
Proof. unfold column. destruct (index_of name (columns df)); [apply ro_ret | apply ro_raise]. Qed.

Lemma ro_rows_where (df : dataframe) (name value : string) :
  read_only (rows_where df name value).
Proof.
  unfold rows_where. destruct (index_of name (columns df)); [apply ro_ret | apply ro_raise].
Qed.

Lemma ro_mean (cells : list cell) : read_only (mean cells).
Proof.
  unfold mean. destruct (existsb is_CStr cells); [apply ro_raise | ].
  destruct (numeric_values cells); apply ro_ret.
Qed.

Lemma ro_typical_ingredients (soup_history : dataframe) (feature_columns : list string) :
  read_only (typical_ingredients soup_history feature_columns).
Proof.
  induction feature_columns as [ | col r IH]; simpl.
  - apply ro_ret.
  - destruct (is_ingredient col); [ | exact IH].
    apply ro_bind; [apply ro_column | intros cells].
    apply ro_bind; [apply ro_mean | intros m].
    apply ro_bind; [exact IH | intros rest; apply ro_ret].
Qed.

End ReadOnly.

(** One step of a proof that a computation is [read_only]. *)
Ltac ro_step :=
  first
    [ apply ro_ret | apply ro_raise | apply ro_exit | apply ro_print
    | apply ro_print_end | apply ro_input | apply ro_datetime_now
    | apply ro_or_raise | apply ro_or_ValueError | apply ro_select_columns
    | apply ro_column_indices | apply ro_labels_of | apply ro_column
    | apply ro_rows_where | apply ro_mean | apply ro_typical_ingredients
    | apply ro_open
    | apply ro_try_FileNotFoundError
    | apply ro_try_ValueError
    | apply ro_for_each
    | apply ro_bind
    | match goal with
      | |- forall _ : _ * _, _ => intros [? ?]
      | |- forall _, _ => intro
      | |- read_only (if ?c then _ else _) => destruct c
      | |- read_only (match ?x with (_, _) => _ end) => destruct x
      | |- read_only (match ?x with Some _ => _ | None => _ end) => destruct x
      end ].

Lemma ro_predict_ranking {L : Lib} : read_only predict_ranking.
Proof.
  unfold predict_ranking, load_artifacts, ask_tomorrow, ask_date, ask_weekday,
    parse_date, ask_weather, ask_temp, ask_inventory, rank, tomorrow_features,
    inverse_transform, take, report_top, item.
  repeat ro_step.
Qed.

Lemma ro_explain_missing {L : Lib} (top1 : string) (cols inv : list string) :
  read_only (explain_missing top1 cols inv).
Proof. unfold explain_missing. repeat ro_step. Qed.

Lemma ro_show_alternatives {L : Lib} (soups : list string) (probs : list Q) :
  read_only (show_alternatives soups probs).
Proof. unfold show_alternatives, item. repeat ro_step. Qed.

(** ** What the input stage hands on (predict.py, lines 24-60) *)

Lemma of_Z_inj (a b : Z) : PyStr.of_Z a = PyStr.of_Z b -> a = b.
Proof.
  unfold PyStr.of_Z. intros H. apply DecimalZ.to_int_inj.
  assert (Hs : forall z,
             NilZero.int_of_string (NilZero.string_of_int (Z.to_int z))
             = Some (Z.to_int z)).
  { intros z. apply NilZero.isi.
    - destruct z; simpl; try discriminate.
      unfold Pos.to_int. intros E. inversion E.
      pose proof (DecimalPos.Unsigned.to_uint_nonnil p). congruence.
    - destruct z; simpl; try discriminate.
      unfold Pos.to_int. intros E. inversion E.
      pose proof (DecimalPos.Unsigned.to_uint_nonnil p). congruence. }
  pose proof (Hs a) as Ha. rewrite H, Hs in Ha. congruence.
Qed.

Lemma of_Z_eqb (a b : Z) : String.eqb (PyStr.of_Z a) (PyStr.of_Z b) = (a =? b).
Proof.
  destruct (Z.eqb_spec a b) as [E | E].
  - subst. apply String.eqb_refl.
  - apply String.eqb_neq. intros H. apply E. apply of_Z_inj. exact H.
Qed.

Lemma weather_code_range (s : string) : 0 <= dict_get weather_map s 2 <= 3.
Proof.
  unfold weather_map. simpl.
  repeat match goal with
         | |- context [if ?c then _ else _] => destruct c
         end; lia.
Qed.

Lemma season_range (month : Z) : 1 <= season_of month <= 4.
Proof.
  unfold season_of.
  repeat match goal with
         | |- context [if ?c then _ else _] => destruct c
         end; lia.
Qed.

Section InputStage.

Context {L : Lib}.

Lemma ask_date_inv (w : world) d w' t :
  ask_date w = (Ret d, w', t) ->
  exists line,
    stdin w = line :: stdin w' /\ fs w' = fs w /\ now w' = now w
    /\ d = (if String.eqb (PyStr.strip line) ""
            then strftime (plus_one_day (now w)) else PyStr.strip line).
Proof.
  intros H. destruct (stdin w) as [ | line rest] eqn:E.
  - unfold ask_date, bind, input in H. rewrite E in H. discriminate.
  - exists line. destruct (String.eqb_spec (PyStr.strip line) "") as [Hb | Hb].
    + rewrite (ask_date_blank w line rest E Hb) in H. inversion H; subst. simpl. auto.
    + rewrite (ask_date_given w line rest E Hb) in H. inversion H; subst. simpl. auto.
Qed.

Lemma ask_weekday_inv (date_input : string) (w : world) wd w' t :
  ask_weekday date_input w = (Ret wd, w', t) ->
  exists line,
    stdin w = line :: stdin w' /\ fs w' = fs w /\ now w' = now w
    /\ (PyStr.strip line <> "" -> wd = PyStr.strip line)
    /\ (PyStr.strip line = "" ->
        exists d, strptime date_input = Some d /\ wd = PyStr.of_Z (isoweekday d)).
Proof.
  intros H. destruct (stdin w) as [ | line rest] eqn:E.
  - unfold ask_weekday, bind, input in H. rewrite E in H. discriminate.
  - exists line. destruct (String.eqb_spec (PyStr.strip line) "") as [Hb | Hb].
    + destruct (strptime date_input) as [d | ] eqn:Ed.
      * rewrite (ask_weekday_blank w line rest E date_input d Hb Ed) in H.
        inversion H; subst. simpl. repeat split; auto.
        -- intros Hne. contradiction.
        -- intros _. exists d. auto.
      * rewrite (ask_weekday_blank_malformed w line rest E date_input Hb Ed) in H.
        discriminate.
    + rewrite (ask_weekday_given date_input w line rest E Hb) in H.
      inversion H; subst. simpl. repeat split; auto. intros Hx. contradiction.
Qed.

Lemma ask_weather_inv (w : world) ws wc w' t :
  ask_weather w = (Ret (ws, wc), w', t) ->
  exists line,
    stdin w = line :: stdin w' /\ fs w' = fs w /\ now w' = now w
    /\ ws = PyStr.strip line /\ wc = dict_get weather_map (PyStr.strip line) 2.
Proof.
  intros H. destruct (stdin w) as [ | line rest] eqn:E.
  - unfold ask_weather, bind, print, emit, input in H. rewrite E in H. discriminate.
  - exists line. rewrite (ask_weather_code w line rest E) in H.
    inversion H; subst. simpl. auto.
Qed.

Lemma ask_temp_inv (w : world) x w' t :
  ask_temp w = (Ret x, w', t) ->
  exists line,
    stdin w = line :: stdin w' /\ fs w' = fs w /\ now w' = now w
    /\ float_of_str (temp_text line) = Some x.
Proof.
  intros H. destruct (stdin w) as [ | line rest] eqn:E.
  - unfold ask_temp, bind, input in H. rewrite E in H. discriminate.
  - exists line. unfold temp_text.
    destruct (float_of_str (if String.eqb (PyStr.strip line) "" then "20"
                            else PyStr.strip line)) as [y | ] eqn:Ef.
    + rewrite (ask_temp_text w line rest E y Ef) in H. inversion H; subst. simpl. auto.
    + rewrite (ask_temp_malformed w line rest E Ef) in H. discriminate.
Qed.

Lemma ask_tomorrow_post (w : world) t w' tr :
  ask_tomorrow w = (Ret t, w', tr) ->
  exists l1 l2 l3 l4 d,
    stdin w = l1 :: l2 :: l3 :: l4 :: stdin w'
    /\ fs w' = fs w /\ now w' = now w
    /\ in_date_input t =
         (if String.eqb (PyStr.strip l1) ""
          then strftime (plus_one_day (now w)) else PyStr.strip l1)
    /\ strptime (in_date_input t) = Some d
    /\ in_month t = month_of d
    /\ in_weekday t =
         (if String.eqb (PyStr.strip l2) ""
          then PyStr.of_Z (isoweekday d) else PyStr.strip l2)
    /\ in_weather_str t = PyStr.strip l3
    /\ in_weather_code t = dict_get weather_map (PyStr.strip l3) 2
    /\ float_of_str (temp_text l4) = Some (in_temp t)
    /\ in_is_weekend t = is_weekend_of (in_weekday t)
    /\ in_season t = season_of (in_month t).
Proof.
  unfold ask_tomorrow. intros H.
  bind_inv H. bind_inv H. bind_inv H. bind_inv H.
  destruct a2 as [ws wc]. bind_inv H. bind_inv H. bind_inv H. bind_inv H.
  unfold ret in H. inversion H; subst. clear H.
  repeat match goal with
         | Hp : print _ _ = _ |- _ => unfold print, emit in Hp; inversion Hp; subst; clear Hp
         end.
  match goal with Hd : ask_date _ = _ |- _ => apply ask_date_inv in Hd;
    destruct Hd as (l1 & Hs1 & Hf1 & Hn1 & Hd1) end.
  match goal with Hd : ask_weekday _ _ = _ |- _ => apply ask_weekday_inv in Hd;
    destruct Hd as (l2 & Hs2 & Hf2 & Hn2 & Hg2 & Hb2) end.
  match goal with Hd : ask_weather _ = _ |- _ => apply ask_weather_inv in Hd;
    destruct Hd as (l3 & Hs3 & Hf3 & Hn3 & Hws & Hwc) end.
  match goal with Hd : ask_temp _ = _ |- _ => apply ask_temp_inv in Hd;
    destruct Hd as (l4 & Hs4 & Hf4 & Hn4 & Hx) end.
  match goal with
  | Hd : parse_date ?x _ = (Ret ?d, _, _) |- _ =>
      unfold parse_date, or_ValueError in Hd;
      destruct (strptime x) as [d0 | ] eqn:Ed; [ | discriminate];
      unfold ret in Hd; inversion Hd; subst d0 w'; clear Hd;
      exists l1, l2, l3, l4, d
  end.
  simpl.
  split; [congruence | ]. split; [congruence | ]. split; [congruence | ].
  split; [congruence | ]. split; [exact Ed | ]. split; [reflexivity | ].
  split.
  { destruct (String.eqb_spec (PyStr.strip l2) "") as [Hb | Hb].
    - destruct (Hb2 Hb) as (d' & Hd' & ->). congruence.
    - apply Hg2. exact Hb. }
  repeat split; auto.
Qed.

End InputStage.

(** X1: whenever the input stage of the predictor returns, it has read
    exactly four console lines and touched neither the files nor the clock;
    the date it hands on parses; the weather code is between 0 and 3
    whatever was typed, the weekend flag is 0 or 1, and the season code is
    between 1 and 4 and is the band of the month of that date. *)
Theorem input_stage_invariants {L : Lib} (w : world) t w' tr :
  ask_tomorrow w = (Ret t, w', tr) ->
  exists l1 l2 l3 l4 d,
    stdin w = l1 :: l2 :: l3 :: l4 :: stdin w'
    /\ fs w' = fs w /\ now w' = now w
    /\ strptime (in_date_input t) = Some d
    /\ in_month t = month_of d
    /\ in_season t = season_of (month_of d)
    /\ 1 <= in_season t <= 4
    /\ 0 <= in_weather_code t <= 3
    /\ (in_is_weekend t = 0 \/ in_is_weekend t = 1)
    /\ float_of_str (temp_text l4) = Some (in_temp t).
Proof.
  intros H. destruct (ask_tomorrow_post w t w' tr H)
    as (l1 & l2 & l3 & l4 & d & Hs & Hf & Hn & _ & Hd & Hm & _ & _ & Hwc & Hx & Hwk & Hse).
  exists l1, l2, l3, l4, d.
  split; [exact Hs | ]. split; [exact Hf | ]. split; [exact Hn | ].
  split; [exact Hd | ]. split; [exact Hm | ]. split; [congruence | ].
  split; [rewrite Hse; apply season_range | ].
  split; [rewrite Hwc; apply weather_code_range | ].
  split; [ | exact Hx].
  rewrite Hwk. rewrite is_weekend_of_eq.
  destruct (String.eqb (in_weekday t) "6" || String.eqb (in_weekday t) "7")%bool; auto.
Qed.

Lemma input_stage_invariants_witness :
  exists l1 l2 l3 l4 d,
    ["2024-02-03"; "6"; "雨"; "10"; "排骨, 玉米"; "n"]
      = l1 :: l2 :: l3 :: l4 :: ["排骨, 玉米"; "n"]
    /\ @strptime RefLib "2024-02-03" = Some d.
Proof.
  destruct (input_stage_invariants (L := RefLib)
              (Sample.world_of Sample.folder cold_rainy_saturday)
              (inputs_of saturday_ranking)
              (Sample.world_of Sample.folder ["排骨, 玉米"; "n"])
              (snd (ask_tomorrow (Sample.world_of Sample.folder cold_rainy_saturday)))
              eq_refl)
    as (l1 & l2 & l3 & l4 & d & Hs & _ & _ & Hd & _).
  exists l1, l2, l3, l4, d. split; [exact Hs | exact Hd].
Defined.

(** X2: when the weekday answer is blank, the weekend flag follows the
    calendar: it is 1 exactly when the ISO weekday of the date handed on is
    6 or 7. *)
Theorem derived_weekend_follows_calendar {L : Lib} (w : world) t w' tr l1 l2 rest d :
  ask_tomorrow w = (Ret t, w', tr) ->
  stdin w = l1 :: l2 :: rest ->
  PyStr.strip l2 = "" ->
  strptime (in_date_input t) = Some d ->
  in_weekday t = PyStr.of_Z (isoweekday d)
  /\ (in_is_weekend t = 1 <-> isoweekday d = 6 \/ isoweekday d = 7).
Proof.
  intros H Hs Hb Hd. destruct (ask_tomorrow_post w t w' tr H)
    as (k1 & k2 & k3 & k4 & d' & Hs' & _ & _ & _ & Hd' & _ & Hwd & _ & _ & _ & Hwk & _).
  rewrite Hs in Hs'. inversion Hs'; subst k1 k2.
  assert (d' = d) by congruence. subst d'.
  rewrite Hb in Hwd. simpl in Hwd. split; [exact Hwd | ].
  rewrite Hwk, Hwd, is_weekend_of_eq.
  change "6" with (PyStr.of_Z 6). change "7" with (PyStr.of_Z 7).
  rewrite !of_Z_eqb.
  destruct (Z.eqb_spec (isoweekday d) 6) as [E6 | E6];
    destruct (Z.eqb_spec (isoweekday d) 7) as [E7 | E7];
    simpl; split; intros Hx; auto; try discriminate; try lia.
Qed.

Lemma derived_weekend_follows_calendar_witness :
  in_is_weekend blank_weekday_inputs = 1 <->
  Ref.iso_weekday {| Ref.year := 2024; Ref.mon := 2; Ref.day := 3 |} = 6
  \/ Ref.iso_weekday {| Ref.year := 2024; Ref.mon := 2; Ref.day := 3 |} = 7.
Proof.
  apply (derived_weekend_follows_calendar (L := RefLib)
           (Sample.world_of Sample.folder blank_weekday_console)
           blank_weekday_inputs
           (Sample.world_of Sample.folder [])
           (snd (ask_tomorrow (Sample.world_of Sample.folder blank_weekday_console)))
           "2024-02-03" "" ["雨"; "10"]
           {| Ref.year := 2024; Ref.mon := 2; Ref.day := 3 |});
    reflexivity.
Defined.

(** ** The rules of the rationale (predict.py, lines 110-118) *)

(** X3: the list of rationales holds the weekend text exactly when the
    weekend flag is not 0, the weather text exactly when the weather code is
    at most 1, the cold text exactly when the temperature is below 15 and the
    hot text exactly when it is above 28; the cold and the hot text never
    come together, a NaN temperature gives neither, and the list never has
    more than three entries. *)
Theorem rationale_rules (is_weekend weather_code : Z) (temp : pyfloat) :
  (In reason_weekend (reasons_of is_weekend weather_code temp) <-> is_weekend <> 0)
  /\ (In reason_weather (reasons_of is_weekend weather_code temp) <-> weather_code <= 1)
  /\ (In reason_cold (reasons_of is_weekend weather_code temp)
      <-> PyFloat.ltb temp (PyFloat.of_Z 15) = true)
  /\ (In reason_hot (reasons_of is_weekend weather_code temp)
      <-> PyFloat.gtb temp (PyFloat.of_Z 28) = true)
  /\ ~ (In reason_cold (reasons_of is_weekend weather_code temp)
        /\ In reason_hot (reasons_of is_weekend weather_code temp))
  /\ (temp = NaN ->
      ~ In reason_cold (reasons_of is_weekend weather_code temp)
      /\ ~ In reason_hot (reasons_of is_weekend weather_code temp))
  /\ (List.length (reasons_of is_weekend weather_code temp) <= 3)%nat.
Proof.
  assert (Hrule := reasons_of_rules is_weekend weather_code temp).
  assert (Hw : In reason_weekend (reasons_of is_weekend weather_code temp)
               <-> is_weekend <> 0).
  { rewrite Hrule. unfold reason_weekend, reason_weather, reason_cold, reason_hot.
    split; [ | auto]. intros [[H _] | [[_ H] | [[_ H] | [_ H]]]]; try discriminate. exact H. }
  assert (Hc : In reason_weather (reasons_of is_weekend weather_code temp)
               <-> weather_code <= 1).
  { rewrite Hrule. unfold reason_weekend, reason_weather, reason_cold, reason_hot.
    split; [ | auto]. intros [[_ H] | [[H _] | [[_ H] | [_ H]]]]; try discriminate. exact H. }
  assert (Hl : In reason_cold (reasons_of is_weekend weather_code temp)
               <-> PyFloat.ltb temp (PyFloat.of_Z 15) = true).
  { rewrite Hrule. unfold reason_weekend, reason_weather, reason_cold, reason_hot.
    split; [ | auto]. intros [[_ H] | [[_ H] | [[H _] | [_ H]]]]; try discriminate. exact H. }
  assert (Hh : In reason_hot (reasons_of is_weekend weather_code temp)
               <-> PyFloat.gtb temp (PyFloat.of_Z 28) = true).
  { rewrite Hrule. unfold reason_weekend, reason_weather, reason_cold, reason_hot.
    split; [ | auto 6]. intros [[_ H] | [[_ H] | [[_ H] | [H _]]]]; try discriminate. exact H. }
  split; [exact Hw | ]. split; [exact Hc | ]. split; [exact Hl | ]. split; [exact Hh | ].
  split; [ | split].
  - intros [H1 H2]. apply Hl in H1. apply Hh in H2.
    rewrite (cold_is_not_hot temp H1) in H2. discriminate.
  - intros ->. rewrite Hl, Hh. split; discriminate.
  - unfold reasons_of.
    destruct (negb (is_weekend =? 0)); destruct (weather_code <=? 1);
      destruct (PyFloat.ltb temp (PyFloat.of_Z 15));
      destruct (PyFloat.gtb temp (PyFloat.of_Z 28)); simpl; lia.
Qed.

(** ** The alternatives (predict.py, lines 149-153) *)

Lemma alternatives_loop {L : Lib} (w : world) :
  forall (ss : list string) (ps : list Q) (pre_s : list string) (pre_p : list Q),
    List.length ss = List.length ps ->
    List.length pre_s = List.length pre_p ->
    for_each (seq (List.length pre_s) (List.length ss))
      (fun i =>
         bind (item (pre_p ++ ps)%list i)
           (fun p =>
              if PyFloat.Qltb float_0_05 p
              then bind (item (pre_s ++ ss)%list i)
                     (fun soup =>
                        print [T "   "; I (Z.of_nat i + 1); T ". "; T soup;
                               T " (概率"; P1 p; T "%)"])
              else ret tt)) w
    = (Ret tt, w, alternative_lines (List.length pre_s) ss ps).
Proof.
  induction ss as [ | s ss IH]; intros ps pre_s pre_p Hlen Hpre.
  - reflexivity.
  - destruct ps as [ | p ps]; [discriminate | ]. simpl in Hlen.
    cbn [List.length seq for_each alternative_lines].
    assert (Hp : nth_error (pre_p ++ p :: ps) (List.length pre_s) = Some p).
    { rewrite Hpre, nth_error_app2, Nat.sub_diag by lia. reflexivity. }
    assert (Hs : nth_error (pre_s ++ s :: ss) (List.length pre_s) = Some s).
    { rewrite nth_error_app2, Nat.sub_diag by lia. reflexivity. }
    specialize (IH ps (pre_s ++ [s])%list (pre_p ++ [p])%list).
    rewrite !length_app in IH. simpl in IH.
    rewrite <- !app_assoc in IH. simpl in IH.
    replace (List.length pre_s + 1)%nat with (S (List.length pre_s)) in IH by lia.
    match goal with
    | |- bind ?m _ _ = _ =>
        assert (Hbody : m w =
                          (Ret tt, w,
                           if PyFloat.Qltb float_0_05 p
                           then [alternative_line (List.length pre_s) s p] else []))
    end.
    { unfold bind, item, or_raise, print, emit, ret. rewrite Hp.
      destruct (PyFloat.Qltb float_0_05 p); [rewrite Hs | ]; reflexivity. }
    rewrite (bind_Ret _ _ _ _ _ _ Hbody). rewrite IH by lia. reflexivity.
Qed.

Lemma alternative_lines_above (i0 : nat) (soups : list string) :
  forall (probs : list Q) (k : nat) (i : nat) (s : string) (p : Q),
    In (alternative_line i s p) (alternative_lines k soups probs) ->
    PyFloat.Qltb float_0_05 p = true /\ (k <= i)%nat.
Proof.
  induction soups as [ | s0 soups IH]; intros probs k i s p Hin.
  - destruct Hin.
  - destruct probs as [ | p0 probs]; [destruct Hin | ].
    cbn [alternative_lines] in Hin. apply in_app_or in Hin. destruct Hin as [Hin | Hin].
    + destruct (PyFloat.Qltb float_0_05 p0) eqn:E; [ | destruct Hin].
      destruct Hin as [Hin | []]. unfold alternative_line in Hin.
      inversion Hin; subst. split; [exact E | lia].
    + apply IH in Hin. destruct Hin as [Hq Hk]. split; [exact Hq | lia].
Qed.

Lemma show_alternatives_trace {L : Lib} (soups : list string) (probs : list Q)
  (w : world) :
  List.length soups = List.length probs ->
  show_alternatives soups probs w =
    (Ret tt, w,
     if (1 <? List.length soups)%nat
     then alternatives_header :: alternative_lines 1 (tl soups) (tl probs)
     else []).
Proof.
  intros Hlen. unfold show_alternatives.
  destruct soups as [ | s0 ss]; [reflexivity | ].
  destruct probs as [ | p0 ps]; [discriminate | ].
  simpl in Hlen. cbn [List.length tl].
  destruct (1 <? S (List.length ss))%nat eqn:E; [ | reflexivity].
  unfold bind at 1. unfold print at 1, emit.
  replace (S (List.length ss) - 1)%nat with (List.length ss) by lia.
  pose proof (alternatives_loop w ss ps [s0] [p0]) as Hloop.
  cbn [List.length app] in Hloop. rewrite Hloop by lia. reflexivity.
Qed.

(** X4: for a ranking with as many probabilities as soups, the step that
    shows the alternatives never raises and changes nothing.  With a single
    candidate it prints nothing; otherwise it prints the header, even when
    no line follows, and then one line for each candidate of rank 2 or more
    whose probability is above the float 0.05, in ranking order; a candidate
    at or below that threshold and the first recommendation are never
    listed. *)
Theorem alternatives_above_threshold {L : Lib} (soups : list string) (probs : list Q)
  (w : world) :
  List.length soups = List.length probs ->
  show_alternatives soups probs w =
    (Ret tt, w,
     if (1 <? List.length soups)%nat
     then alternatives_header :: alternative_lines 1 (tl soups) (tl probs)
     else [])
  /\ (forall i s p,
        In (alternative_line i s p) (alternative_lines 1 (tl soups) (tl probs)) ->
        (float_0_05 < p)%Q /\ (1 <= i)%nat).
Proof.
  intros Hlen. split.
  - apply show_alternatives_trace. exact Hlen.
  - intros i s p Hin. apply (alternative_lines_above 0) in Hin.
    destruct Hin as [Hq Hi]. split; [ | exact Hi].
    unfold PyFloat.Qltb in Hq. apply negb_true_iff in Hq.
    apply Qnot_le_lt. intros Hle. apply Qle_bool_iff in Hle. congruence.
Qed.

Lemma alternatives_above_threshold_witness :
  show_alternatives ["玉米排骨汤"; "番茄蛋汤"; "冬瓜汤"] [9 # 10; 7 # 100; 3 # 100]
    (Sample.world_of Sample.folder []) =
    (Ret tt, Sample.world_of Sample.folder [],
     [alternatives_header; alternative_line 1 "番茄蛋汤" (7 # 100)]).
Proof.
  apply (alternatives_above_threshold (L := RefLib)
           ["玉米排骨汤"; "番茄蛋汤"; "冬瓜汤"] [9 # 10; 7 # 100; 3 # 100]
           (Sample.world_of Sample.folder [])).
  reflexivity.
Defined.

(** ** Edges of the explanation step (predict.py, lines 127-146) *)

(** X5: with the history file present, the explanation step needs the label
    column: without it the run dies with [KeyError] right after opening the
    file.  For a soup that no record of the file is labeled with, it prints
    the hint to look at the history and nothing else; the ingredient columns
    are not even looked up, so no schema can make this case fail. *)
Theorem explanation_without_records {L : Lib} (w : world) (history : dataframe)
  (top1 : string) (schema inventory_list : list string) :
  history_cleaned_csv (fs w) = Some history ->
  (index_of "汤名" (columns history) = None ->
   explain_missing top1 schema inventory_list w =
     (Raise (KeyError "汤名"), w, [Open history_name]))
  /\ (forall k,
        index_of "汤名" (columns history) = Some k ->
        rows (records_of history top1) = [] ->
        explain_missing top1 schema inventory_list w =
          (Ret tt, w,
           [Open history_name; Print [T "   建议查看历史记录了解配方"] nl])).
Proof.
  intros Hfile. split.
  - intros Hnone. unfold explain_missing, bind, open_file, rows_where.
    rewrite Hfile, Hnone. reflexivity.
  - intros k Hk Hrows. unfold explain_missing, bind, open_file.
    rewrite Hfile, (rows_where_records history top1 k w Hk), Hrows. reflexivity.
Qed.

Lemma explanation_without_records_witness :
  explain_missing "罗宋汤" Sample.schema ["排骨"] (Sample.world_of Sample.folder []) =
    (Ret tt, Sample.world_of Sample.folder [],
     [Open history_name; Print [T "   建议查看历史记录了解配方"] nl]).
Proof.
  apply (proj2 (explanation_without_records (L := RefLib)
                  (Sample.world_of Sample.folder []) Sample.history "罗宋汤"
                  Sample.schema ["排骨"] eq_refl) 0%nat);
    reflexivity.
Defined.

Lemma typical_ingredients_missing_column {L : Lib} (records : dataframe) (w : world)
  (col : string) (post : list string) :
  is_ingredient col = true ->
  index_of col (columns records) = None ->
  forall pre : list string,
    forallb (fun c => negb (is_ingredient c)) pre = true ->
    typical_ingredients records (pre ++ col :: post) w = (Raise (KeyError col), w, []).
Proof.
  intros Hi Hnone. induction pre as [ | c pre IH]; intros Hpre.
  - cbn [app typical_ingredients]. rewrite Hi. unfold bind, column. rewrite Hnone.
    reflexivity.
  - cbn [forallb] in Hpre. apply andb_true_iff in Hpre. destruct Hpre as [Hc Hpre].
    apply negb_true_iff in Hc. cbn [app typical_ingredients]. rewrite Hc.
    apply IH. exact Hpre.
Qed.

(** X6: when the top soup has a record and the first ingredient column of
    the schema is not a column of the history file, the explanation step
    dies with [KeyError] for that column, right after opening the file and
    before it prints anything. *)
Theorem explanation_schema_skew {L : Lib} (w : world) (history : dataframe)
  (top1 : string) (pre post inventory_list : list string) (col : string) (k : nat) :
  history_cleaned_csv (fs w) = Some history ->
  index_of "汤名" (columns history) = Some k ->
  nonempty (rows (records_of history top1)) = true ->
  forallb (fun c => negb (is_ingredient c)) pre = true ->
  is_ingredient col = true ->
  index_of col (columns history) = None ->
  explain_missing top1 (pre ++ col :: post) inventory_list w =
    (Raise (KeyError col), w, [Open history_name]).
Proof.
  intros Hfile Hk Hrows Hpre Hi Hnone. unfold explain_missing, bind, open_file.
  rewrite Hfile, (rows_where_records history top1 k w Hk), Hrows.
  rewrite (typical_ingredients_missing_column (records_of history top1) w col post Hi
             Hnone pre Hpre).
  reflexivity.
Qed.

Lemma explanation_schema_skew_witness :
  explain_missing "冬瓜汤" (base_columns ++ ["食材_冬瓜"; "食材_排骨"]) ["排骨"]
    (Sample.world_of Sample.folder []) =
    (Raise (KeyError "食材_冬瓜"), Sample.world_of Sample.folder [], [Open history_name]).
Proof.
  apply (explanation_schema_skew (L := RefLib) (Sample.world_of Sample.folder [])
           Sample.history "冬瓜汤" base_columns ["食材_排骨"] ["排骨"] "食材_冬瓜" 0%nat);
    reflexivity.
Defined.

(** ** The ranking step on a consistent model (predict.py, lines 70-98) *)

Lemma ssorted_map {A B : Type} (f : A -> B) (R : B -> B -> Prop) (l : list A) :
  StronglySorted (fun x y => R (f x) (f y)) l -> StronglySorted R (map f l).
Proof.
  induction 1 as [ | a l Hs IH Hf]; simpl; constructor.
  - exact IH.
  - rewrite Forall_forall in *. intros y Hy. apply in_map_iff in Hy.
    destruct Hy as [x [<- Hx]]. apply Hf. exact Hx.
Qed.

(** The last three entries of an ascending order, reversed. *)
Lemma ranked_last_three (p : list Q) (order : list nat) :
  ascending_order p order ->
  List.length (rev (last_n 3 order)) = Nat.min 3 (List.length p)
  /\ (forall i, In i (rev (last_n 3 order)) -> (i < List.length p)%nat)
  /\ StronglySorted (fun i j => (prob p j <= prob p i)%Q) (rev (last_n 3 order))
  /\ (forall i j,
        In i (rev (last_n 3 order)) -> (j < List.length p)%nat ->
        ~ In j (rev (last_n 3 order)) -> (prob p j <= prob p i)%Q).
Proof.
  intros [Hperm Hsorted].
  pose proof (Permutation_length Hperm) as Hlen. rewrite length_seq in Hlen.
  pose proof (last_n_split 3 order) as Hsplit.
  assert (Hin : forall i, In i (last_n 3 order) -> In i order).
  { intros i Hi. rewrite Hsplit. apply in_or_app. right. exact Hi. }
  rewrite Hsplit in Hsorted.
  destruct (ssorted_app_inv _ _ _ Hsorted) as [Hlast Hcross].
  split; [ | split; [ | split]].
  - rewrite length_rev, last_n_length, Hlen. reflexivity.
  - intros i Hi. apply in_rev in Hi. apply Hin in Hi.
    apply (Permutation_in _ Hperm) in Hi. apply in_seq in Hi. lia.
  - apply ssorted_rev. exact Hlast.
  - intros i j Hi Hj Hnot. apply in_rev in Hi.
    assert (Hjo : In j order).
    { apply (Permutation_in _ (Permutation_sym Hperm)). apply in_seq. lia. }
    rewrite Hsplit in Hjo. apply in_app_or in Hjo. destruct Hjo as [Hjf | Hjl].
    + apply Hcross; assumption.
    + exfalso. apply Hnot. apply in_rev. rewrite rev_involutive. exact Hjl.
Qed.

Lemma forallb_below (n : nat) (l : list nat) :
  (forall i, In i l -> (i < n)%nat) -> forallb (fun i => (i <? n)%nat) l = true.
Proof.
  intros H. apply forallb_forall. intros i Hi. apply Nat.ltb_lt. apply H. exact Hi.
Qed.

Lemma rank_on_consistent_model {L : Lib} (model : classifier)
  (label_encoder cols inventory_list : list string) (t : tomorrow_inputs) (w : world) :
  valid_schema cols = true ->
  let row := map (feature_value inventory_list (in_temp t) (in_weather_code t)
                    (in_month t) (in_season t) (in_is_weekend t)) cols in
  let p := predict_proba model row in
  ascending_order p (argsort p) ->
  List.length label_encoder = List.length p ->
  rank model label_encoder cols inventory_list t w =
    (Ret (map (fun i => nth i label_encoder "") (top3_indices p),
          map (prob p) (top3_indices p)), w,
     [Print [T nl; T "🔧 分析中..."] nl]).
Proof.
  intros Hv row p Hasc Hlen.
  destruct (ranked_last_three p (argsort p) Hasc) as [_ [Hrange _]].
  unfold rank, bind, print, emit.
  rewrite (tomorrow_features_value cols inventory_list (in_temp t) (in_weather_code t)
             (in_month t) (in_season t) (in_is_weekend t) w Hv).
  assert (Hrow : map snd
                   (map (fun col =>
                           (col, feature_value inventory_list (in_temp t)
                                   (in_weather_code t) (in_month t) (in_season t)
                                   (in_is_weekend t) col)) cols) = row).
  { rewrite map_map. reflexivity. }
  rewrite Hrow. fold p.
  unfold inverse_transform, take. fold (top3_indices p) in Hrange.
  rewrite Hlen, (forallb_below (List.length p) (top3_indices p) Hrange).
  reflexivity.
Qed.

(** X7: when the schema holds fixed and ingredient columns only, the label
    vocabulary has one name per probability and [np.argsort] returns an
    ascending order, the ranking step never raises and changes nothing: it
    returns [min(3, number of classes)] soups, each a name of the vocabulary
    paired with the probability of its class, by decreasing probability,
    and no class at all is more probable than the first one. *)
Theorem rank_succeeds_on_consistent_model {L : Lib} (model : classifier)
  (label_encoder cols inventory_list : list string) (t : tomorrow_inputs) (w : world) :
  valid_schema cols = true ->
  let row := map (feature_value inventory_list (in_temp t) (in_weather_code t)
                    (in_month t) (in_season t) (in_is_weekend t)) cols in
  let p := predict_proba model row in
  ascending_order p (argsort p) ->
  List.length label_encoder = List.length p ->
  exists soups probs,
    rank model label_encoder cols inventory_list t w =
      (Ret (soups, probs), w, [Print [T nl; T "🔧 分析中..."] nl])
    /\ List.length soups = Nat.min 3 (List.length p)
    /\ List.length probs = Nat.min 3 (List.length p)
    /\ StronglySorted (fun a b => (b <= a)%Q) probs
    /\ (forall i soup,
          nth_error soups i = Some soup ->
          exists c, nth_error label_encoder c = Some soup
                    /\ nth_error probs i = Some (prob p c))
    /\ (forall top q, hd_error probs = Some top -> In q p -> (q <= top)%Q).
Proof.
  intros Hv row p Hasc Hlen.
  destruct (ranked_last_three p (argsort p) Hasc) as [Hn [Hrange [Hsorted Hdom]]].
  fold (top3_indices p) in Hn, Hrange, Hsorted, Hdom.
  exists (map (fun i => nth i label_encoder "") (top3_indices p)),
    (map (prob p) (top3_indices p)).
  split; [apply (rank_on_consistent_model model label_encoder cols inventory_list t w
                   Hv Hasc Hlen) | ].
  split; [rewrite length_map; exact Hn | ].
  split; [rewrite length_map; exact Hn | ].
  split; [apply ssorted_map; exact Hsorted | ].
  split.
  - intros i soup Hi. rewrite nth_error_map in Hi.
    destruct (nth_error (top3_indices p) i) as [c | ] eqn:Ec; [ | discriminate].
    simpl in Hi. inversion Hi; subst. exists c. split.
    + apply nth_error_nth'. rewrite Hlen. apply Hrange.
      apply (nth_error_In _ _ Ec).
    + rewrite nth_error_map, Ec. reflexivity.
  - intros top q Htop Hq.
    destruct (top3_indices p) as [ | i0 rest] eqn:Etop; [discriminate | ].
    simpl in Htop. inversion Htop; subst top.
    destruct (In_nth p q 0%Q Hq) as [j [Hj Hnth]]. fold (prob p j) in Hnth.
    rewrite <- Hnth.
    destruct (in_dec Nat.eq_dec j (i0 :: rest)) as [Hin | Hout].
    + destruct Hin as [<- | Hin]; [apply Qle_refl | ].
      apply StronglySorted_inv in Hsorted. destruct Hsorted as [_ Hf].
      rewrite Forall_forall in Hf. apply Hf. exact Hin.
    + apply Hdom; [left; reflexivity | exact Hj | exact Hout].
Qed.

Lemma rank_succeeds_on_consistent_model_witness :
  exists soups probs,
    rank Sample.model Sample.soups Sample.schema ["排骨"; "玉米"]
      (inputs_of saturday_ranking) (Sample.world_of Sample.folder []) =
      (Ret (soups, probs), Sample.world_of Sample.folder [],
       [Print [T nl; T "🔧 分析中..."] nl])
    /\ List.length soups = 3%nat.
Proof.
  destruct (rank_succeeds_on_consistent_model (L := RefLib) Sample.model Sample.soups
              Sample.schema ["排骨"; "玉米"] (inputs_of saturday_ranking)
              (Sample.world_of Sample.folder []) eq_refl
              (stable_argsort_ascending [1 # 5; 1 # 2; 3 # 10]) eq_refl)
    as (soups & probs & Hrun & Hlen & _).
  exists soups, probs. split; [exact Hrun | exact Hlen].
Defined.

(** ** What the predictor writes (predict.py, lines 160-165) *)

(** A bind ends as its second half does, or fails as its first half did. *)
Lemma bind_inv_any {L : Lib} {A B : Type} (m : M A) (k : A -> M B) w r w' t :
  bind m k w = (r, w', t) ->
  (exists a w1 t1 t2,
     m w = (Ret a, w1, t1) /\ k a w1 = (r, w', t2) /\ t = (t1 ++ t2)%list)
  \/ (failed r /\ exists r0, m w = (r0, w', t) /\ failed r0).
Proof.
  unfold bind. destruct (m w) as [[r1 w1] t1]. destruct r1 as [a | e | ].
  - destruct (k a w1) as [[r2 w2] t2] eqn:Ek. intros H. inversion H; subst.
    left. exists a, w1, t1, t2. auto.
  - intros H. inversion H; subst. right. split; [exact Logic.I | ].
    exists (Raise e). split; [reflexivity | exact Logic.I].
  - intros H. inversion H; subst. right. split; [exact Logic.I | ].
    exists Exit. split; [reflexivity | exact Logic.I].
Qed.

Lemma lower_is_y (s : string) : lower s = "y" <-> s = "y" \/ s = "Y".
Proof.
  split.
  - destruct s as [ | c s']; [discriminate | ].
    unfold lower, PyStr.of_bytes, PyStr.bytes. cbn [list_ascii_of_string map string_of_list_ascii].
    intros H. injection H as Hc Hrest.
    destruct s' as [ | c' s'']; [ | discriminate].
    destruct c as [b0 b1 b2 b3 b4 b5 b6 b7].
    destruct b0, b1, b2, b3, b4, b5, b6, b7; cbv in Hc; try discriminate Hc; auto.
  - intros [-> | ->]; reflexivity.
Qed.

Lemma save_prediction_yes {L : Lib} (date_input top1 : string) (p1 : Q)
  (weather_str : string) (temp : pyfloat) (w : world) line rest :
  stdin w = line :: rest ->
  PyStr.strip line = "y" \/ PyStr.strip line = "Y" ->
  save_prediction date_input top1 p1 weather_str temp w =
    (Ret tt,
     {| fs := append_log (log_line date_input top1 p1 weather_str temp) (fs w);
        stdin := rest; now := now w |},
     [save_prompt;
      Append "predictions_log.txt" (log_line date_input top1 p1 weather_str temp);
      Print [T "✅ 已保存到 predictions_log.txt"] nl]).
Proof.
  intros Hin Hy. apply lower_is_y in Hy.
  unfold save_prediction, bind, input. rewrite Hin, Hy. reflexivity.
Qed.

Lemma save_prediction_no {L : Lib} (date_input top1 : string) (p1 : Q)
  (weather_str : string) (temp : pyfloat) (w : world) line rest :
  stdin w = line :: rest ->
  PyStr.strip line <> "y" -> PyStr.strip line <> "Y" ->
  save_prediction date_input top1 p1 weather_str temp w =
    (Ret tt, {| fs := fs w; stdin := rest; now := now w |}, [save_prompt]).
Proof.
  intros Hin Hn1 Hn2. unfold save_prediction, bind, input. rewrite Hin.
  destruct (String.eqb_spec (lower (PyStr.strip line)) "y") as [E | E].
  - apply lower_is_y in E. tauto.
  - reflexivity.
Qed.

(** X8: the answer to the last prompt decides alone whether a line is
    logged: after [strip()], the answers [y] and [Y] append one line to the
    prediction log and say so; every other answer, the blank one and [yes]
    included, leaves the files as they are and prints nothing. *)
Theorem saved_only_on_y {L : Lib} (date_input top1 : string) (p1 : Q)
  (weather_str : string) (temp : pyfloat) (w : world) line rest :
  stdin w = line :: rest ->
  (PyStr.strip line = "y" \/ PyStr.strip line = "Y" ->
   save_prediction date_input top1 p1 weather_str temp w =
     (Ret tt,
      {| fs := append_log (log_line date_input top1 p1 weather_str temp) (fs w);
         stdin := rest; now := now w |},
      [save_prompt;
       Append "predictions_log.txt" (log_line date_input top1 p1 weather_str temp);
       Print [T "✅ 已保存到 predictions_log.txt"] nl]))
  /\ (PyStr.strip line <> "y" -> PyStr.strip line <> "Y" ->
      save_prediction date_input top1 p1 weather_str temp w =
        (Ret tt, {| fs := fs w; stdin := rest; now := now w |}, [save_prompt])).
Proof.
  intros Hin. split.
  - apply save_prediction_yes. exact Hin.
  - apply save_prediction_no. exact Hin.
Qed.

Lemma saved_only_on_y_witness :
  save_prediction "2024-02-03" "玉米排骨汤" (1 # 2) "雨" (Fin 10)
    (Sample.world_of Sample.folder [" yes "]) =
    (Ret tt, Sample.world_of Sample.folder [], [save_prompt])
  /\ fst (fst (save_prediction "2024-02-03" "玉米排骨汤" (1 # 2) "雨" (Fin 10)
                 (Sample.world_of Sample.folder [" Y "]))) = Ret tt.
Proof.
  split.
  - apply (proj2 (saved_only_on_y (L := RefLib) "2024-02-03" "玉米排骨汤" (1 # 2) "雨"
                    (Fin 10) (Sample.world_of Sample.folder [" yes "]) " yes " []
                    eq_refl)).
    + vm_compute. discriminate.
    + vm_compute. discriminate.
  - rewrite (proj1 (saved_only_on_y (L := RefLib) "2024-02-03" "玉米排骨汤" (1 # 2) "雨"
                      (Fin 10) (Sample.world_of Sample.folder [" Y "]) " Y " []
                      eq_refl)).
    + reflexivity.
    + right. reflexivity.
Defined.

Lemma save_prediction_effect {L : Lib} (date_input top1 : string) (p1 : Q)
  (weather_str : string) (temp : pyfloat) (w : world) r w' t :
  save_prediction date_input top1 p1 weather_str temp w = (r, w', t) ->
  now w' = now w
  /\ only_log_appended (fs w) (fs w') t
  /\ (failed r -> fs w' = fs w).
Proof.
  unfold save_prediction, bind, input, write_file, print, emit, ret.
  destruct (stdin w) as [ | line rest].
  - intros H. inversion H; subst. split; [reflexivity | ].
    split; [left; reflexivity | reflexivity].
  - cbn [fs stdin now]. destruct (String.eqb (lower (PyStr.strip line)) "y").
    + intros H. inversion H; subst. cbn [fs now]. split; [reflexivity | ]. split.
      * right. eexists. split; [reflexivity | ]. simpl. auto.
      * intros [].
    + intros H. inversion H; subst. cbn [fs now]. split; [reflexivity | ].
      split; [left; reflexivity | reflexivity].
Qed.

(** X9: however a run of the predictor ends, it leaves the clock, the three
    artifacts and the history file as they were; the prediction log is
    either untouched or longer by the one line the trace shows as appended,
    its earlier lines kept; and a run that ends in an exception or in
    [exit()] has written nothing at all. *)
Theorem predictor_only_appends_to_log {L : Lib} (w : world) r w' t :
  predict_py w = (r, w', t) ->
  now w' = now w
  /\ only_log_appended (fs w) (fs w') t
  /\ (failed r -> fs w' = fs w).
Proof.
  unfold predict_py. intros H.
  apply bind_inv_any in H. destruct H as [(a & w1 & t1 & t2 & Hm & Hk & ->) | (_ & r0 & Hm & _)].
  2:{ destruct (ro_predict_ranking _ _ _ _ Hm) as [Hf Hn].
      split; [exact Hn | ]. split; [left; exact Hf | intros _; exact Hf]. }
  destruct (ro_predict_ranking _ _ _ _ Hm) as [Hf1 Hn1].
  unfold predict_explanation in Hk.
  apply bind_inv_any in Hk.
  destruct Hk as [(a2 & w2 & t3 & t4 & Hm2 & Hk & ->) | (_ & r2 & Hm2 & _)].
  2:{ destruct (ro_explain_missing _ _ _ _ _ _ _ Hm2) as [Hf Hn].
      split; [congruence | ]. split; [left; congruence | intros _; congruence]. }
  destruct (ro_explain_missing _ _ _ _ _ _ _ Hm2) as [Hf2 Hn2].
  apply bind_inv_any in Hk.
  destruct Hk as [(a3 & w3 & t5 & t6 & Hm3 & Hk & ->) | (_ & r3 & Hm3 & _)].
  2:{ destruct (ro_show_alternatives _ _ _ _ _ _ Hm3) as [Hf Hn].
      split; [congruence | ]. split; [left; congruence | intros _; congruence]. }
  destruct (ro_show_alternatives _ _ _ _ _ _ Hm3) as [Hf3 Hn3].
  unfold bind at 1 2 3 in Hk. unfold print at 1 2 3, emit in Hk.
  destruct (save_prediction _ _ _ _ _ w3) as [[r4 w4] t7] eqn:Hs.
  inversion Hk; subst.
  destruct (save_prediction_effect _ _ _ _ _ _ _ _ _ Hs) as [Hn4 [Hlog Hfail]].
  split; [congruence | ]. split.
  - destruct Hlog as [Hsame | (line & Hline & Hin)].
    + left. congruence.
    + right. exists line. split; [congruence | ].
      repeat (apply in_or_app; right). simpl. auto.
  - intros Hr. rewrite (Hfail Hr). congruence.
Qed.

(** ** What the trainer writes (train_model.py) *)

Section TrainerSteps.

Context {L : Lib}.

Lemma fc_bind {A B : Type} (m : M A) (k : A -> M B) :
  read_only m -> (forall a, fails_clean (k a)) -> fails_clean (bind m k).
Proof.
  intros Hm Hk w r w' t H Hr. apply bind_inv_any in H.
  destruct H as [(a & w1 & t1 & t2 & Ha & Hb & _) | (_ & r0 & Ha & _)].
  - destruct (Hm _ _ _ _ Ha) as [Hf _]. rewrite (Hk a _ _ _ _ Hb Hr). exact Hf.
  - apply (Hm _ _ _ _ Ha).
Qed.

Lemma fc_total {A : Type} (m : M A) :
  (forall w, exists a w' t, m w = (Ret a, w', t)) -> fails_clean m.
Proof.
  intros Hm w r w' t H Hr. destruct (Hm w) as (a & w1 & t1 & Ha).
  rewrite Ha in H. inversion H; subst. destruct Hr.
Qed.

Lemma ro_select_frame (df : dataframe) (names : list string) :
  read_only (select_frame df names).
Proof. unfold select_frame. repeat ro_step. Qed.

Lemma ro_fit_transform (y : list cell) : read_only (fit_transform y).
Proof. unfold fit_transform. repeat ro_step. Qed.

Lemma ro_split_data (X : list (list cell)) (y : list nat) (n : nat) :
  read_only (split_data X y n).
Proof. unfold split_data. repeat ro_step. Qed.

Lemma ro_evaluate (model : classifier) (classes : list string)
  (X_test : option (list (list cell))) (y_test : option (list nat)) :
  read_only (evaluate model classes X_test y_test).
Proof. unfold evaluate, inverse_transform. repeat ro_step. Qed.

Lemma ro_report_importances (model : classifier) (cols : list string) :
  read_only (report_importances model cols).
Proof. unfold report_importances. repeat ro_step. Qed.

Lemma index_of_In (c : string) (cols : list string) :
  In c cols <-> exists i, index_of c cols = Some i.
Proof.
  induction cols as [ | h cols IH]; simpl.
  - split; [intros [] | intros [i Hi]; discriminate].
  - destruct (String.eqb_spec h c) as [E | E].
    + split; [intros _; exists O; reflexivity | intros _; left; exact E].
    + split.
      * intros [Hh | Hin]; [contradiction | ]. apply IH in Hin. destruct Hin as [i Hi].
        exists (S i). rewrite Hi. reflexivity.
      * intros [i Hi]. right. apply IH.
        destruct (index_of c cols) as [j | ]; [exists j; reflexivity | discriminate].
Qed.


Lemma column_indices_missing (cols : list string) (w : world) :
  forall names : list string,
    (exists c, In c names /\ ~ In c cols) ->
    exists c, In c names /\ ~ In c cols
              /\ column_indices cols names w = (Raise (KeyError c), w, []).
Proof.
  induction names as [ | c names IH]; intros [c0 [Hin Hout]].
  - destruct Hin.
  - simpl. destruct (index_of c cols) as [i | ] eqn:Ei.
    + assert (Hc : In c cols) by (apply index_of_In; exists i; exact Ei).
      destruct Hin as [<- | Hin]; [contradiction | ].
      destruct (IH (ex_intro _ c0 (conj Hin Hout))) as (c1 & H1 & H2 & H3).
      exists c1. split; [right; exact H1 | ]. split; [exact H2 | ].
      unfold bind. rewrite H3. reflexivity.
    + exists c. split; [left; reflexivity | ]. split; [ | reflexivity].
      intros Hc. apply index_of_In in Hc. destruct Hc as [i Hi]. congruence.
Qed.





End TrainerSteps.


(** Splits a hypothesis about a whole chain of binds into its steps. *)
Ltac bind_inv_all H :=
  repeat first
    [ bind_inv H
    | match type of H with
      | context [match ?x with (_, _) => _ end] => destruct x
      end ].

(** X10: a run of the trainer that ends in an exception has written
    nothing: the folder is exactly as it was.  Every step that can raise
    comes before the first [joblib.dump]. *)
Theorem trainer_failure_writes_nothing {L : Lib} (w : world) r w' t :
  train_model_py w = (r, w', t) ->
  failed r ->
  fs w' = fs w.
Proof.
  revert w r w' t. change (fails_clean train_model_py). unfold train_model_py.
  cbv zeta.
  repeat (apply fc_bind;
          [ solve [ first [ apply ro_select_frame | apply ro_fit_transform
                          | apply ro_split_data | apply ro_evaluate
                          | apply ro_report_importances | ro_step ] ]
          | first [ intros [[[? ?] ?] ?] | intros [? ?] | intro ] ]).
  apply fc_total. intros w.
  unfold bind, dump_model, dump_label_encoder, dump_feature_columns, write_file,
    print, emit, ret.
  do 3 eexists. reflexivity.
Qed.

Lemma trainer_failure_writes_nothing_witness :
  fs (snd (fst (train_model_py (Sample.world_of Sample.without_history []))))
  = Sample.without_history.
Proof.
  destruct (train_model_py (Sample.world_of Sample.without_history []))
    as [[r w'] t] eqn:E.
  apply (trainer_failure_writes_nothing (L := RefLib)
           (Sample.world_of Sample.without_history []) r w' t E).
  assert (Hr : fst (fst (train_model_py (Sample.world_of Sample.without_history [])))
               = Raise (FileNotFoundError history_name)).
  { vm_compute. reflexivity. }
  rewrite E in Hr. simpl in Hr. rewrite Hr. exact Logic.I.
Defined.



Lemma column_indices_present {L : Lib} (cols : list string) (w : world) :
  forall names : list string,
    (forall c, In c names -> In c cols) ->
    exists idx, column_indices cols names w = (Ret idx, w, []).
Proof.
  induction names as [ | c names IH]; intros Hin.
  - exists []. reflexivity.
  - destruct (proj1 (index_of_In c cols) (Hin c (or_introl eq_refl))) as [i Hi].
    destruct (IH (fun c' Hc' => Hin c' (or_intror Hc'))) as [idx Hidx].
    exists (i :: idx). simpl. rewrite Hi. unfold bind. rewrite Hidx. reflexivity.
Qed.

(** X12: the trainer needs the six fixed columns and the label column in
    the history file.  When a fixed column is absent the run dies with
    [KeyError] for a fixed column that is absent, and when only the label
    column is absent it dies with [KeyError] for the label column; in both
    cases it has only printed its first lines and has written nothing.
    Ingredient columns are taken from the file and are never missed. *)
Theorem trainer_needs_columns {L : Lib} (w : world) (history : dataframe) :
  history_cleaned_csv (fs w) = Some history ->
  ((exists c, In c base_columns /\ ~ In c (columns history)) ->
   exists c, In c base_columns /\ ~ In c (columns history)
             /\ train_model_py w = (Raise (KeyError c), w, trainer_preamble history))
  /\ ((forall c, In c base_columns -> In c (columns history)) ->
      ~ In "汤名" (columns history) ->
      train_model_py w = (Raise (KeyError "汤名"), w, trainer_preamble history)).
Proof.
  intros Hfile. split.
  - intros [c0 [Hc0 Hout0]].
    destruct (column_indices_missing (columns history) w (schema_of history))
      as (c & Hc & Hout & Hrun).
    { exists c0. split; [apply in_or_app; left; exact Hc0 | exact Hout0]. }
    exists c. split; [ | split; [exact Hout | ]].
    + unfold schema_of in Hc. apply in_app_or in Hc. destruct Hc as [Hc | Hc]; [exact Hc | ].
      apply filter_In in Hc. destruct Hc as [Hc _]. contradiction.
    + unfold train_model_py, bind, print, emit, open_file, select_frame.
      rewrite Hfile. cbv zeta. fold (schema_of history). unfold bind. rewrite Hrun.
      reflexivity.
  - intros Hbase Hlabel.
    destruct (column_indices_present (columns history) w (schema_of history))
      as [idx Hidx].
    { intros c Hc. unfold schema_of in Hc. apply in_app_or in Hc.
      destruct Hc as [Hc | Hc]; [apply Hbase; exact Hc | ].
      apply filter_In in Hc. apply Hc. }
    assert (Hnone : index_of "汤名" (columns history) = None).
    { destruct (index_of "汤名" (columns history)) as [i | ] eqn:Ei; [ | reflexivity].
      exfalso. apply Hlabel. apply index_of_In. exists i. exact Ei. }
    unfold train_model_py, bind, print, emit, open_file, select_frame, column.
    rewrite Hfile. cbv zeta. fold (schema_of history). unfold bind, ret.
    rewrite Hidx, Hnone. reflexivity.
Qed.

Lemma trainer_needs_columns_witness :
  exists c,
    In c base_columns
    /\ train_model_py (Sample.world_of folder_without_feedback []) =
         (Raise (KeyError c), Sample.world_of folder_without_feedback [],
          trainer_preamble history_without_feedback).
Proof.
  destruct (proj1 (trainer_needs_columns (L := RefLib)
                     (Sample.world_of folder_without_feedback [])
                     history_without_feedback eq_refl))
    as (c & Hc & _ & Hrun).
  - exists "反馈分数". split.
    + unfold base_columns. simpl. auto 10.
    + simpl. intros H. repeat (destruct H as [H | H]; [discriminate | ]). exact H.
  - exists c. split; [exact Hc | exact Hrun].
Defined.

Lemma predictor_only_appends_to_log_witness :
  only_log_appended Sample.folder
    (fs (snd (fst (predict_py
                     (Sample.world_of Sample.folder
                        ["2024-02-03"; "6"; "雨"; "10"; "排骨, 玉米"; "y"])))))
    (snd (predict_py
            (Sample.world_of Sample.folder
               ["2024-02-03"; "6"; "雨"; "10"; "排骨, 玉米"; "y"]))).
Proof.
  destruct (predict_py
              (Sample.world_of Sample.folder
                 ["2024-02-03"; "6"; "雨"; "10"; "排骨, 玉米"; "y"]))
    as [[r w'] t] eqn:E.
  apply (predictor_only_appends_to_log (L := RefLib) _ r w' t E).
Defined.

(** ** A run of the predictor that ends normally *)

Lemma ask_tomorrow_succeeds {L : Lib} (w : world) (l1 l2 l3 l4 : string)
  (rest : list string) (d : date) (x : pyfloat) :
  stdin w = l1 :: l2 :: l3 :: l4 :: rest ->
  strptime (date_text w l1) = Some d ->
  float_of_str (temp_text l4) = Some x ->
  exists tr,
    ask_tomorrow w =
      (Ret (resolved_inputs w l1 l2 l3 d x),
       {| fs := fs w; stdin := rest; now := now w |}, tr).
Proof.
  intros Hin Hd Hx. unfold ask_tomorrow.
  unfold bind at 1. unfold print at 1, emit.
  assert (Hdate : exists tr1,
             ask_date w = (Ret (date_text w l1),
                           {| fs := fs w; stdin := l2 :: l3 :: l4 :: rest; now := now w |},
                           tr1)).
  { unfold date_text. destruct (String.eqb_spec (PyStr.strip l1) "") as [Hb | Hb].
    - eexists. apply (ask_date_blank w l1 _ Hin Hb).
    - eexists. apply (ask_date_given w l1 _ Hin Hb). }
  destruct Hdate as [tr1 Hdate]. rewrite (bind_Ret _ _ _ _ _ _ Hdate).
  set (w1 := {| fs := fs w; stdin := l2 :: l3 :: l4 :: rest; now := now w |}).
  assert (Hwd : exists tr2,
             ask_weekday (date_text w l1) w1 =
               (Ret (weekday_text l2 d),
                {| fs := fs w; stdin := l3 :: l4 :: rest; now := now w |}, tr2)).
  { unfold weekday_text. destruct (String.eqb_spec (PyStr.strip l2) "") as [Hb | Hb].
    - eexists. apply (ask_weekday_blank w1 l2 _ eq_refl (date_text w l1) d Hb Hd).
    - eexists. apply (ask_weekday_given (date_text w l1) w1 l2 _ eq_refl Hb). }
  destruct Hwd as [tr2 Hwd]. rewrite (bind_Ret _ _ _ _ _ _ Hwd).
  set (w2 := {| fs := fs w; stdin := l3 :: l4 :: rest; now := now w |}).
  rewrite (bind_Ret _ _ _ _ _ _ (ask_weather_code w2 l3 _ eq_refl)).
  cbn [fs stdin now].
  set (w3 := {| fs := fs w; stdin := l4 :: rest; now := now w |}).
  rewrite (bind_Ret _ _ _ _ _ _ (ask_temp_text w3 l4 _ eq_refl x Hx)).
  cbn [fs stdin now].
  unfold bind, print, emit, parse_date, or_ValueError. rewrite Hd.
  unfold ret. eexists. reflexivity.
Qed.

Lemma report_top_succeeds {L : Lib} (s0 : string) (ss : list string) (p0 : Q)
  (ps : list Q) (inventory_list : list string) (t : tomorrow_inputs) (w : world) :
  exists tr,
    report_top (s0 :: ss) (p0 :: ps) inventory_list t w = (Ret (s0, p0), w, tr).
Proof. eexists. reflexivity. Qed.

Lemma binary_records (history : dataframe) (soup : string) (cols : list string) :
  binary_ingredients history cols = true ->
  binary_ingredients (records_of history soup) cols = true.
Proof.
  unfold binary_ingredients. rewrite !forallb_forall. intros H col Hcol.
  specialize (H col Hcol). destruct (is_ingredient col); [ | reflexivity].
  simpl in *. unfold cells_of in *. cbn [columns rows records_of].
  destruct (index_of col (columns history)) as [i | ]; [ | discriminate].
  rewrite forallb_forall in *. intros c Hc. apply in_map_iff in Hc.
  destruct Hc as [r [<- Hr]]. apply filter_In in Hr. destruct Hr as [Hr _].
  apply H. apply in_map_iff. exists r. auto.
Qed.

Lemma explain_missing_succeeds {L : Lib} (w : world) (history : dataframe)
  (top1 : string) (cols inventory_list : list string) (k : nat) :
  history_cleaned_csv (fs w) = Some history ->
  index_of "汤名" (columns history) = Some k ->
  binary_ingredients history cols = true ->
  exists tr, explain_missing top1 cols inventory_list w = (Ret tt, w, tr).
Proof.
  intros Hfile Hk Hbin. unfold explain_missing, bind, open_file.
  rewrite Hfile, (rows_where_records history top1 k w Hk).
  destruct (nonempty (rows (records_of history top1))).
  - rewrite (typical_ingredients_majority _ w cols (binary_records history top1 cols Hbin)).
    unfold print, emit.
    destruct (nonempty (missing_of _ inventory_list)); eexists; reflexivity.
  - eexists. reflexivity.
Qed.

Lemma save_prediction_total {L : Lib} (date_input top1 : string) (p1 : Q)
  (weather_str : string) (temp : pyfloat) (w : world) line rest :
  stdin w = line :: rest ->
  exists f tr,
    save_prediction date_input top1 p1 weather_str temp w =
      (Ret tt, {| fs := f; stdin := rest; now := now w |}, tr).
Proof.
  intros Hin. unfold save_prediction, bind, input, write_file, print, emit, ret.
  rewrite Hin. destruct (String.eqb (lower (PyStr.strip line)) "y");
    do 2 eexists; reflexivity.
Qed.

(** X13: conditions under which a run of the predictor ends normally.  The
    three artifacts and the history file are present; the console has six
    lines; the date kept for the first answer parses and [float] accepts the
    temperature; the schema holds fixed and ingredient columns only; the
    classifier returns at least one probability and as many as the
    vocabulary has names, and [np.argsort] puts them in ascending order; the
    history table has the label column and zeros and ones in the ingredient
    columns of the schema.  Then nothing is raised, exactly the six lines
    are read, and the clock is untouched. *)
Theorem predictor_normal_end {L : Lib} (w : world) (model : classifier)
  (label_encoder cols : list string) (history : dataframe)
  (l1 l2 l3 l4 l5 l6 : string) (rest : list string) (d : date) (x : pyfloat) (k : nat) :
  soup_predictor_model_pkl (fs w) = Some model ->
  label_encoder_pkl (fs w) = Some label_encoder ->
  feature_columns_pkl (fs w) = Some cols ->
  history_cleaned_csv (fs w) = Some history ->
  stdin w = l1 :: l2 :: l3 :: l4 :: l5 :: l6 :: rest ->
  strptime (date_text w l1) = Some d ->
  float_of_str (temp_text l4) = Some x ->
  valid_schema cols = true ->
  let p := probabilities_for model cols (parse_inventory (PyStr.strip l5))
             (resolved_inputs w l1 l2 l3 d x) in
  ascending_order p (argsort p) ->
  List.length label_encoder = List.length p ->
  p <> [] ->
  index_of "汤名" (columns history) = Some k ->
  binary_ingredients history cols = true ->
  exists w' tr,
    predict_py w = (Ret tt, w', tr) /\ stdin w' = rest /\ now w' = now w.
Proof.
  intros Hm Hl Hc Hh Hin Hd Hx Hv p Hasc Hlen Hne Hk Hbin.
  set (t := resolved_inputs w l1 l2 l3 d x) in *.
  set (inv := parse_inventory (PyStr.strip l5)) in *.
  destruct (ask_tomorrow_succeeds w l1 l2 l3 l4 (l5 :: l6 :: rest) d x Hin Hd Hx)
    as [tr1 Hask]. fold t in Hask.
  set (w4 := {| fs := fs w; stdin := l5 :: l6 :: rest; now := now w |}) in *.
  set (w5 := {| fs := fs w; stdin := l6 :: rest; now := now w |}).
  assert (Hinv : ask_inventory cols w4 = (Ret inv, w5, _))
    by apply (ask_inventory_list w4 l5 (l6 :: rest) eq_refl cols).
  pose proof (rank_on_consistent_model model label_encoder cols inv t w5 Hv Hasc Hlen)
    as Hrank.
  fold (probabilities_for model cols inv t) in Hrank. fold p in Hrank.
  destruct (ranked_last_three p (argsort p) Hasc) as [Hn _].
  fold (top3_indices p) in Hn.
  destruct (top3_indices p) as [ | i0 top] eqn:Etop.
  { exfalso. simpl in Hn. destruct p; [apply Hne; reflexivity | simpl in Hn; lia]. }
  cbn [map] in Hrank.
  destruct (report_top_succeeds (nth i0 label_encoder "")
              (map (fun i => nth i label_encoder "") top) (prob p i0)
              (map (prob p) top) inv t w5) as [tr4 Hreport].
  assert (Hranking : exists r tr,
             predict_ranking w = (Ret r, w5, tr)
             /\ top1_of r = nth i0 label_encoder "" /\ feature_columns_of r = cols
             /\ List.length (top3_soups_of r) = List.length (top3_probs_of r)).
  { unfold predict_ranking.
    unfold bind at 1. unfold print at 1, emit.
    unfold bind at 1. unfold print at 1, emit.
    rewrite (bind_Ret _ _ _ _ _ _ (load_artifacts_present w model label_encoder cols
                                     Hm Hl Hc)).
    rewrite (bind_Ret _ _ _ _ _ _ Hask), (bind_Ret _ _ _ _ _ _ Hinv).
    rewrite (bind_Ret _ _ _ _ _ _ Hrank), (bind_Ret _ _ _ _ _ _ Hreport).
    unfold ret. do 2 eexists. split; [reflexivity | ].
    cbn [top1_of feature_columns_of top3_soups_of top3_probs_of List.length].
    rewrite !length_map. auto. }
  destruct Hranking as (r & tr & Hranking & Htop1 & Hcols & Hlens).
  destruct (explain_missing_succeeds w5 history (top1_of r) cols (inventory_of r) k Hh Hk
              Hbin) as [tr5 Hexplain].
  destruct (save_prediction_total (in_date_input (inputs_of r)) (top1_of r) (p1_of r)
              (in_weather_str (inputs_of r)) (in_temp (inputs_of r)) w5 l6 rest eq_refl)
    as (f & tr6 & Hsave).
  unfold predict_py. rewrite (bind_Ret _ _ _ _ _ _ Hranking).
  unfold predict_explanation. rewrite Hcols.
  rewrite (bind_Ret _ _ _ _ _ _ Hexplain).
  rewrite (bind_Ret _ _ _ _ _ _ (show_alternatives_trace _ _ w5 Hlens)).
  unfold bind at 1. unfold print at 1, emit.
  unfold bind at 1. unfold print at 1, emit.
  unfold bind at 1. unfold print at 1, emit.
  rewrite Hsave. do 2 eexists. split; [reflexivity | ]. split; reflexivity.
Qed.

Lemma predictor_normal_end_witness :
  exists w' tr,
    predict_py
      (Sample.world_of Sample.folder
         ["2024-02-03"; ""; "雨"; "10"; "排骨, 玉米"; "n"]) = (Ret tt, w', tr)
    /\ stdin w' = [] /\ now w' = Sample.today.
Proof.
  apply (predictor_normal_end (L := RefLib)
           (Sample.world_of Sample.folder
              ["2024-02-03"; ""; "雨"; "10"; "排骨, 玉米"; "n"])
           Sample.model Sample.soups Sample.schema Sample.history
           "2024-02-03" "" "雨" "10" "排骨, 玉米" "n" []
           {| Ref.year := 2024; Ref.mon := 2; Ref.day := 3 |}
           (PyFloat.of_Z 10) 0%nat
           eq_refl eq_refl eq_refl eq_refl eq_refl).
  - vm_compute. reflexivity.
  - vm_compute. reflexivity.
  - vm_compute. reflexivity.
  - apply (stable_argsort_ascending [1 # 5; 1 # 2; 3 # 10]).
  - reflexivity.
  - discriminate.
  - reflexivity.
  - vm_compute. reflexivity.
Defined.

(** ** The self test of the trainer (train_model.py, lines 135-157) *)

Lemma ends_app {A : Type} (a b s : list A) :
  (exists t0, b = (t0 ++ s)%list) -> exists t0, (a ++ b)%list = (t0 ++ s)%list.
Proof. intros [t0 ->]. exists (a ++ t0)%list. apply app_assoc. Qed.

(** X14: the self test that closes the trainer shows no answer.  In every
    run that ends normally the question [AI会推荐什么？] is the last thing
    printed: the frame built after it is never given to the model, and
    nothing is opened, written or printed after the three artifacts are saved
    and announced. *)
Theorem trainer_self_test_prints_nothing {L : Lib} (w w' : world) t :
  train_model_py w = (Ret tt, w', t) ->
  exists n t0,
    t = (t0 ++
         [Dump "soup_predictor_model.pkl"; Dump "label_encoder.pkl";
          Dump "feature_columns.pkl";
          Print [T "   ✅ 模型已保存：soup_predictor_model.pkl"] nl;
          Print [T "   ✅ 标签映射已保存：label_encoder.pkl"] nl;
          Print [T nl; T "🎉 训练完成！你的AI已经学会了"; I n; T "种汤的配方！"] nl;
          Print [T nl; T "🔮 做个小测试：假设明天是情况，AI会推荐什么？"] nl])%list.
Proof.
  unfold train_model_py. intros H. cbv zeta in H. bind_inv_all H.
  repeat match goal with
         | Hp : print _ _ = _ |- _ =>
             unfold print, emit in Hp; inversion Hp; subst; clear Hp
         | Hd : dump_model _ _ = _ |- _ =>
             unfold dump_model, write_file in Hd; inversion Hd; subst; clear Hd
         | Hd : dump_label_encoder _ _ = _ |- _ =>
             unfold dump_label_encoder, write_file in Hd; inversion Hd; subst; clear Hd
         | Hd : dump_feature_columns _ _ = _ |- _ =>
             unfold dump_feature_columns, write_file in Hd; inversion Hd; subst; clear Hd
         end.
  unfold ret in H. inversion H; subst. clear H.
  eexists. do 18 apply ends_app. exists []. reflexivity.
Qed.

Lemma trainer_self_test_prints_nothing_witness :
  exists n t0,
    snd (train_model_py (Sample.world_of Sample.folder [])) =
    (t0 ++
     [Dump "soup_predictor_model.pkl"; Dump "label_encoder.pkl";
      Dump "feature_columns.pkl";
      Print [T "   ✅ 模型已保存：soup_predictor_model.pkl"] nl;
      Print [T "   ✅ 标签映射已保存：label_encoder.pkl"] nl;
      Print [T nl; T "🎉 训练完成！你的AI已经学会了"; I n; T "种汤的配方！"] nl;
      Print [T nl; T "🔮 做个小测试：假设明天是情况，AI会推荐什么？"] nl])%list.
Proof.
  destruct (train_model_py (Sample.world_of Sample.folder [])) as [[r w'] t] eqn:E.
  assert (Hr : fst (fst (train_model_py (Sample.world_of Sample.folder []))) = Ret tt).
  { vm_compute. reflexivity. }
  rewrite E in Hr. simpl in Hr. subst r.
  apply (trainer_self_test_prints_nothing (L := RefLib)
           (Sample.world_of Sample.folder []) w' t E).
Defined.
